(** * Import tracking, retrying insertion, merge and reconciliation

    A shallow embedding of the import core of the repository:
    - [data_import_logger.py]: per-table metrics, per-system summaries and
      the tracker that owns them;
    - [error_handler.py]: bulk-then-row-by-row staging insertion and the
      commit/rollback-aware merge step;
    - [data_validator.py]: the read-only reconciliation checks.

    Python integers are unbounded, so counters are [Z].  A dictionary is a
    [gmap].  A method that mutates [self] and may raise becomes a function
    from the state before to an outcome and the state after.  Calls to the
    [logging.Logger] collaborator only produce log output and are left out. *)

From Stdlib Require Import ZArith Lia Ascii.
From stdpp Require Import base option list strings gmap fin_maps pretty.

Local Open Scope Z_scope.

(** ** Python outcomes: a value is returned or an exception is raised *)

Module Py.

(** The error object carried by [oracledb.DatabaseError]: the driver raises
    the exception with exactly one argument, an object with a code and a
    message; [str] of the exception is that message. *)
Record OraError := { ora_code : Z; ora_message : string }.

(** The exceptions that matter to the handlers.  [DatabaseError] stands for
    [oracledb.DatabaseError] and its subclasses, everything else that
    derives from [Exception] and is not one of the named classes is
    [OtherException].  [StagingInsertError] and [MergeOperationError] keep
    the exception they were raised [from]. *)
Inductive PyExn :=
| DatabaseError (err : OraError)
| ValueError (msg : string)
| StagingInsertError (msg : string) (cause : PyExn)
| MergeOperationError (msg : string) (cause : PyExn)
| OtherException (cls : string) (msg : string).

(** [str(e)] *)
Definition exn_str (e : PyExn) : string :=
  match e with
  | DatabaseError err => ora_message err
  | ValueError msg => msg
  | StagingInsertError msg _ => msg
  | MergeOperationError msg _ => msg
  | OtherException _ msg => msg
  end.

(** [isinstance(e, oracledb.DatabaseError)] *)
Definition is_database_error (e : PyExn) : bool :=
  match e with DatabaseError _ => true | _ => false end.

Inductive Outcome (A : Type) :=
| Returned (a : A)
| Raised (e : PyExn).
Arguments Returned {A} a.
Arguments Raised {A} e.

Definition is_raised {A} (o : Outcome A) : bool :=
  match o with Raised _ => true | Returned _ => false end.

(** A computation over a mutable state [S]: the state is threaded through
    and survives a raised exception. *)
Definition M (S A : Type) : Type := S -> Outcome A * S.

Definition ret {S A} (a : A) : M S A := fun s => (Returned a, s).
Definition raise {S A} (e : PyExn) : M S A := fun s => (Raised e, s).
Definition bind {S A B} (c : M S A) (k : A -> M S B) : M S B :=
  fun s => match c s with
           | (Returned a, s') => k a s'
           | (Raised e, s') => (Raised e, s')
           end.
(** [try: c  except Exception as e: h e] *)
Definition try_except {S A} (c : M S A) (h : PyExn -> M S A) : M S A :=
  fun s => match c s with
           | (Returned a, s') => (Returned a, s')
           | (Raised e, s') => h e s'
           end.
Definition get {S} : M S S := fun s => (Returned s, s).
Definition modify {S} (f : S -> S) : M S unit := fun s => (Returned tt, f s).

(** Truthiness of a list, and the values of a dictionary. *)
Definition list_truthy {A} (l : list A) : bool :=
  match l with [] => false | _ :: _ => true end.
Definition dict_values `{Countable K} {V} (d : gmap K V) : list V :=
  (map_to_list d).*2.
Definition dict_truthy `{Countable K} {V} (d : gmap K V) : bool :=
  list_truthy (map_to_list d).

Definition sum_Z (l : list Z) : Z := foldr Z.add 0 l.
Definition len {A} (l : list A) : Z := Z.of_nat (length l).

(** Python text is a string holding its UTF-8 encoding, so a character is
    one byte that is not a continuation byte ([10xxxxxx]) followed by its
    continuation bytes.  [str_take n s] is the slice [s[:n]]: the first [n]
    characters of [s], each with all of its bytes. *)
Definition is_continuation (c : Ascii.ascii) : bool :=
  match c with
  | Ascii.Ascii _ _ _ _ _ _ b6 b7 => b7 && negb b6
  end.

Fixpoint str_take (n : nat) (s : string) : string :=
  match s with
  | EmptyString => EmptyString
  | String c rest =>
      if is_continuation c then String c (str_take n rest)
      else match n with
           | O => EmptyString
           | S n' => String c (str_take n' rest)
           end
  end.

End Py.
Import Py.

Declare Scope py_scope.
Delimit Scope py_scope with py.
Notation "'do' x <- c ; k" := (bind c (fun x => k))
  (at level 10, x name, c at level 100, k at level 200) : py_scope.
Notation "c ;; k" := (bind c (fun _ => k))
  (at level 100, k at level 200, right associativity) : py_scope.

(** ** data_import_logger.py *)

Inductive ImportStage := CSV_EXTRACTION | STAGING_INSERT | MERGE_OPERATION | VALIDATION.
Inductive ImportStatus := SUCCESS | WARNING | ERROR | SKIPPED.

#[global] Instance ImportStage_eq_dec : EqDecision ImportStage.
Proof. solve_decision. Defined.
#[global] Instance ImportStatus_eq_dec : EqDecision ImportStatus.
Proof. solve_decision. Defined.

Definition stage_code (s : ImportStage) : nat :=
  match s with
  | CSV_EXTRACTION => 0 | STAGING_INSERT => 1
  | MERGE_OPERATION => 2 | VALIDATION => 3
  end%nat.
Definition stage_of_code (n : nat) : option ImportStage :=
  match n with
  | 0 => Some CSV_EXTRACTION | 1 => Some STAGING_INSERT
  | 2 => Some MERGE_OPERATION | 3 => Some VALIDATION
  | _ => None
  end%nat.
#[global] Instance ImportStage_countable : Countable ImportStage.
Proof.
  apply (inj_countable stage_code stage_of_code).
  intros []; reflexivity.
Defined.

(** A [datetime] is a clock reading; [datetime.now()] is an input of the
    operation that reads the clock. *)
Definition datetime := Z.

Module TableImportMetrics.

Record t := mk {
  table_name : string;
  csv_file : string;
  csv_row_count : Z;
  staging_inserted : Z;
  staging_errors : Z;
  merge_matched : Z;
  merge_inserted : Z;
  merge_updated : Z;
  merge_errors : Z;
  validation_passed : bool;
  validation_issues : list string;
  stage_errors : gmap ImportStage (list string);
  start_time : option datetime;
  end_time : option datetime
}.

(** The dataclass constructor with its defaults. *)
Definition new (table_name csv_file : string) (csv_row_count : Z)
    (start_time : option datetime) : t :=
  mk table_name csv_file csv_row_count 0 0 0 0 0 0 false [] ∅ start_time None.

Definition set_staging (ins errs : Z) (m : t) : t :=
  mk (table_name m) (csv_file m) (csv_row_count m) ins errs
     (merge_matched m) (merge_inserted m) (merge_updated m) (merge_errors m)
     (validation_passed m) (validation_issues m) (stage_errors m)
     (start_time m) (end_time m).
Definition set_merge (matched ins upd errs : Z) (m : t) : t :=
  mk (table_name m) (csv_file m) (csv_row_count m)
     (staging_inserted m) (staging_errors m) matched ins upd errs
     (validation_passed m) (validation_issues m) (stage_errors m)
     (start_time m) (end_time m).
Definition set_validation_passed (p : bool) (m : t) : t :=
  mk (table_name m) (csv_file m) (csv_row_count m)
     (staging_inserted m) (staging_errors m)
     (merge_matched m) (merge_inserted m) (merge_updated m) (merge_errors m)
     p (validation_issues m) (stage_errors m) (start_time m) (end_time m).
Definition set_validation_issues (l : list string) (m : t) : t :=
  mk (table_name m) (csv_file m) (csv_row_count m)
     (staging_inserted m) (staging_errors m)
     (merge_matched m) (merge_inserted m) (merge_updated m) (merge_errors m)
     (validation_passed m) l (stage_errors m) (start_time m) (end_time m).
Definition set_stage_errors (d : gmap ImportStage (list string)) (m : t) : t :=
  mk (table_name m) (csv_file m) (csv_row_count m)
     (staging_inserted m) (staging_errors m)
     (merge_matched m) (merge_inserted m) (merge_updated m) (merge_errors m)
     (validation_passed m) (validation_issues m) d (start_time m) (end_time m).
Definition set_end_time (e : option datetime) (m : t) : t :=
  mk (table_name m) (csv_file m) (csv_row_count m)
     (staging_inserted m) (staging_errors m)
     (merge_matched m) (merge_inserted m) (merge_updated m) (merge_errors m)
     (validation_passed m) (validation_issues m) (stage_errors m)
     (start_time m) e.

(** [add_error]: create the stage's list when the stage is not a key yet,
    then append. *)
Definition add_error (stage : ImportStage) (error_msg : string) (m : t) : t :=
  let d := match stage_errors m !! stage with
           | None => <[stage := []]> (stage_errors m)
           | Some _ => stage_errors m
           end in
  set_stage_errors (alter (fun errs => errs ++ [error_msg]) stage d) m.

(** [any(self.stage_errors.values())]: some list is non-empty. *)
Definition any_values (d : gmap ImportStage (list string)) : bool :=
  existsb list_truthy (dict_values d).

Definition get_status (m : t) : ImportStatus :=
  if dict_truthy (stage_errors m) && any_values (stage_errors m) then ERROR
  else if list_truthy (validation_issues m) then WARNING
  else if staging_inserted m =? 0 then SKIPPED
  else SUCCESS.

(** [sum(len(e) for e in m.stage_errors.values())] *)
Definition error_count (m : t) : Z :=
  sum_Z (len <$> dict_values (stage_errors m)).

End TableImportMetrics.

Module SystemImportSummary.

Record t := mk {
  system_name : string;
  tables : gmap string TableImportMetrics.t;
  start_time : option datetime;
  end_time : option datetime;
  total_csv_rows : Z;
  total_staging_inserted : Z;
  total_merge_updates : Z;
  total_merge_inserts : Z;
  total_errors : Z;
  total_warnings : Z
}.

Definition new (system_name : string) : t :=
  mk system_name ∅ None None 0 0 0 0 0 0.

Definition set_start_time (x : option datetime) (s : t) : t :=
  mk (system_name s) (tables s) x (end_time s) (total_csv_rows s)
     (total_staging_inserted s) (total_merge_updates s)
     (total_merge_inserts s) (total_errors s) (total_warnings s).
Definition set_end_time (x : option datetime) (s : t) : t :=
  mk (system_name s) (tables s) (start_time s) x (total_csv_rows s)
     (total_staging_inserted s) (total_merge_updates s)
     (total_merge_inserts s) (total_errors s) (total_warnings s).

(** [add_table]: the entry is stored under the table's name, the totals
    grow by the table's fields; the errors are counted by the loop over
    the stage lists. *)
Definition add_table (metrics : TableImportMetrics.t) (s : t) : t :=
  mk (system_name s)
     (<[TableImportMetrics.table_name metrics := metrics]> (tables s))
     (start_time s) (end_time s)
     (total_csv_rows s + TableImportMetrics.csv_row_count metrics)
     (total_staging_inserted s + TableImportMetrics.staging_inserted metrics)
     (total_merge_updates s + TableImportMetrics.merge_updated metrics)
     (total_merge_inserts s + TableImportMetrics.merge_inserted metrics)
     (foldl (fun acc errors => acc + len errors) (total_errors s)
            (dict_values (TableImportMetrics.stage_errors metrics)))
     (total_warnings s + len (TableImportMetrics.validation_issues metrics)).

(** A sequence of additions, first to last. *)
Definition add_tables (ms : list TableImportMetrics.t) (s : t) : t :=
  foldl (fun s m => add_table m s) s ms.

End SystemImportSummary.

(** The tracker.  [upper] is Python's [str.upper]. *)
Module DataImportLogger.
Section Tracker.

Variable upper : string -> string.

Record t := mk {
  molo_summary : SystemImportSummary.t;
  stellar_summary : SystemImportSummary.t;
  current_metrics : option TableImportMetrics.t
}.

(** [__init__] *)
Definition new : t :=
  mk (SystemImportSummary.new "MOLO") (SystemImportSummary.new "Stellar") None.

Definition set_current_metrics (c : option TableImportMetrics.t) (l : t) : t :=
  mk (molo_summary l) (stellar_summary l) c.

(** [_get_summary] returns one of the two summary objects of the tracker;
    the caller then mutates that object, so the model returns which one. *)
Inductive SummaryRef := MoloSummary | StellarSummary.

Definition update (r : SummaryRef)
    (f : SystemImportSummary.t -> SystemImportSummary.t) (l : t) : t :=
  match r with
  | MoloSummary => mk (f (molo_summary l)) (stellar_summary l) (current_metrics l)
  | StellarSummary => mk (molo_summary l) (f (stellar_summary l)) (current_metrics l)
  end.

Definition _get_summary (system_name : string) : M t SummaryRef :=
  if String.eqb (upper system_name) "MOLO" then ret MoloSummary
  else if String.eqb (upper system_name) "STELLAR" then ret StellarSummary
  else raise (ValueError ("Unknown system: " +:+ system_name)).

Definition start_system_import (system_name : string) (now : datetime) : M t unit :=
  (do summary <- _get_summary system_name;
   modify (update summary (SystemImportSummary.set_start_time (Some now))))%py.

Definition end_system_import (system_name : string) (now : datetime) : M t unit :=
  (do summary <- _get_summary system_name;
   modify (update summary (SystemImportSummary.set_end_time (Some now))))%py.

Definition start_table_import (system_name table_name csv_file : string)
    (csv_row_count : Z) (now : datetime) : M t unit :=
  modify (set_current_metrics
            (Some (TableImportMetrics.new table_name csv_file csv_row_count (Some now)))).

(** [end_table_import]: nothing to do without an open record; otherwise
    the end time is stamped on the open record first, then the summary is
    looked up, the record is added to it and the slot is cleared. *)
Definition end_table_import (system_name : string) (now : datetime) : M t unit :=
  (do l <- get;
   match current_metrics l with
   | None => ret tt
   | Some m =>
       let m' := TableImportMetrics.set_end_time (Some now) m in
       modify (set_current_metrics (Some m')) ;;
       do summary <- _get_summary system_name;
       modify (update summary (SystemImportSummary.add_table m')) ;;
       modify (set_current_metrics None)
   end)%py.

(** Each [log_*] method and [add_error] acts on the open record only. *)
Definition on_current (f : TableImportMetrics.t -> TableImportMetrics.t) : M t unit :=
  (do l <- get;
   match current_metrics l with
   | Some m => modify (set_current_metrics (Some (f m)))
   | None => ret tt
   end)%py.

Definition log_staging_insert (inserted_count error_count : Z) : M t unit :=
  on_current (TableImportMetrics.set_staging inserted_count error_count).

Definition log_merge_operation (matched inserted updated error_count : Z) : M t unit :=
  on_current (TableImportMetrics.set_merge matched inserted updated error_count).

(** [issues] defaults to [None]; only a non-empty list extends the
    record's issue list. *)
Definition log_validation_result (passed : bool) (issues : option (list string)) : M t unit :=
  on_current (fun m =>
    let m1 := TableImportMetrics.set_validation_passed passed m in
    match issues with
    | Some (i :: rest) =>
        TableImportMetrics.set_validation_issues
          (TableImportMetrics.validation_issues m1 ++ i :: rest) m1
    | _ => m1
    end).

Definition add_error (stage : ImportStage) (error_msg : string) : M t unit :=
  on_current (TableImportMetrics.add_error stage error_msg).

End Tracker.
End DataImportLogger.

(** ASCII upper-casing, on which [str.upper] agrees for ASCII text. *)
Definition ascii_upper_char (c : Ascii.ascii) : Ascii.ascii :=
  let n := Ascii.nat_of_ascii c in
  if (97 <=? n)%nat && (n <=? 122)%nat then Ascii.ascii_of_nat (n - 32) else c.
Fixpoint ascii_upper (s : string) : string :=
  match s with
  | EmptyString => EmptyString
  | String c r => String (ascii_upper_char c) (ascii_upper r)
  end.

(** ** error_handler.py *)

(** The values stored in an error-log entry's metadata dictionary. *)
Inductive PyVal := PInt (n : Z) | PStr (s : string) | PNone.

Module ErrorHandler.

Record ErrorEntry := {
  entry_type : string;
  entry_context : string;
  entry_message : string;
  entry_metadata : gmap string PyVal
}.

Record t := mk { max_retries : Z; error_log : list ErrorEntry }.

(** [__init__], [max_retries] defaults to 3. *)
Definition new (max_retries : Z) : t := mk max_retries [].

(** The result dictionary of a merge; [error_message] is the key that is
    only present in the failure result. *)
Record MergeResult := {
  matched : Z;
  inserted : Z;
  updated : Z;
  errors : Z;
  success : bool;
  error_message : option string
}.

(** The database connector as the merge step uses it:
    [cursor.execute(sql)], [cursor.rowcount], [connection.commit()] and
    [connection.rollback()], each acting on the database [W] and each
    able to raise. *)
Record Connector (W : Type) := {
  cursor_execute : string -> M W unit;
  cursor_rowcount : M W Z;
  connection_commit : M W unit;
  connection_rollback : M W unit
}.
Arguments cursor_execute {W} _ _ _.
Arguments cursor_rowcount {W} _ _.
Arguments connection_commit {W} _ _.
Arguments connection_rollback {W} _ _.

Section Handler.

(** [W] is whatever the borrowed operations act on (the database),
    [Row] the type of a data row and [str_row] Python's [str] on it. *)
Context {W Row : Type}.
Variable str_row : Row -> string.

(** The handler object together with the world its callees act on. *)
Record St := mkSt { self : t; world : W }.

(** Run a borrowed operation: it sees and changes the world only. *)
Definition call {A} (c : M W A) : M St A :=
  fun st => let '(o, w') := c (world st) in (o, mkSt (self st) w').

(** [metadata or {}] *)
Definition _log_error (error_type context message : string)
    (metadata : option (gmap string PyVal)) : M St unit :=
  let md := match metadata with
            | Some d => if dict_truthy d then d else ∅
            | None => ∅
            end in
  modify (fun st =>
    mkSt (mk (max_retries (self st))
             (error_log (self st) ++ [Build_ErrorEntry error_type context message md]))
         (world st)).

(** The loop of [_insert_row_by_row]: [idx] is the index [enumerate]
    gives, the two counters are the loop's accumulators.  The body's
    [except Exception] catches whatever the single-row call raises; the
    first five failures are written to the error log, with the first 200
    characters of the row's text. *)
Fixpoint row_loop (table_name : string) (operation : list Row -> M W unit)
    (rows : list Row) (idx success_count error_count : Z) : M St (Z * Z) :=
  match rows with
  | [] => ret (success_count, error_count)
  | row :: rest =>
      (do counts <-
         try_except
           (call (operation [row]) ;; ret (success_count + 1, error_count))
           (fun e =>
              let error_count := error_count + 1 in
              (if error_count <=? 5
               then _log_error "staging_insert" table_name (exn_str e)
                      (Some (<["row_index" := PInt idx]>
                               {["row_data" := PStr (str_take 200 (str_row row))]}))
               else ret tt) ;;
              ret (success_count, error_count));
       row_loop table_name operation rest (idx + 1) (fst counts) (snd counts))%py
  end.

Definition _insert_row_by_row (table_name : string)
    (operation : list Row -> M W unit) (data_rows : list Row) : M St (Z * Z) :=
  row_loop table_name operation data_rows 0 0 0.

(** [handle_staging_insert]; [operation] is the insert function already
    applied to its extra arguments.  An exception raised inside an
    [except] clause is not caught by the clause after it. *)
Definition handle_staging_insert (table_name : string)
    (operation : list Row -> M W unit) (data_rows : list Row) : M St (Z * Z) :=
  if negb (list_truthy data_rows) then ret (0, 0)
  else fun st =>
    match call (operation data_rows) st with
    | (Returned _, st') => (Returned (len data_rows, 0), st')
    | (Raised (DatabaseError _), st') =>
        _insert_row_by_row table_name operation data_rows st'
    | (Raised e, st') =>
        (_log_error "staging_insert" table_name (exn_str e)
           (Some {["row_count" := PInt (len data_rows)]}) ;;
         raise (StagingInsertError
                  ("Failed to insert into " +:+ table_name +:+ ": " +:+ exn_str e) e))%py st'
    end.

(** [table_name or procedure_name] *)
Definition display_name (procedure_name : string) (table_name : option string) : string :=
  match table_name with
  | Some n => if String.eqb n "" then procedure_name else n
  | None => procedure_name
  end.

Definition table_name_val (table_name : option string) : PyVal :=
  match table_name with Some n => PStr n | None => PNone end.

Definition handle_merge_operation (procedure_name : string)
    (db_connector : Connector W) (table_name : option string) : M St MergeResult :=
  fun st =>
    match call (cursor_execute db_connector ("BEGIN " +:+ procedure_name +:+ "; END;") ;;
                do row_count <- cursor_rowcount db_connector;
                connection_commit db_connector ;;
                ret row_count)%py st with
    | (Returned row_count, st') =>
        (Returned (Build_MergeResult row_count 0 0 0 true None), st')
    | (Raised (DatabaseError error_obj), st') =>
        let error_msg := ora_message error_obj in
        (_log_error "merge_operation" procedure_name error_msg
           (Some {["table_name" := table_name_val table_name]}) ;;
         call (connection_rollback db_connector) ;;
         ret (Build_MergeResult 0 0 0 1 false (Some error_msg)))%py st'
    | (Raised e, st') =>
        (_log_error "merge_operation" procedure_name (exn_str e)
           (Some {["table_name" := table_name_val table_name]}) ;;
         call (connection_rollback db_connector) ;;
         raise (MergeOperationError
                  ("Failed to merge " +:+ display_name procedure_name table_name
                     +:+ ": " +:+ exn_str e) e))%py st'
    end.

(** [handle_validation]; [func_str] and [args_str] are [str] of the
    function object and of the argument tuple. *)
Definition handle_validation (validation_func : M W (bool * list string))
    (func_str args_str : string) : M St (bool * list string) :=
  try_except (call validation_func)
    (fun e =>
       _log_error "validation" func_str (exn_str e)
         (Some {["args" := PStr (str_take 200 args_str)]}) ;;
       ret (false, ["Validation exception: " +:+ exn_str e]))%py.

End Handler.

Arguments St : clear implicits.
Arguments mkSt {W} _ _.

(** Call instrumentation: an operation that also writes down the batch it
    was given, and a connector that writes down which of its methods ran. *)
Definition traced {W Row} (operation : list Row -> M W unit)
    : list Row -> M (W * list (list Row)) unit :=
  fun batch '(w, log) =>
    let '(o, w') := operation batch w in (o, (w', log ++ [batch])).

Inductive DbCall := Execute (sql : string) | Rowcount | Commit | Rollback.

Definition traced_step {W A} (ev : DbCall) (c : M W A) : M (W * list DbCall) A :=
  fun '(w, log) => let '(o, w') := c w in (o, (w', log ++ [ev])).

Definition traced_connector {W} (db : Connector W) : Connector (W * list DbCall) :=
  {| cursor_execute := fun sql => traced_step (Execute sql) (cursor_execute db sql);
     cursor_rowcount := traced_step Rowcount (cursor_rowcount db);
     connection_commit := traced_step Commit (connection_commit db);
     connection_rollback := traced_step Rollback (connection_rollback db) |}.

End ErrorHandler.

(** ** data_validator.py *)

(** A value in a result row; [cell_str] is Python's [str] on it. *)
Inductive Cell := CInt (n : Z) | CStr (s : string) | CNull.

#[global] Instance Cell_eq_dec : EqDecision Cell.
Proof. solve_decision. Defined.

Definition cell_str (c : Cell) : string :=
  match c with
  | CInt n => pretty n
  | CStr s => s
  | CNull => "None"
  end.

(** [f"{n:,}"]: decimal digits in groups of three, separated by commas. *)
Fixpoint commas_rev (rev_digits : list Ascii.ascii) : list Ascii.ascii :=
  match rev_digits with
  | a :: b :: c :: ((_ :: _) as rest) => a :: b :: c :: ","%char :: commas_rev rest
  | _ => rev_digits
  end.
Definition group_digits (digits : string) : string :=
  String.string_of_list_ascii (rev (commas_rev (rev (String.list_ascii_of_string digits)))).
Definition fmt_comma (n : Z) : string :=
  match n with
  | Z0 => "0"
  | Zpos q => group_digits (pretty (Npos q))
  | Zneg q => "-" +:+ group_digits (pretty (Npos q))
  end.

Definition nl : string := String (Ascii.ascii_of_nat 10) "".
Definition indent16 : string := "                ".
Definition indent12 : string := "            ".

Module DataValidator.

(** A row of [csv.DictReader]: field name to cell, where a short row has
    [None] for the fields it lacks. *)
Abbreviation CsvRow := (gmap string (option string)).

(** [row.get(key)] *)
Definition row_get (key : string) (row : CsvRow) : option string :=
  mjoin (row !! key).

(** [a or b] on optional strings: [None] and the empty string are falsy. *)
Definition str_truthy (a : option string) : bool :=
  match a with
  | Some s => negb (String.eqb s "")
  | None => false
  end.
Definition str_or (a b : option string) : option string :=
  if str_truthy a then a else b.

(** The cursor of the borrowed connector, acting on the database [W].
    [fetchone] is only used after a counting query, whose row holds
    integers ([_get_row_count] and [_count_null_ids] are declared to
    return [int]); [fetchall] gives rows of arbitrary cells. *)
Record Cursor (W : Type) := {
  execute : string -> option (list string) -> M W unit;
  fetchone : M W (option (list Z));
  fetchall : M W (list (list Cell))
}.
Arguments execute {W} _ _ _ _.
Arguments fetchone {W} _ _.
Arguments fetchall {W} _ _.

Section Validator.

Context {W : Type}.
(** The connector, [list(csv.DictReader(io.StringIO(content)))] and
    the [repr] of a list of strings come from outside. *)
Variable db : Cursor W.
Variable csv_rows_of : string -> Outcome (list CsvRow).
Variable repr_list : list string -> string.

(** The frame of one validation call: the database and the local
    [issues] list, which the [except] clause still sees. *)
Record Frame := mkFrame { database : W; issues : list string }.

Definition call {A} (c : M W A) : M Frame A :=
  fun fr => let '(o, w') := c (database fr) in (o, mkFrame w' (issues fr)).
Definition issues_append (msg : string) : M Frame unit :=
  modify (fun fr => mkFrame (database fr) (issues fr ++ [msg])).
Definition when (b : bool) (c : M Frame unit) : M Frame unit :=
  if b then c else ret tt.
Definition lift_outcome {A} (o : Outcome A) : M Frame A :=
  fun fr => (o, fr).
(** Enter the method with [issues = []] and leave with its result. *)
Definition run_frame {A} (c : M Frame A) : M W A :=
  fun w => let '(o, fr) := c (mkFrame w []) in (o, database fr).

(** [result[0] if result else 0] *)
Definition first_or_zero (result : option (list Z)) : Z :=
  match result with
  | Some (c :: _) => c
  | _ => 0
  end.

Definition _get_row_count (table_name : string) : M W Z :=
  try_except
    (execute db ("SELECT COUNT(*) FROM " +:+ table_name) None ;;
     do result <- fetchone db;
     ret (first_or_zero result))%py
    (fun _ => ret 0).

Definition _count_null_ids (table_name id_column : string) : M W Z :=
  try_except
    (execute db ("SELECT COUNT(*) FROM " +:+ table_name
                   +:+ " WHERE " +:+ id_column +:+ " IS NULL") None ;;
     do result <- fetchone db;
     ret (first_or_zero result))%py
    (fun _ => ret 0).

(** [','.join([f":{i+1}" for i in range(len(ids))])] *)
Definition placeholders (n : nat) : string :=
  String.concat "," ((fun i => ":" +:+ pretty (i + 1)%nat) <$> seq 0 n).

Definition ids_query (table_name id_column : string) (n : nat) : string :=
  nl +:+ indent16 +:+ "SELECT " +:+ id_column +:+ " " +:+ nl
     +:+ indent16 +:+ "FROM " +:+ table_name +:+ " " +:+ nl
     +:+ indent16 +:+ "WHERE " +:+ id_column +:+ " IN (" +:+ placeholders n +:+ ")" +:+ nl
     +:+ indent12.

(** [{str(row[0]) for row in rows}]; [row[0]] of an empty row raises. *)
Fixpoint first_cells (rows : list (list Cell)) : Outcome (list string) :=
  match rows with
  | [] => Returned []
  | [] :: _ => Raised (OtherException "IndexError" "tuple index out of range")
  | (c :: _) :: rest =>
      match first_cells rest with
      | Returned l => Returned (cell_str c :: l)
      | Raised e => Raised e
      end
  end.

Definition _check_ids_exist (table_name id_column : string) (ids : list string)
    : M W (list string) :=
  try_except
    (if negb (list_truthy ids) then ret []
     else
       execute db (ids_query table_name id_column (length ids)) (Some ids) ;;
       do rows <- fetchall db;
       do found_ids <- (fun w => (first_cells rows, w));
       ret (filter (fun id_val => id_val ∉ found_ids) ids))%py
    (fun _ => ret []).

(** The ids of the first five rows that have one, under [id_column] or
    else under ['Id']. *)
Definition sample_ids (id_column : string) (csv_rows : list CsvRow) : list string :=
  omap (fun row =>
          let v := str_or (row_get id_column row) (row_get "Id" row) in
          if str_truthy v then v else None)
       (take 5 csv_rows).

Definition validate_table_import (csv_content staging_table dw_table id_column : string)
    : M W (bool * list string) :=
  run_frame (try_except
    (do csv_rows <- lift_outcome (csv_rows_of csv_content);
     let csv_count := len csv_rows in
     if csv_count =? 0 then ret (true, [])
     else
       do staging_count <- call (_get_row_count staging_table);
       do dw_count <- call (_get_row_count dw_table);
       when (negb (csv_count =? staging_count))
         (issues_append
            ("Row count mismatch: CSV=" +:+ fmt_comma csv_count +:+ ", "
             +:+ "Staging=" +:+ fmt_comma staging_count +:+ " "
             +:+ "(difference: " +:+ fmt_comma (Z.abs (csv_count - staging_count)) +:+ ")")) ;;
       when ((0 <? staging_count) && (dw_count <? staging_count))
         (issues_append
            ("DW has fewer rows than staging: "
             +:+ "Staging=" +:+ fmt_comma staging_count +:+ ", DW=" +:+ fmt_comma dw_count)) ;;
       when (0 <? csv_count)
         (let ids := sample_ids id_column csv_rows in
          when (list_truthy ids)
            (do missing_ids <- call (_check_ids_exist dw_table id_column ids);
             when (list_truthy missing_ids)
               (issues_append ("Sample IDs not found in DW: " +:+ repr_list missing_ids)))) ;;
       do null_id_count <- call (_count_null_ids staging_table id_column);
       when (0 <? null_id_count)
         (issues_append
            (pretty null_id_count +:+ " records with NULL " +:+ id_column +:+ " "
             +:+ "in staging")) ;;
       do fr <- get;
       ret (len (issues fr) =? 0, issues fr))
    (fun e =>
       issues_append ("Validation exception: " +:+ exn_str e) ;;
       do fr <- get;
       ret (false, issues fr)))%py.

(** [expected_updates or 0] *)
Definition int_or_zero (x : option Z) : Z :=
  match x with Some n => n | None => 0 end.

Definition validate_merge_operation (staging_table dw_table : string)
    (expected_updates expected_inserts : option Z) : M W (bool * list string) :=
  run_frame (try_except
    (do staging_count <- call (_get_row_count staging_table);
     do dw_count <- call (_get_row_count dw_table);
     when (dw_count <? staging_count)
       (issues_append
          ("Not all staging records in DW: "
           +:+ "Staging=" +:+ fmt_comma staging_count +:+ ", DW=" +:+ fmt_comma dw_count)) ;;
     when (bool_decide (expected_updates ≠ None) || bool_decide (expected_inserts ≠ None))
       (let expected_total := int_or_zero expected_updates + int_or_zero expected_inserts in
        when (negb (expected_total =? staging_count))
          (issues_append
             ("Merge count mismatch: "
              +:+ "Expected=" +:+ fmt_comma expected_total +:+ ", "
              +:+ "Staging=" +:+ fmt_comma staging_count))) ;;
     do fr <- get;
     ret (len (issues fr) =? 0, issues fr))
    (fun e =>
       issues_append ("Merge validation exception: " +:+ exn_str e) ;;
       do fr <- get;
       ret (false, issues fr)))%py.

Definition orphan_query (child_table parent_table foreign_key parent_key : string) : string :=
  nl +:+ indent16 +:+ "SELECT COUNT(*) " +:+ nl
     +:+ indent16 +:+ "FROM " +:+ child_table +:+ " c" +:+ nl
     +:+ indent16 +:+ "WHERE c." +:+ foreign_key +:+ " IS NOT NULL" +:+ nl
     +:+ indent16 +:+ "AND NOT EXISTS (" +:+ nl
     +:+ indent16 +:+ "    SELECT 1 " +:+ nl
     +:+ indent16 +:+ "    FROM " +:+ parent_table +:+ " p " +:+ nl
     +:+ indent16 +:+ "    WHERE p." +:+ parent_key +:+ " = c." +:+ foreign_key +:+ nl
     +:+ indent16 +:+ ")" +:+ nl
     +:+ indent12.

Definition orphan_issue (orphan_count : Z)
    (child_table parent_table foreign_key parent_key : string) : string :=
  pretty orphan_count +:+ " orphaned records in " +:+ child_table +:+ " "
    +:+ "(" +:+ foreign_key +:+ " references missing "
    +:+ parent_table +:+ "." +:+ parent_key +:+ ")".

Definition check_referential_integrity
    (child_table parent_table foreign_key parent_key : string)
    : M W (bool * list string) :=
  run_frame (try_except
    (call (execute db (orphan_query child_table parent_table foreign_key parent_key) None) ;;
     do result <- call (fetchone db);
     let orphan_count := first_or_zero result in
     when (0 <? orphan_count)
       (issues_append
          (orphan_issue orphan_count child_table parent_table foreign_key parent_key)) ;;
     do fr <- get;
     ret (len (issues fr) =? 0, issues fr))
    (fun e =>
       issues_append ("Referential integrity check exception: " +:+ exn_str e) ;;
       do fr <- get;
       ret (false, issues fr)))%py.

End Validator.

Arguments Frame : clear implicits.

End DataValidator.

(** * Vocabulary of the properties *)

(** Some stage has a non-empty error list. *)
Definition has_stage_error (m : TableImportMetrics.t) : Prop :=
  ∃ stage errs,
    TableImportMetrics.stage_errors m !! stage = Some errs ∧ errs ≠ [].

(** A system identifier the tracker has no summary for. *)
Definition unknown_system (upper : string -> string) (system_name : string) : Prop :=
  upper system_name ≠ "MOLO" ∧ upper system_name ≠ "STELLAR".

(** The sentence "endTable raises a ValueError, leaving the state
    unchanged, for every unknown system identifier". *)
Definition end_table_always_rejects_unknown (upper : string -> string) : Prop :=
  ∀ system_name now l,
    unknown_system upper system_name →
    ∃ msg, DataImportLogger.end_table_import upper system_name now l
           = (Raised (ValueError msg), l).

(** ** Sample data *)

(** A record with one validation error, three issues and rows staged is
    still an Error; the same record without the stage error is a Warning;
    without the issues, Skipped or Success by what was staged. *)
Definition sample_metrics (staged : Z) (issues : list string)
    (errs : gmap ImportStage (list string)) : TableImportMetrics.t :=
  TableImportMetrics.set_stage_errors errs
    (TableImportMetrics.set_validation_issues issues
       (TableImportMetrics.set_staging staged 0
          (TableImportMetrics.new "BOATS" "boats.csv" 10 (Some 0)))).


(** Two records for the same table identifier. *)
Definition boats_first : TableImportMetrics.t :=
  TableImportMetrics.add_error STAGING_INSERT "row 3 rejected"
    (TableImportMetrics.set_merge 7 2 5 0
       (TableImportMetrics.set_staging 7 1
          (TableImportMetrics.new "BOATS" "boats_1.csv" 8 (Some 0)))).
Definition boats_second : TableImportMetrics.t :=
  TableImportMetrics.set_validation_issues ["count differs"]
    (TableImportMetrics.set_merge 4 3 1 0
       (TableImportMetrics.set_staging 4 0
          (TableImportMetrics.new "BOATS" "boats_2.csv" 4 (Some 5)))).

(** ** Vocabulary of the handlers *)

(** The log entry written by the staging handler for a fatal bulk fault. *)
Definition fatal_staging_entry {Row} (table_name : string) (data_rows : list Row)
    (e : PyExn) : ErrorHandler.ErrorEntry :=
  ErrorHandler.Build_ErrorEntry "staging_insert" table_name (exn_str e)
    {["row_count" := PInt (len data_rows)]}.

(** Trying each row alone, one after the other on the same database: for
    each row whether its call returned, and the database at the end. *)
Fixpoint attempt_rows {W Row} (operation : list Row -> M W unit) (rows : list Row)
    (w : W) : list bool * W :=
  match rows with
  | [] => ([], w)
  | row :: rest =>
      let '(o, w1) := operation [row] w in
      let '(results, w2) := attempt_rows operation rest w1 in
      (negb (is_raised o) :: results, w2)
  end.

Definition successes (results : list bool) : Z := len (List.filter (fun b => b) results).
Definition failures (results : list bool) : Z := len (List.filter negb results).

(** The log entry written by the merge step for a fault [e]. *)
Definition merge_entry (procedure_name : string) (table_name : option string)
    (e : PyExn) : ErrorHandler.ErrorEntry :=
  ErrorHandler.Build_ErrorEntry "merge_operation" procedure_name (exn_str e)
    {["table_name" := ErrorHandler.table_name_val table_name]}.

Definition log_entry (entry : ErrorHandler.ErrorEntry) (h : ErrorHandler.t)
    : ErrorHandler.t :=
  ErrorHandler.mk (ErrorHandler.max_retries h) (ErrorHandler.error_log h ++ [entry]).

(** The structured failure result of a merge. *)
Definition merge_failure (msg : string) : ErrorHandler.MergeResult :=
  ErrorHandler.Build_MergeResult 0 0 0 1 false (Some msg).

Definition merge_statement (procedure_name : string) : string :=
  "BEGIN " +:+ procedure_name +:+ "; END;".

(** ** Sample collaborators *)

Definition null_rejected : OraError :=
  {| ora_code := 1400; ora_message := "ORA-01400: cannot insert NULL" |}.

(** A staging table of numbers that refuses a batch holding a zero. *)
Definition reject_zero_insert : list nat -> M (list nat) unit :=
  fun batch table =>
    if existsb (Nat.eqb 0) batch
    then (Raised (DatabaseError null_rejected), table)
    else (Returned tt, table ++ batch).

(** An insert function that fails outside the driver. *)
Definition broken_insert : list nat -> M (list nat) unit :=
  fun _ table => (Raised (OtherException "TypeError" "unhashable row"), table).

(** A connector over a counter of committed merges: the merge routine
    [MERGE_OK] works, [MERGE_DENIED] raises a database error, any other
    one fails outside the driver. *)
Definition sample_connector : ErrorHandler.Connector nat :=
  {| ErrorHandler.cursor_execute := fun sql n =>
       if String.eqb sql (merge_statement "MERGE_OK") then (Returned tt, n)
       else if String.eqb sql (merge_statement "MERGE_DENIED")
            then (Raised (DatabaseError null_rejected), n)
            else (Raised (OtherException "AttributeError" "no cursor"), n);
     ErrorHandler.cursor_rowcount := fun n => (Returned 3, n);
     ErrorHandler.connection_commit := fun n => (Returned tt, S n);
     ErrorHandler.connection_rollback := fun n => (Returned tt, n) |}.

(** ** Vocabulary of the validator *)

(** A stored row: column name to value, an absent column reads as NULL. *)
Abbreviation DbRow := (gmap string Cell).

Definition column (name : string) (row : DbRow) : Cell :=
  default CNull (row !! name).

Definition is_null (c : Cell) : bool :=
  match c with CNull => true | _ => false end.

(** The meaning of the query that [check_referential_integrity] sends.
    [p.key = c.fk] holds in SQL when both sides are non-null and equal; a
    child row is counted when its foreign key is not null and no parent
    row satisfies the comparison. *)
Definition sql_equal (a b : Cell) : bool :=
  negb (is_null a) && negb (is_null b) && bool_decide (a = b).

Definition is_orphan (parent_rows : list DbRow) (foreign_key parent_key : string)
    (child : DbRow) : bool :=
  negb (is_null (column foreign_key child))
  && negb (existsb (fun p => sql_equal (column parent_key p) (column foreign_key child))
                   parent_rows).

Definition orphan_count (child_rows parent_rows : list DbRow)
    (foreign_key parent_key : string) : Z :=
  len (List.filter (is_orphan parent_rows foreign_key parent_key) child_rows).

(** The sentence "an exception raised during a check always becomes an
    issue of the result, which then has not passed", read on the merge
    validation of a database every query of which fails. *)
Definition query_faults_become_issues : Prop :=
  ∀ (W : Type) (db : DataValidator.Cursor W) (e : PyExn),
    (∀ q params w, DataValidator.execute db q params w = (Raised e, w)) →
    ∀ staging_table dw_table w,
      ∃ issues,
        (DataValidator.validate_merge_operation db staging_table dw_table None None w).1
        = Returned (false, issues)
        ∧ issues ≠ [].

(** Call instrumentation for the cursor. *)
Inductive CursorCall :=
| CallExecute (query : string) (params : option (list string))
| CallFetchone
| CallFetchall.

Definition traced_cursor {W} (db : DataValidator.Cursor W)
    : DataValidator.Cursor (W * list CursorCall) :=
  {| DataValidator.execute := fun q params '(w, log) =>
       let '(o, w') := DataValidator.execute db q params w in
       (o, (w', log ++ [CallExecute q params]));
     DataValidator.fetchone := fun '(w, log) =>
       let '(o, w') := DataValidator.fetchone db w in (o, (w', log ++ [CallFetchone]));
     DataValidator.fetchall := fun '(w, log) =>
       let '(o, w') := DataValidator.fetchall db w in (o, (w', log ++ [CallFetchall])) |}.

(** ** A small in-memory database for the examples

    It knows the tables it holds, answers the counting queries, the id
    lookup and the orphan query of the validator over the columns [ID] and
    [MARINA_ID], and refuses any other statement. *)
Record MiniDb := mkMiniDb {
  contents : gmap string (list DbRow);
  pending_one : option (list Z);
  pending_all : list (list Cell)
}.

Definition rows_of (db : MiniDb) (table : string) : list DbRow :=
  default [] (contents db !! table).

Definition table_names (db : MiniDb) : list string := (map_to_list (contents db)).*1.

Definition unknown_statement : OraError :=
  {| ora_code := 942; ora_message := "ORA-00942: table or view does not exist" |}.

Definition answer_one (db : MiniDb) (answer : Z) : Outcome unit * MiniDb :=
  (Returned tt, mkMiniDb (contents db) (Some [answer]) []).

Definition mini_execute (q : string) (params : option (list string)) (db : MiniDb)
    : Outcome unit * MiniDb :=
  let names := table_names db in
  match find (fun t => String.eqb q ("SELECT COUNT(*) FROM " +:+ t)) names with
  | Some t => answer_one db (len (rows_of db t))
  | None =>
  match find (fun t => String.eqb q ("SELECT COUNT(*) FROM " +:+ t
                                       +:+ " WHERE ID IS NULL")) names with
  | Some t => answer_one db (len (List.filter (fun r => is_null (column "ID" r)) (rows_of db t)))
  | None =>
  match find (fun ct => String.eqb q
                (DataValidator.orphan_query ct.1 ct.2 "MARINA_ID" "ID"))
             (list_prod names names) with
  | Some ct => answer_one db (orphan_count (rows_of db ct.1) (rows_of db ct.2) "MARINA_ID" "ID")
  | None =>
  match params with
  | Some ids =>
      match find (fun t => String.eqb q (DataValidator.ids_query t "ID" (length ids)))
                 names with
      | Some t =>
          (Returned tt,
           mkMiniDb (contents db) None
             ((fun r => [column "ID" r])
                <$> List.filter (fun r => bool_decide (cell_str (column "ID" r) ∈ ids))
                                (rows_of db t)))
      | None => (Raised (DatabaseError unknown_statement), db)
      end
  | None => (Raised (DatabaseError unknown_statement), db)
  end end end end.

Definition mini_cursor : DataValidator.Cursor MiniDb :=
  {| DataValidator.execute := mini_execute;
     DataValidator.fetchone := fun db =>
       (Returned (pending_one db), mkMiniDb (contents db) None (pending_all db));
     DataValidator.fetchall := fun db =>
       (Returned (pending_all db), mkMiniDb (contents db) (pending_one db) []) |}.

(** A connector every statement of which fails. *)
Definition failing_cursor : DataValidator.Cursor unit :=
  {| DataValidator.execute := fun _ _ w => (Raised (DatabaseError unknown_statement), w);
     DataValidator.fetchone := fun w => (Returned None, w);
     DataValidator.fetchall := fun w => (Returned [], w) |}.

(** A reader that knows three contents: a header without rows, a header
    with [n] numbered rows, and a text the csv module refuses. *)
Definition numbered_row (i : nat) : gmap string (option string) :=
  <["ID" := Some (pretty i)]> {["NAME" := Some ("boat " +:+ pretty i)]}.

Definition sample_reader (content : string) : Outcome (list (gmap string (option string))) :=
  if String.eqb content "ID,NAME" then Returned []
  else if String.eqb content "ten rows" then Returned (numbered_row <$> seq 1 10)
  else Raised (OtherException "Error" "line contains NUL").

(** A simple [repr] of a list of strings, right for strings without
    quotes, backslashes or control characters. *)
Definition simple_repr (l : list string) : string :=
  "[" +:+ String.concat ", " ((fun s => "'" +:+ s +:+ "'") <$> l) +:+ "]".

Definition id_row (i : nat) : DbRow := {["ID" := CStr (pretty i)]}.

Definition slip (id : nat) (marina : Cell) : DbRow :=
  <["ID" := CInt (Z.of_nat id)]> {["MARINA_ID" := marina]}.

Definition marina (id : Z) : DbRow := {["ID" := CInt id]}.

(** Ten rows staged and merged; slips of which one points at a marina
    that does not exist and one has no marina. *)
Definition sample_db : MiniDb :=
  mkMiniDb
    (<["STG_BOATS" := id_row <$> seq 1 10]>
     (<["DW_BOATS" := id_row <$> seq 1 10]>
      (<["STG_SHORT" := id_row <$> seq 1 8]>
       (<["SLIPS" := [slip 1 (CInt 10); slip 2 (CInt 99); slip 3 CNull; slip 4 (CInt 20)]]>
        {["MARINAS" := [marina 10; marina 20]]}))))
    None [].


(** * More of the tracker: a table import from start to end *)

(** One recording call on the open record. *)
Inductive RecordCall :=
| LogStagingInsert (inserted_count error_count : Z)
| LogMergeOperation (matched inserted updated error_count : Z)
| LogValidationResult (passed : bool) (issues : option (list string))
| AddError (stage : ImportStage) (error_msg : string).

Definition record (c : RecordCall) : M DataImportLogger.t unit :=
  match c with
  | LogStagingInsert i e => DataImportLogger.log_staging_insert i e
  | LogMergeOperation m i u e => DataImportLogger.log_merge_operation m i u e
  | LogValidationResult p issues => DataImportLogger.log_validation_result p issues
  | AddError stage msg => DataImportLogger.add_error stage msg
  end.

Fixpoint record_all (calls : list RecordCall) : M DataImportLogger.t unit :=
  match calls with
  | [] => ret tt
  | c :: rest => (record c ;; record_all rest)%py
  end.

(** What a recording call does to the record it finds open. *)
Definition apply_call (c : RecordCall) (m : TableImportMetrics.t) : TableImportMetrics.t :=
  match c with
  | LogStagingInsert i e => TableImportMetrics.set_staging i e m
  | LogMergeOperation a i u e => TableImportMetrics.set_merge a i u e m
  | LogValidationResult p issues =>
      TableImportMetrics.set_validation_issues
        (TableImportMetrics.validation_issues m ++ default [] issues)
        (TableImportMetrics.set_validation_passed p m)
  | AddError stage msg => TableImportMetrics.add_error stage msg m
  end.

(** A table import as its caller drives it: the table is started at
    [started], the calls are made, the table is ended at [ended]. *)
Record TableRun := {
  run_table_name : string;
  run_csv_file : string;
  run_csv_row_count : Z;
  run_started : datetime;
  run_calls : list RecordCall;
  run_ended : datetime
}.

Definition import_table (upper : string -> string) (system_name : string) (r : TableRun)
    : M DataImportLogger.t unit :=
  (DataImportLogger.start_table_import system_name (run_table_name r) (run_csv_file r)
     (run_csv_row_count r) (run_started r) ;;
   record_all (run_calls r) ;;
   DataImportLogger.end_table_import upper system_name (run_ended r))%py.

Fixpoint import_tables (upper : string -> string) (system_name : string)
    (runs : list TableRun) : M DataImportLogger.t unit :=
  match runs with
  | [] => ret tt
  | r :: rest => (import_table upper system_name r ;; import_tables upper system_name rest)%py
  end.

(** The record a table run leaves behind. *)
Definition finished_record (r : TableRun) : TableImportMetrics.t :=
  TableImportMetrics.set_end_time (Some (run_ended r))
    (foldl (fun m c => apply_call c m)
       (TableImportMetrics.new (run_table_name r) (run_csv_file r)
          (run_csv_row_count r) (Some (run_started r)))
       (run_calls r)).

(** The last record of a list that carries a given table name. *)
Definition last_named (name : string) (ms : list TableImportMetrics.t)
    : option TableImportMetrics.t :=
  last (List.filter (fun m => String.eqb (TableImportMetrics.table_name m) name) ms).

Definition sample_run : TableRun :=
  {| run_table_name := "BOATS"; run_csv_file := "boats.csv"; run_csv_row_count := 3;
     run_started := 100;
     run_calls := [AddError STAGING_INSERT "row 2 rejected";
                   LogStagingInsert 2 1;
                   LogMergeOperation 2 0 0 0;
                   LogValidationResult true None];
     run_ended := 160 |}.

Definition slips_record : TableImportMetrics.t :=
  TableImportMetrics.set_merge 5 5 0 0
    (TableImportMetrics.set_staging 5 0
       (TableImportMetrics.new "SLIPS" "slips.csv" 5 (Some 9))).

(** * More of the error handler *)

(** The single-row calls that raise during a row-by-row pass, in order:
    the row's index, the row and the exception. *)
Fixpoint failed_attempts {W Row} (operation : list Row -> M W unit) (rows : list Row)
    (idx : Z) (w : W) : list (Z * Row * PyExn) :=
  match rows with
  | [] => []
  | row :: rest =>
      let '(o, w1) := operation [row] w in
      let later := failed_attempts operation rest (idx + 1) w1 in
      match o with
      | Raised e => (idx, row, e) :: later
      | Returned _ => later
      end
  end.

(** The log entry of one failed row. *)
Definition row_failure_entry {Row} (str_row : Row -> string) (table_name : string)
    (failure : Z * Row * PyExn) : ErrorHandler.ErrorEntry :=
  let '(idx, row, e) := failure in
  ErrorHandler.Build_ErrorEntry "staging_insert" table_name (exn_str e)
    (<["row_index" := PInt idx]>
       {["row_data" := PStr (str_take 200 (str_row row))]}).

Definition log_entries (entries : list ErrorHandler.ErrorEntry) (h : ErrorHandler.t)
    : ErrorHandler.t :=
  ErrorHandler.mk (ErrorHandler.max_retries h) (ErrorHandler.error_log h ++ entries).

(** The log entry written by [handle_validation]. *)
Definition validation_entry (func_str args_str : string) (e : PyExn)
    : ErrorHandler.ErrorEntry :=
  ErrorHandler.Build_ErrorEntry "validation" func_str (exn_str e)
    {["args" := PStr (str_take 200 args_str)]}.

(** [get_error_summary] and [clear_errors] of the handler. *)
Module ErrorReport.

(** The returned dictionary, with its three keys; [errors] is the log as
    it stands when the summary is taken. *)
Record ErrorSummary := {
  total_errors : Z;
  by_type : gmap string Z;
  errors : list ErrorHandler.ErrorEntry
}.

(** The counting loop: [error_counts[t] = error_counts.get(t, 0) + 1]. *)
Definition count_by_type (error_log : list ErrorHandler.ErrorEntry) : gmap string Z :=
  foldl (fun error_counts error =>
           let error_type := ErrorHandler.entry_type error in
           <[error_type := default 0 (error_counts !! error_type) + 1]> error_counts)
        ∅ error_log.

Definition get_error_summary (h : ErrorHandler.t) : ErrorSummary :=
  {| total_errors := len (ErrorHandler.error_log h);
     by_type := count_by_type (ErrorHandler.error_log h);
     errors := ErrorHandler.error_log h |}.

Definition clear_errors (h : ErrorHandler.t) : ErrorHandler.t :=
  ErrorHandler.mk (ErrorHandler.max_retries h) [].

End ErrorReport.

(** The number of log entries of one type. *)
Definition entries_of_type (error_type : string) (log : list ErrorHandler.ErrorEntry) : Z :=
  len (List.filter (fun e => String.eqb (ErrorHandler.entry_type e) error_type) log).

(** A batch of twelve rows of which only the rows 0 and 1 can be inserted,
    and a connector whose commit and rollback both fail. *)
Definition accept_below_two : list nat -> M (list nat) unit :=
  fun batch table =>
    if forallb (fun r => (r <? 2)%nat) batch
    then (Returned tt, table ++ batch)
    else (Raised (DatabaseError null_rejected), table).

Definition connection_lost : OraError :=
  {| ora_code := 4011; ora_message := "DPY-4011: the database closed the connection" |}.

Definition dropping_connector : ErrorHandler.Connector nat :=
  {| ErrorHandler.cursor_execute := fun _ n => (Returned tt, n);
     ErrorHandler.cursor_rowcount := fun n => (Returned 3, n);
     ErrorHandler.connection_commit := fun n => (Raised (DatabaseError connection_lost), n);
     ErrorHandler.connection_rollback := fun n =>
       (Raised (DatabaseError connection_lost), n) |}.

(** * More of the validator: [validate_data_types] *)

Definition indent20 : string := "                    ".

Module DataTypeCheck.
Section Types.

(** [T] stands for the Python types a caller may expect of a column;
    [isinstance], the name of an expected type and the name of a value's
    type come from the interpreter. *)
Context {W T : Type}.
Variable db : DataValidator.Cursor W.
Variable isinstance : Cell -> T -> bool.
Variable type_name : T -> string.
Variable value_type_name : Cell -> string.

Definition types_query (table_name column : string) : string :=
  nl +:+ indent20 +:+ "SELECT " +:+ column +:+ " " +:+ nl
     +:+ indent20 +:+ "FROM " +:+ table_name +:+ " " +:+ nl
     +:+ indent20 +:+ "WHERE " +:+ column +:+ " IS NOT NULL " +:+ nl
     +:+ indent20 +:+ "AND ROWNUM <= 10" +:+ nl
     +:+ indent16.

Definition type_issue (table_name column : string) (expected_type : T) (value : Cell)
    : string :=
  table_name +:+ "." +:+ column +:+ ": "
    +:+ "Expected " +:+ type_name expected_type +:+ ", "
    +:+ "got " +:+ value_type_name value.

(** The inner loop over the fetched rows: [row[0]] of an empty row raises;
    the first value that is not [None] and not of the expected type is
    reported and ends the loop. *)
Fixpoint check_rows (table_name column : string) (expected_type : T)
    (rows : list (list Cell)) : M (DataValidator.Frame W) unit :=
  match rows with
  | [] => ret tt
  | [] :: _ => raise (OtherException "IndexError" "tuple index out of range")
  | (value :: _) :: rest =>
      if negb (is_null value) && negb (isinstance value expected_type)
      then DataValidator.issues_append (type_issue table_name column expected_type value)
      else check_rows table_name column expected_type rest
  end.

(** The outer loop over [column_checks.items()], a dictionary in the order
    its keys were inserted. *)
Fixpoint check_columns (table_name : string) (column_checks : list (string * T))
    : M (DataValidator.Frame W) unit :=
  match column_checks with
  | [] => ret tt
  | (column, expected_type) :: rest =>
      (DataValidator.call (DataValidator.execute db (types_query table_name column) None) ;;
       do rows <- DataValidator.call (DataValidator.fetchall db);
       check_rows table_name column expected_type rows ;;
       check_columns table_name rest)%py
  end.

Definition validate_data_types (table_name : string) (column_checks : list (string * T))
    : M W (bool * list string) :=
  DataValidator.run_frame (try_except
    (check_columns table_name column_checks ;;
     do fr <- get;
     ret (len (DataValidator.issues fr) =? 0, DataValidator.issues fr))
    (fun e =>
       DataValidator.issues_append ("Data type validation exception: " +:+ exn_str e) ;;
       do fr <- get;
       ret (false, DataValidator.issues fr)))%py.

End Types.
End DataTypeCheck.

(** ** Vocabulary and samples for the validator's further properties *)

(** The first issue of a table-import validation whose counts differ. *)
Definition mismatch_issue (csv_count staging_count : Z) : string :=
  "Row count mismatch: CSV=" +:+ fmt_comma csv_count +:+ ", "
    +:+ "Staging=" +:+ fmt_comma staging_count +:+ " "
    +:+ "(difference: " +:+ fmt_comma (Z.abs (csv_count - staging_count)) +:+ ")".

(** The two Python types of the sample checks. *)
Inductive SampleType := PyInt | PyStr.

Definition sample_isinstance (value : Cell) (t : SampleType) : bool :=
  match value, t with
  | CInt _, PyInt => true
  | CStr _, PyStr => true
  | _, _ => false
  end.
Definition sample_type_name (t : SampleType) : string :=
  match t with PyInt => "int" | PyStr => "str" end.
Definition sample_value_type_name (value : Cell) : string :=
  match value with CInt _ => "int" | CStr _ => "str" | CNull => "NoneType" end.

(** A cursor over a fixed list of answers: each [execute] takes the next
    answer, which is either a fault or the rows the next [fetchall] gives. *)
Definition scripted_cursor : DataValidator.Cursor (list (PyExn + list (list Cell)) * list (list Cell)) :=
  {| DataValidator.execute := fun _ _ '(script, pending) =>
       match script with
       | [] => (Raised (DatabaseError unknown_statement), ([], []))
       | inl e :: rest => (Raised e, (rest, []))
       | inr rows :: rest => (Returned tt, (rest, rows))
       end;
     DataValidator.fetchone := fun st => (Returned None, st);
     DataValidator.fetchall := fun '(script, pending) => (Returned pending, (script, [])) |}.

(** A step of a validation body that returns and only adds issues at the
    end of the list. *)
Definition steady {W A} (c : M (DataValidator.Frame W) A) : Prop :=
  ∀ fr, ∃ a fr' added,
    c fr = (Returned a, fr')
    ∧ DataValidator.issues fr' = DataValidator.issues fr ++ added.

(** A validation body that returns the issue list it leaves, with the flag
    that tells whether the list is empty. *)
Definition closing {W} (c : M (DataValidator.Frame W) (bool * list string)) : Prop :=
  ∀ fr, ∃ added fr',
    c fr = (Returned (len (DataValidator.issues fr ++ added) =? 0,
                      DataValidator.issues fr ++ added), fr').

(** The flag and the list of a returned result agree. *)
Definition verdict_agrees (o : Outcome (bool * list string)) : Prop :=
  match o with
  | Returned (passed, found) => passed = true ↔ found = []
  | Raised _ => False
  end.

(** What table-import validation does once it holds the rows of a
    non-empty source and the two counts: the checks after the row count
    comparison. *)
Definition import_checks {W} (db : DataValidator.Cursor W)
    (repr_list : list string -> string)
    (csv_rows : list (gmap string (option string)))
    (staging_table dw_table id_column : string) (staging_count dw_count : Z)
    : M (DataValidator.Frame W) (bool * list string) :=
  (DataValidator.when ((0 <? staging_count) && (dw_count <? staging_count))
     (DataValidator.issues_append
        ("DW has fewer rows than staging: "
         +:+ "Staging=" +:+ fmt_comma staging_count +:+ ", DW=" +:+ fmt_comma dw_count)) ;;
   DataValidator.when (0 <? len csv_rows)
     (let ids := DataValidator.sample_ids id_column csv_rows in
      DataValidator.when (list_truthy ids)
        (do missing_ids <- DataValidator.call
                             (DataValidator._check_ids_exist db dw_table id_column ids);
         DataValidator.when (list_truthy missing_ids)
           (DataValidator.issues_append
              ("Sample IDs not found in DW: " +:+ repr_list missing_ids)))) ;;
   do null_id_count <- DataValidator.call
                         (DataValidator._count_null_ids db staging_table id_column);
   DataValidator.when (0 <? null_id_count)
     (DataValidator.issues_append
        (pretty null_id_count +:+ " records with NULL " +:+ id_column +:+ " "
         +:+ "in staging")) ;;
   do fr <- get;
   ret (len (DataValidator.issues fr) =? 0, DataValidator.issues fr))%py.

(** A reader of two sources that agree on their first five rows. *)
Definition tail_reader (content : string) : Outcome (list (gmap string (option string))) :=
  if String.eqb content "as staged" then Returned (numbered_row <$> seq 1 10)
  else if String.eqb content "tail changed"
       then Returned ((numbered_row <$> seq 1 5) ++ (numbered_row <$> seq 101 5))
       else Raised (OtherException "Error" "line contains NUL").

(** Three column checks and a script for them: the first column holds a
    string where an integer is expected, the query for the second fails,
    the answer for the third is never asked for. *)
Definition sample_checks : list (string * SampleType) :=
  [("ID", PyInt); ("NAME", PyStr); ("LENGTH", PyInt)].

Definition sample_script : list (PyExn + list (list Cell)) :=
  [inr [[CNull]; [CInt 7]; [CStr "eight"]; [CStr "nine"]];
   inl (DatabaseError unknown_statement);
   inr [[CStr "short"]]].
(** * The merge step when the rollback fails *)

(** A connector that has lost its connection: the routine's call and the
    rollback both raise a database error. *)
Definition lost_connector : ErrorHandler.Connector nat :=
  {| ErrorHandler.cursor_execute := fun _ n => (Raised (DatabaseError null_rejected), n);
     ErrorHandler.cursor_rowcount := fun n => (Returned 0, n);
     ErrorHandler.connection_commit := fun n => (Returned tt, n);
     ErrorHandler.connection_rollback := fun n =>
       (Raised (DatabaseError connection_lost), n) |}.

(** The sentence "whenever the merge routine raises an expected
    data-access failure, the merge step returns the failure result". *)
Definition database_error_always_returned : Prop :=
  ∀ (W : Type) (db : ErrorHandler.Connector W) (procedure_name : string)
    (table_name : option string) (h : ErrorHandler.t) (w w1 : W) (err : OraError),
    ErrorHandler.cursor_execute db (merge_statement procedure_name) w
    = (Raised (DatabaseError err), w1) →
    (ErrorHandler.handle_merge_operation procedure_name db table_name
       (ErrorHandler.mkSt h w)).1
    = Returned (merge_failure (ora_message err)).

(** * A database that answers the validator's counting queries

    The validator only sends text; what comes back is decided by the
    database.  This is the database's side for the statements of the form
    [SELECT COUNT ( * ) FROM t [a] [WHERE c AND ...]], where a condition is
    [x IS NULL], [x IS NOT NULL], [x = y] or [[NOT] EXISTS (SELECT 1 FROM t a
    WHERE c AND ...)]: the text is cut into words, read as a query and
    evaluated over the stored rows with SQL's three truth values. *)
Module Sql.

Definition is_space (c : Ascii.ascii) : bool :=
  Ascii.eqb c " " || Ascii.eqb c "010" || Ascii.eqb c "009" || Ascii.eqb c "013".
Definition is_paren (c : Ascii.ascii) : bool :=
  Ascii.eqb c "(" || Ascii.eqb c ")".

Definition flush (word : string) (later : list string) : list string :=
  match word with
  | EmptyString => later
  | _ => word :: later
  end.

(** Words are separated by white space; a parenthesis is a word of its own. *)
Fixpoint words_go (word : string) (text : string) : list string :=
  match text with
  | EmptyString => flush word []
  | String c rest =>
      if is_space c then flush word (words_go "" rest)
      else if is_paren c then flush word (String c "" :: words_go "" rest)
      else words_go (word +:+ String c "") rest
  end.
Definition words (text : string) : list string := words_go "" text.

(** A column, with the alias of its table when the text gives one. *)
Record ColRef := { ref_alias : option string; ref_column : string }.

Fixpoint col_ref_go (before : string) (s : string) : ColRef :=
  match s with
  | EmptyString => {| ref_alias := None; ref_column := before |}
  | String c rest =>
      if Ascii.eqb c "." then {| ref_alias := Some before; ref_column := rest |}
      else col_ref_go (before +:+ String c "") rest
  end.
Definition col_ref (s : string) : ColRef := col_ref_go "" s.

Inductive Atom :=
| IsNull (r : ColRef)
| IsNotNull (r : ColRef)
| Equal (a b : ColRef).

Record SubQuery := {
  sub_table : string;
  sub_alias : string;
  sub_where : list Atom
}.

Inductive Cond :=
| Simple (a : Atom)
| Exists (q : SubQuery)
| NotExists (q : SubQuery).

Record CountQuery := {
  from_table : string;
  from_alias : option string;
  where_all : list Cond
}.

(** Reading the words. *)
Definition expect (keyword : string) (ws : list string) : option (list string) :=
  match ws with
  | w :: rest => if String.eqb w keyword then Some rest else None
  | [] => None
  end.

Definition parse_atom (ws : list string) : option (Atom * list string) :=
  match ws with
  | x :: op :: rest =>
      if String.eqb op "=" then
        match rest with
        | y :: rest' => Some (Equal (col_ref x) (col_ref y), rest')
        | [] => None
        end
      else if String.eqb op "IS" then
        match expect "NULL" rest with
        | Some rest' => Some (IsNull (col_ref x), rest')
        | None =>
            rest1 ← expect "NOT" rest;
            rest2 ← expect "NULL" rest1;
            Some (IsNotNull (col_ref x), rest2)
        end
      else None
  | _ => None
  end.

Fixpoint parse_atoms (fuel : nat) (ws : list string) : option (list Atom * list string) :=
  match fuel with
  | O => None
  | S fuel' =>
      '(a, rest) ← parse_atom ws;
      match expect "AND" rest with
      | Some rest' =>
          '(more, rest'') ← parse_atoms fuel' rest';
          Some (a :: more, rest'')
      | None => Some ([a], rest)
      end
  end.

(** After [EXISTS]: [( SELECT 1 FROM t a WHERE atoms )]. *)
Definition parse_sub (fuel : nat) (ws : list string) : option (SubQuery * list string) :=
  ws1 ← expect "(" ws;
  ws2 ← expect "SELECT" ws1;
  ws3 ← expect "1" ws2;
  ws4 ← expect "FROM" ws3;
  match ws4 with
  | t :: a :: ws5 =>
      ws6 ← expect "WHERE" ws5;
      '(atoms, ws7) ← parse_atoms fuel ws6;
      ws8 ← expect ")" ws7;
      Some ({| sub_table := t; sub_alias := a; sub_where := atoms |}, ws8)
  | _ => None
  end.

Definition parse_cond (fuel : nat) (ws : list string) : option (Cond * list string) :=
  match ws with
  | w :: rest =>
      if String.eqb w "NOT" then
        rest1 ← expect "EXISTS" rest;
        '(q, rest2) ← parse_sub fuel rest1;
        Some (NotExists q, rest2)
      else if String.eqb w "EXISTS" then
        '(q, rest1) ← parse_sub fuel rest;
        Some (Exists q, rest1)
      else
        '(a, rest1) ← parse_atom ws;
        Some (Simple a, rest1)
  | [] => None
  end.

Fixpoint parse_conds (fuel : nat) (ws : list string) : option (list Cond * list string) :=
  match fuel with
  | O => None
  | S fuel' =>
      '(c, rest) ← parse_cond fuel' ws;
      match expect "AND" rest with
      | Some rest' =>
          '(more, rest'') ← parse_conds fuel' rest';
          Some (c :: more, rest'')
      | None => Some ([c], rest)
      end
  end.

Definition parse_where (alias : option string) (table : string) (ws : list string)
    : option CountQuery :=
  match ws with
  | [] => Some {| from_table := table; from_alias := alias; where_all := [] |}
  | _ =>
      ws1 ← expect "WHERE" ws;
      '(conds, rest) ← parse_conds (length ws) ws1;
      match rest with
      | [] => Some {| from_table := table; from_alias := alias; where_all := conds |}
      | _ => None
      end
  end.

Definition parse_count (ws : list string) : option CountQuery :=
  ws1 ← expect "SELECT" ws;
  ws2 ← expect "COUNT" ws1;
  ws3 ← expect "(" ws2;
  ws4 ← expect "*" ws3;
  ws5 ← expect ")" ws4;
  ws6 ← expect "FROM" ws5;
  match ws6 with
  | table :: rest =>
      match rest with
      | [] => parse_where None table []
      | w :: rest' =>
          if String.eqb w "WHERE" then parse_where None table rest
          else parse_where (Some w) table rest'
      end
  | [] => None
  end.

(** Evaluating the query.  A condition is true, false or unknown; a row is
    kept, and a subquery row counts, only when the condition is true. *)
Inductive Truth := TTrue | TFalse | TUnknown.

Definition truth_of (b : bool) : Truth := if b then TTrue else TFalse.
Definition is_true (t : Truth) : bool :=
  match t with TTrue => true | _ => false end.
Definition and3 (a b : Truth) : Truth :=
  match a, b with
  | TFalse, _ | _, TFalse => TFalse
  | TTrue, TTrue => TTrue
  | _, _ => TUnknown
  end.

(** The rows in scope, innermost first, each under its alias. *)
Definition Scope := list (option string * DbRow).

Fixpoint resolve (scope : Scope) (r : ColRef) : option Cell :=
  match scope with
  | [] => None
  | (alias, row) :: outer =>
      match ref_alias r with
      | None => Some (column (ref_column r) row)
      | Some a =>
          if bool_decide (alias = Some a) then Some (column (ref_column r) row)
          else resolve outer r
      end
  end.

Definition eval_atom (scope : Scope) (a : Atom) : option Truth :=
  match a with
  | IsNull r => v ← resolve scope r; Some (truth_of (is_null v))
  | IsNotNull r => v ← resolve scope r; Some (truth_of (negb (is_null v)))
  | Equal x y =>
      vx ← resolve scope x;
      vy ← resolve scope y;
      Some (if is_null vx || is_null vy then TUnknown
            else truth_of (bool_decide (vx = vy)))
  end.

Fixpoint eval_atoms (scope : Scope) (atoms : list Atom) : option Truth :=
  match atoms with
  | [] => Some TTrue
  | a :: rest =>
      t ← eval_atom scope a;
      ts ← eval_atoms scope rest;
      Some (and3 t ts)
  end.

Definition eval_exists (stored : gmap string (list DbRow))
    (scope : Scope) (q : SubQuery) : option bool :=
  rows ← stored !! sub_table q;
  found ← mapM (fun row => eval_atoms ((Some (sub_alias q), row) :: scope) (sub_where q))
               rows;
  Some (existsb is_true found).

Definition eval_cond (stored : gmap string (list DbRow))
    (scope : Scope) (c : Cond) : option Truth :=
  match c with
  | Simple a => eval_atom scope a
  | Exists q => b ← eval_exists stored scope q; Some (truth_of b)
  | NotExists q => b ← eval_exists stored scope q; Some (truth_of (negb b))
  end.

Fixpoint eval_conds (stored : gmap string (list DbRow))
    (scope : Scope) (conds : list Cond) : option Truth :=
  match conds with
  | [] => Some TTrue
  | c :: rest =>
      t ← eval_cond stored scope c;
      ts ← eval_conds stored scope rest;
      Some (and3 t ts)
  end.

Definition count (stored : gmap string (list DbRow)) (q : CountQuery)
    : option Z :=
  rows ← stored !! from_table q;
  kept ← mapM (fun row => eval_conds stored [(from_alias q, row)] (where_all q)) rows;
  Some (len (List.filter is_true kept)).

(** The database: its tables and the row the cursor holds. *)
Record Database := mkDatabase {
  stored : gmap string (list DbRow);
  pending : option (list Z)
}.

Definition invalid_statement : OraError :=
  {| ora_code := 900; ora_message := "ORA-00900: invalid SQL statement" |}.

Definition cursor : DataValidator.Cursor Database :=
  {| DataValidator.execute := fun text _ db =>
       match parse_count (words text) with
       | None => (Raised (DatabaseError invalid_statement), db)
       | Some q =>
           match count (stored db) q with
           | None => (Raised (DatabaseError unknown_statement), db)
           | Some n => (Returned tt, mkDatabase (stored db) (Some [n]))
           end
       end;
     DataValidator.fetchone := fun db =>
       (Returned (pending db), mkDatabase (stored db) None);
     DataValidator.fetchall := fun db => (Returned [], db) |}.

(** A name the text can carry as one word: not empty, without white space
    and parentheses. *)
Definition plain (name : string) : bool :=
  forallb (fun c => negb (is_space c || is_paren c)) (String.list_ascii_of_string name).
Definition is_name (name : string) : bool :=
  negb (String.eqb name "") && plain name.

End Sql.

(** The sample tables in that database. *)
Definition sql_sample : Sql.Database :=
  Sql.mkDatabase (contents sample_db) None.

(** The query that the database reads in the text of [orphan_query]: count
    the rows [c] of the child table with [c.fk IS NOT NULL] for which no row
    [p] of the parent table has [p.key = c.fk]. *)
Definition orphan_statement (child_table parent_table foreign_key parent_key : string)
    : Sql.CountQuery :=
  {| Sql.from_table := child_table;
     Sql.from_alias := Some "c";
     Sql.where_all :=
       [Sql.Simple (Sql.IsNotNull {| Sql.ref_alias := Some "c";
                                     Sql.ref_column := foreign_key |});
        Sql.NotExists
          {| Sql.sub_table := parent_table;
             Sql.sub_alias := "p";
             Sql.sub_where :=
               [Sql.Equal {| Sql.ref_alias := Some "p"; Sql.ref_column := parent_key |}
                          {| Sql.ref_alias := Some "c"; Sql.ref_column := foreign_key |}]
          |}] |}.

(** * Properties of the tracker *)

Section TrackerFacts.

Import TableImportMetrics.

Lemma list_truthy_nonempty {A} (l : list A) : list_truthy l = true ↔ l ≠ [].
Proof. destruct l; simpl; split; intros; congruence. Qed.

Lemma list_truthy_false {A} (l : list A) : list_truthy l = false ↔ l = [].
Proof. destruct l; simpl; split; intros; congruence. Qed.

Lemma any_values_spec (d : gmap ImportStage (list string)) :
  any_values d = true ↔ ∃ stage errs, d !! stage = Some errs ∧ errs ≠ [].
Proof.
  unfold any_values, dict_values. rewrite existsb_exists. split.
  - intros (errs & Hin & Ht). apply list_elem_of_In in Hin.
    apply list_elem_of_fmap in Hin as ([stage errs'] & -> & Hin).
    apply elem_of_map_to_list in Hin.
    exists stage, errs'. split; [done|]. by apply list_truthy_nonempty.
  - intros (stage & errs & Hl & Hne). exists errs. split.
    + apply list_elem_of_In, list_elem_of_fmap. exists (stage, errs).
      split; [done|]. by apply elem_of_map_to_list.
    + by apply list_truthy_nonempty.
Qed.

Lemma dict_truthy_of_lookup (d : gmap ImportStage (list string)) stage errs :
  d !! stage = Some errs → dict_truthy d = true.
Proof.
  intros Hl. unfold dict_truthy. apply elem_of_map_to_list in Hl.
  destruct (map_to_list d); [by apply not_elem_of_nil in Hl | done].
Qed.

Lemma error_test_spec (m : t) :
  dict_truthy (stage_errors m) && any_values (stage_errors m) = true
  ↔ has_stage_error m.
Proof.
  unfold has_stage_error. rewrite andb_true_iff, any_values_spec. split.
  - by intros [_ H].
  - intros (stage & errs & Hl & Hne). split; [|by eauto].
    by eapply dict_truthy_of_lookup.
Qed.

Lemma error_test_false (m : t) :
  ¬ has_stage_error m →
  dict_truthy (stage_errors m) && any_values (stage_errors m) = false.
Proof.
  intros Hn. apply not_true_is_false. by rewrite error_test_spec.
Qed.

End TrackerFacts.

(** C1. The status of a table record follows the first matching rule:
    Error when some stage has a non-empty error list, whatever the other
    fields hold; else Warning when there are validation issues; else
    Skipped when nothing was staged; else Success. *)
Theorem get_status_precedence (m : TableImportMetrics.t) :
  (has_stage_error m → TableImportMetrics.get_status m = ERROR) ∧
  (¬ has_stage_error m → TableImportMetrics.validation_issues m ≠ [] →
     TableImportMetrics.get_status m = WARNING) ∧
  (¬ has_stage_error m → TableImportMetrics.validation_issues m = [] →
     TableImportMetrics.staging_inserted m = 0 →
     TableImportMetrics.get_status m = SKIPPED) ∧
  (¬ has_stage_error m → TableImportMetrics.validation_issues m = [] →
     TableImportMetrics.staging_inserted m ≠ 0 →
     TableImportMetrics.get_status m = SUCCESS).
Proof.
  unfold TableImportMetrics.get_status. split; [|split; [|split]].
  - intros He. apply error_test_spec in He. by rewrite He.
  - intros Hn Hv. rewrite (error_test_false m Hn).
    apply list_truthy_nonempty in Hv. by rewrite Hv.
  - intros Hn Hv Hs. rewrite (error_test_false m Hn), Hv, Hs. done.
  - intros Hn Hv Hs. rewrite (error_test_false m Hn), Hv. simpl.
    apply Z.eqb_neq in Hs. by rewrite Hs.
Qed.

Lemma no_error_in_empty issues staged :
  ¬ has_stage_error (sample_metrics staged issues ∅).
Proof. intros (stage & errs & Hl & _). simpl in Hl. by rewrite lookup_empty in Hl. Defined.

Lemma get_status_precedence_witness :
  TableImportMetrics.get_status
    (sample_metrics 10 ["a"; "b"; "c"] {[VALIDATION := ["boom"]]}) = ERROR
  ∧ TableImportMetrics.get_status (sample_metrics 10 ["a"] ∅) = WARNING
  ∧ TableImportMetrics.get_status (sample_metrics 0 [] ∅) = SKIPPED
  ∧ TableImportMetrics.get_status (sample_metrics 10 [] ∅) = SUCCESS.
Proof.
  split; [|split; [|split]].
  - apply (proj1 (get_status_precedence _)).
    exists VALIDATION, ["boom"]. split; [reflexivity | discriminate].
  - apply (proj1 (proj2 (get_status_precedence _))).
    + apply no_error_in_empty.
    + discriminate.
  - apply (proj1 (proj2 (proj2 (get_status_precedence _)))).
    + apply no_error_in_empty.
    + reflexivity.
    + reflexivity.
  - apply (proj2 (proj2 (proj2 (get_status_precedence _)))).
    + apply no_error_in_empty.
    + reflexivity.
    + discriminate.
Defined.

(** * Properties of the run summary *)

Section SummaryFacts.

Import SystemImportSummary.

Lemma foldl_add_len (init : Z) (ls : list (list string)) :
  foldl (fun acc errors => acc + len errors) init ls = init + sum_Z (len <$> ls).
Proof.
  unfold sum_Z. revert init. induction ls as [|l ls IH]; intros init; simpl.
  - lia.
  - rewrite IH. symmetry. apply Z.add_assoc.
Qed.

Lemma add_table_total_errors m s :
  total_errors (add_table m s) = total_errors s + TableImportMetrics.error_count m.
Proof. unfold add_table, TableImportMetrics.error_count. simpl. apply foldl_add_len. Qed.

Lemma sum_Z_cons (x : Z) (l : list Z) : sum_Z (x :: l) = x + sum_Z l.
Proof. reflexivity. Qed.

Lemma add_table_fields m s :
  total_csv_rows (add_table m s)
    = total_csv_rows s + TableImportMetrics.csv_row_count m
  ∧ total_staging_inserted (add_table m s)
    = total_staging_inserted s + TableImportMetrics.staging_inserted m
  ∧ total_merge_inserts (add_table m s)
    = total_merge_inserts s + TableImportMetrics.merge_inserted m
  ∧ total_merge_updates (add_table m s)
    = total_merge_updates s + TableImportMetrics.merge_updated m
  ∧ total_warnings (add_table m s)
    = total_warnings s + len (TableImportMetrics.validation_issues m).
Proof. repeat split. Qed.

(** From any summary on, each addition adds its table's fields. *)
Lemma add_tables_totals_from (s0 : t) (ms : list TableImportMetrics.t) :
  let s := add_tables ms s0 in
  total_csv_rows s
    = total_csv_rows s0 + sum_Z (TableImportMetrics.csv_row_count <$> ms)
  ∧ total_staging_inserted s
    = total_staging_inserted s0 + sum_Z (TableImportMetrics.staging_inserted <$> ms)
  ∧ total_merge_inserts s
    = total_merge_inserts s0 + sum_Z (TableImportMetrics.merge_inserted <$> ms)
  ∧ total_merge_updates s
    = total_merge_updates s0 + sum_Z (TableImportMetrics.merge_updated <$> ms)
  ∧ total_errors s
    = total_errors s0 + sum_Z (TableImportMetrics.error_count <$> ms)
  ∧ total_warnings s
    = total_warnings s0
      + sum_Z ((fun m => len (TableImportMetrics.validation_issues m)) <$> ms).
Proof.
  revert s0. induction ms as [|m ms IH]; intros s0.
  - unfold add_tables, sum_Z. simpl. lia.
  - specialize (IH (add_table m s0)).
    destruct IH as (H1 & H2 & H3 & H4 & H5 & H6).
    change (add_tables (m :: ms) s0) with (add_tables ms (add_table m s0)).
    cbv zeta. rewrite H1, H2, H3, H4, H5, H6.
    rewrite add_table_total_errors.
    destruct (add_table_fields m s0) as (-> & -> & -> & -> & ->).
    rewrite !fmap_cons, !sum_Z_cons. lia.
Qed.

End SummaryFacts.

(** C5. After any sequence of additions to a new run summary, each running
    total is the sum of the corresponding field over all the tables that
    were added, one term per addition; the error total is the sum of the
    lengths of all stage error lists and the warning total the sum of the
    lengths of the validation issue lists. *)
Theorem add_tables_totals (name : string) (ms : list TableImportMetrics.t) :
  let s := SystemImportSummary.add_tables ms (SystemImportSummary.new name) in
  SystemImportSummary.total_csv_rows s
    = sum_Z (TableImportMetrics.csv_row_count <$> ms)
  ∧ SystemImportSummary.total_staging_inserted s
    = sum_Z (TableImportMetrics.staging_inserted <$> ms)
  ∧ SystemImportSummary.total_merge_inserts s
    = sum_Z (TableImportMetrics.merge_inserted <$> ms)
  ∧ SystemImportSummary.total_merge_updates s
    = sum_Z (TableImportMetrics.merge_updated <$> ms)
  ∧ SystemImportSummary.total_errors s
    = sum_Z (TableImportMetrics.error_count <$> ms)
  ∧ SystemImportSummary.total_warnings s
    = sum_Z ((fun m => len (TableImportMetrics.validation_issues m)) <$> ms).
Proof.
  pose proof (add_tables_totals_from (SystemImportSummary.new name) ms) as H.
  simpl in H. exact H.
Qed.

(** Adding a second record for the same table replaces the map entry, and
    both additions stay in the totals. *)
Example add_table_overwrite_counts_both :
  let s := SystemImportSummary.add_tables [boats_first; boats_second]
             (SystemImportSummary.new "MOLO") in
  SystemImportSummary.tables s !! "BOATS" = Some boats_second
  ∧ size (SystemImportSummary.tables s) = 1%nat
  ∧ SystemImportSummary.total_csv_rows s = 12
  ∧ SystemImportSummary.total_staging_inserted s = 11
  ∧ SystemImportSummary.total_errors s = 1
  ∧ SystemImportSummary.total_warnings s = 1.
Proof. vm_compute. repeat split; reflexivity. Qed.

(** * Properties of the tracker's operations *)

Lemma slot_closed_initially : DataImportLogger.current_metrics DataImportLogger.new = None.
Proof. reflexivity. Qed.

Lemma slot_closed_after_end upper system_name now l l' :
  DataImportLogger.end_table_import upper system_name now l = (Returned tt, l') →
  DataImportLogger.current_metrics l' = None.
Proof.
  unfold DataImportLogger.end_table_import, DataImportLogger._get_summary,
    bind, get, modify, ret, raise.
  destruct (DataImportLogger.current_metrics l) eqn:Hc.
  - simpl. destruct (String.eqb (upper system_name) "MOLO");
      [|destruct (String.eqb (upper system_name) "STELLAR")];
      simpl; intros H; inversion H; reflexivity.
  - intros H. inversion H; subst. exact Hc.
Qed.

(** C9. While no table record is open, each of the four recording calls
    returns normally and leaves the tracker (the slot and both summaries
    with their totals) exactly as it was. *)
Theorem record_without_open_table_is_noop (l : DataImportLogger.t) :
  DataImportLogger.current_metrics l = None →
  (∀ inserted_count error_count,
     DataImportLogger.log_staging_insert inserted_count error_count l
     = (Returned tt, l))
  ∧ (∀ matched inserted updated error_count,
     DataImportLogger.log_merge_operation matched inserted updated error_count l
     = (Returned tt, l))
  ∧ (∀ passed issues,
     DataImportLogger.log_validation_result passed issues l = (Returned tt, l))
  ∧ (∀ stage error_msg,
     DataImportLogger.add_error stage error_msg l = (Returned tt, l)).
Proof.
  intros Hc.
  assert (Hon : ∀ f, DataImportLogger.on_current f l = (Returned tt, l)).
  { intros f. unfold DataImportLogger.on_current, bind, get. by rewrite Hc. }
  split; [|split; [|split]]; intros; apply Hon.
Qed.

Lemma record_without_open_table_is_noop_witness :
  DataImportLogger.log_staging_insert 10 0 DataImportLogger.new
  = (Returned tt, DataImportLogger.new).
Proof.
  apply (proj1 (record_without_open_table_is_noop DataImportLogger.new
                  slot_closed_initially)).
Defined.

Section SystemLookup.

Variable upper : string -> string.

Lemma get_summary_unknown system_name (l : DataImportLogger.t) :
  unknown_system upper system_name →
  DataImportLogger._get_summary upper system_name l
  = (Raised (ValueError ("Unknown system: " +:+ system_name)), l).
Proof.
  intros [Hm Hs]. unfold DataImportLogger._get_summary.
  apply String.eqb_neq in Hm, Hs. by rewrite Hm, Hs.
Qed.

Lemma get_summary_known system_name (l : DataImportLogger.t) :
  ¬ unknown_system upper system_name →
  ∃ r, DataImportLogger._get_summary upper system_name l = (Returned r, l).
Proof.
  intros Hk. unfold DataImportLogger._get_summary.
  destruct (String.eqb (upper system_name) "MOLO") eqn:Hm; [by eexists|].
  destruct (String.eqb (upper system_name) "STELLAR") eqn:Hs; [by eexists|].
  exfalso. apply Hk. by split; apply String.eqb_neq.
Qed.

End SystemLookup.

(** C10, as amended.  The tracker knows two systems.  For an identifier
    whose upper-casing is neither of them, starting and ending a run raise
    a ValueError and change nothing; ending a table raises it only when a
    record is open, in which case both summaries are unchanged and the
    record stays open with its end time stamped, and returns silently
    without looking at the identifier when no record is open.  For the two
    known systems none of the three raises.  Starting a table never looks
    at the identifier: it replaces the slot by a new record. *)
Theorem system_identifier_checks (upper : string -> string)
    (system_name : string) (now : datetime) (l : DataImportLogger.t) :
  (unknown_system upper system_name →
     DataImportLogger.start_system_import upper system_name now l
     = (Raised (ValueError ("Unknown system: " +:+ system_name)), l)
     ∧ DataImportLogger.end_system_import upper system_name now l
       = (Raised (ValueError ("Unknown system: " +:+ system_name)), l)
     ∧ (DataImportLogger.current_metrics l = None →
        DataImportLogger.end_table_import upper system_name now l = (Returned tt, l))
     ∧ (∀ m, DataImportLogger.current_metrics l = Some m →
        DataImportLogger.end_table_import upper system_name now l
        = (Raised (ValueError ("Unknown system: " +:+ system_name)),
           DataImportLogger.set_current_metrics
             (Some (TableImportMetrics.set_end_time (Some now) m)) l)))
  ∧ (¬ unknown_system upper system_name →
     is_raised (DataImportLogger.start_system_import upper system_name now l).1 = false
     ∧ is_raised (DataImportLogger.end_system_import upper system_name now l).1 = false
     ∧ is_raised (DataImportLogger.end_table_import upper system_name now l).1 = false)
  ∧ (∀ table_name csv_file csv_row_count,
     DataImportLogger.start_table_import system_name table_name csv_file csv_row_count now l
     = (Returned tt,
        DataImportLogger.set_current_metrics
          (Some (TableImportMetrics.new table_name csv_file csv_row_count (Some now))) l)).
Proof.
  split; [|split].
  - intros Hu. split; [|split; [|split]].
    + unfold DataImportLogger.start_system_import, bind.
      by rewrite get_summary_unknown.
    + unfold DataImportLogger.end_system_import, bind.
      by rewrite get_summary_unknown.
    + intros Hc. unfold DataImportLogger.end_table_import, bind, get.
      by rewrite Hc.
    + intros m Hc. unfold DataImportLogger.end_table_import, bind, get, modify.
      rewrite Hc. by rewrite get_summary_unknown.
  - intros Hk. split; [|split].
    + unfold DataImportLogger.start_system_import, bind.
      destruct (get_summary_known upper system_name l Hk) as [r ->]. done.
    + unfold DataImportLogger.end_system_import, bind.
      destruct (get_summary_known upper system_name l Hk) as [r ->]. done.
    + unfold DataImportLogger.end_table_import, bind, get, modify.
      destruct (DataImportLogger.current_metrics l) as [m|]; [|done].
      edestruct (get_summary_known upper system_name) as [r ->]; [exact Hk|]. done.
  - reflexivity.
Qed.

Lemma oracle_is_unknown : unknown_system ascii_upper "oracle".
Proof. split; discriminate. Defined.

Lemma system_identifier_checks_witness :
  DataImportLogger.start_system_import ascii_upper "oracle" 7 DataImportLogger.new
  = (Raised (ValueError "Unknown system: oracle"), DataImportLogger.new).
Proof.
  apply (proj1 (proj1 (system_identifier_checks ascii_upper "oracle" 7
                         DataImportLogger.new) oracle_is_unknown)).
Defined.

(** C10, as stated, fails for endTable: with no record open, ending a table
    of an unknown system returns without raising. *)
Lemma end_table_unknown_system_counterexample :
  ¬ end_table_always_rejects_unknown ascii_upper.
Proof.
  intros H.
  destruct (H "oracle" 7 DataImportLogger.new oracle_is_unknown) as [msg Hr].
  vm_compute in Hr. discriminate Hr.
Qed.

(** * Properties of the staging-insert handler *)

Section StagingFacts.

Import ErrorHandler.
Context {W Row : Type}.
Variable str_row : Row -> string.
Variable table_name : string.
Variable operation : list Row -> M W unit.

Lemma traced_call batch (h : ErrorHandler.t) w log :
  call (traced operation batch) (mkSt h (w, log))
  = ((operation batch w).1, mkSt h ((operation batch w).2, log ++ [batch])).
Proof. unfold call, traced. simpl. by destruct (operation batch w). Qed.

Lemma successes_failures (results : list bool) :
  successes results + failures results = len results.
Proof.
  unfold successes, failures, len.
  induction results as [|[] results IH]; simpl; lia.
Qed.

Lemma attempt_rows_length rows : ∀ w,
  length (attempt_rows operation rows w).1 = length rows.
Proof.
  induction rows as [|row rest IH]; intros w; [done|].
  simpl. destruct (operation [row] w) as [o w1].
  specialize (IH w1). destruct (attempt_rows operation rest w1) as [results w2].
  simpl in *. by rewrite IH.
Qed.

(** The row loop always returns; every row is tried once, in order, on the
    database the row before it left, and each try moves exactly one of the
    two counters. *)
Lemma row_loop_counts rows : ∀ idx success_count error_count h w log,
  ∃ h',
    row_loop str_row table_name (traced operation) rows idx
      success_count error_count (mkSt h (w, log))
    = (Returned (success_count + successes (attempt_rows operation rows w).1,
                 error_count + failures (attempt_rows operation rows w).1),
       mkSt h' ((attempt_rows operation rows w).2, log ++ ((fun r => [r]) <$> rows))).
Proof.
  induction rows as [|row rest IH]; intros idx sc ec h w log.
  - exists h. simpl. unfold ret, successes, failures, len. simpl.
    rewrite app_nil_r, !Z.add_0_r. reflexivity.
  - cbn [row_loop attempt_rows]. unfold bind at 1. unfold try_except, bind at 1.
    rewrite traced_call.
    destruct (operation [row] w) as [[[]|e] w1]; cbn [fst snd].
    + unfold ret at 1. cbn [fst snd].
      destruct (IH (idx + 1) (sc + 1) ec h w1 (log ++ [[row]])) as [h' Heq].
      exists h'. rewrite Heq.
      destruct (attempt_rows operation rest w1) as [results w2]. cbn [fst snd].
      rewrite fmap_cons, <- app_assoc.
      unfold successes, failures, len. simpl.
      do 3 f_equal; lia.
    + set (logged := if ec + 1 <=? 5 then _ else _).
      assert (∃ h1, logged (mkSt h (w1, log ++ [[row]]))
                    = (Returned tt, mkSt h1 (w1, log ++ [[row]]))) as [h1 Hl].
      { subst logged. destruct (ec + 1 <=? 5).
        - eexists. reflexivity.
        - eexists. reflexivity. }
      unfold bind at 1. rewrite Hl. unfold ret at 1. cbn [fst snd].
      destruct (IH (idx + 1) sc (ec + 1) h1 w1 (log ++ [[row]])) as [h' Heq].
      exists h'. rewrite Heq.
      destruct (attempt_rows operation rest w1) as [results w2]. cbn [fst snd].
      rewrite fmap_cons, <- app_assoc.
      unfold successes, failures, len. simpl.
      do 3 f_equal; lia.
Qed.

End StagingFacts.

(** C2. An empty batch gives (0, 0) and the operation is not called.  A
    non-empty batch whose bulk call returns gives (batch size, 0) after
    that one call.  A non-empty batch whose bulk call raises a database
    error is retried row by row: after the bulk call every row is tried
    alone, once and in order, whatever the earlier rows did; the counts
    returned are the number of rows whose call returned and the number of
    rows whose call raised, and they add up to the batch size. *)
Theorem handle_staging_insert_outcomes {W Row : Type} (str_row : Row -> string)
    (table_name : string) (operation : list Row -> M W unit)
    (data_rows : list Row) (h : ErrorHandler.t) (w : W) :
  let run := ErrorHandler.handle_staging_insert str_row table_name
               (ErrorHandler.traced operation) data_rows
               (ErrorHandler.mkSt h (w, [])) in
  (data_rows = [] → run = (Returned (0, 0), ErrorHandler.mkSt h (w, [])))
  ∧ (data_rows ≠ [] → ∀ w1,
       operation data_rows w = (Returned tt, w1) →
       run = (Returned (len data_rows, 0), ErrorHandler.mkSt h (w1, [data_rows])))
  ∧ (data_rows ≠ [] → ∀ err w1,
       operation data_rows w = (Raised (DatabaseError err), w1) →
       let attempts := attempt_rows operation data_rows w1 in
       (∃ h',
          run = (Returned (successes attempts.1, failures attempts.1),
                 ErrorHandler.mkSt h'
                   (attempts.2, data_rows :: ((fun r => [r]) <$> data_rows))))
       ∧ successes attempts.1 + failures attempts.1 = len data_rows).
Proof.
  cbv zeta. split; [|split].
  - intros ->. reflexivity.
  - intros Hne w1 Hop. unfold ErrorHandler.handle_staging_insert.
    destruct data_rows as [|r rs]; [done|]. cbn [list_truthy negb].
    rewrite traced_call, Hop. reflexivity.
  - intros Hne err w1 Hop. split.
    + unfold ErrorHandler.handle_staging_insert.
      destruct data_rows as [|r rs]; [done|]. cbn [list_truthy negb].
      rewrite traced_call, Hop. cbn [fst snd app].
      unfold ErrorHandler._insert_row_by_row.
      destruct (row_loop_counts str_row table_name operation (r :: rs) 0 0 0 h w1 [r :: rs])
        as [h' Heq].
      exists h'. rewrite Heq. rewrite !Z.add_0_l. reflexivity.
    + rewrite successes_failures. unfold len. by rewrite attempt_rows_length.
Qed.

Lemma handle_staging_insert_outcomes_witness :
  ErrorHandler.handle_staging_insert pretty "STG_BOATS"
    (ErrorHandler.traced reject_zero_insert) [1; 2]%nat
    (ErrorHandler.mkSt (ErrorHandler.new 3) ([], []))
  = (Returned (2, 0), ErrorHandler.mkSt (ErrorHandler.new 3) ([1; 2]%nat, [[1; 2]%nat]))
  ∧ let attempts := attempt_rows reject_zero_insert [1; 0; 2]%nat [] in
    (∃ h',
       ErrorHandler.handle_staging_insert pretty "STG_BOATS"
         (ErrorHandler.traced reject_zero_insert) [1; 0; 2]%nat
         (ErrorHandler.mkSt (ErrorHandler.new 3) ([], []))
       = (Returned (successes attempts.1, failures attempts.1),
          ErrorHandler.mkSt h'
            (attempts.2, [1; 0; 2]%nat :: ((fun r => [r]) <$> [1; 0; 2]%nat))))
    ∧ successes attempts.1 + failures attempts.1 = len [1; 0; 2]%nat.
Proof.
  split.
  - apply (proj1 (proj2 (handle_staging_insert_outcomes pretty "STG_BOATS"
                           reject_zero_insert [1; 2]%nat (ErrorHandler.new 3) []))).
    + discriminate.
    + reflexivity.
  - apply (proj2 (proj2 (handle_staging_insert_outcomes pretty "STG_BOATS"
                           reject_zero_insert [1; 0; 2]%nat (ErrorHandler.new 3) [])))
      with (err := null_rejected).
    + discriminate.
    + reflexivity.
Defined.

(** The fallback on a concrete batch: the zero is refused, its neighbours
    are inserted, and the refusal is written to the error log. *)
Example row_by_row_fallback_example :
  ErrorHandler.handle_staging_insert pretty "STG_BOATS"
    (ErrorHandler.traced reject_zero_insert) [1; 0; 2]%nat
    (ErrorHandler.mkSt (ErrorHandler.new 3) ([], []))
  = (Returned (2, 1),
     ErrorHandler.mkSt
       (ErrorHandler.mk 3
          [ErrorHandler.Build_ErrorEntry "staging_insert" "STG_BOATS"
             "ORA-01400: cannot insert NULL"
             (<["row_index" := PInt 1]> {["row_data" := PStr "0"]})])
       ([1; 2]%nat, [[1; 0; 2]; [1]; [0]; [2]]%nat)).
Proof. vm_compute. reflexivity. Qed.

(** C4. When the bulk call of a non-empty batch raises anything but a
    database error, no row is retried: the fault is logged and a
    StagingInsertError wrapping it is raised; no pair of counts comes back. *)
Theorem handle_staging_insert_fatal {W Row : Type} (str_row : Row -> string)
    (table_name : string) (operation : list Row -> M W unit)
    (data_rows : list Row) (h : ErrorHandler.t) (w w1 : W) (e : PyExn) :
  data_rows ≠ [] →
  is_database_error e = false →
  operation data_rows w = (Raised e, w1) →
  ErrorHandler.handle_staging_insert str_row table_name
    (ErrorHandler.traced operation) data_rows (ErrorHandler.mkSt h (w, []))
  = (Raised (StagingInsertError
               ("Failed to insert into " +:+ table_name +:+ ": " +:+ exn_str e) e),
     ErrorHandler.mkSt (log_entry (fatal_staging_entry table_name data_rows e) h)
       (w1, [data_rows])).
Proof.
  intros Hne He Hop. unfold ErrorHandler.handle_staging_insert.
  destruct data_rows as [|r rs]; [done|]. cbn [list_truthy negb].
  rewrite traced_call, Hop. cbn [fst snd app].
  destruct e; try discriminate He; reflexivity.
Qed.

Lemma handle_staging_insert_fatal_witness :
  ErrorHandler.handle_staging_insert pretty "STG_BOATS"
    (ErrorHandler.traced broken_insert) [1; 2]%nat
    (ErrorHandler.mkSt (ErrorHandler.new 3) ([], []))
  = (Raised (StagingInsertError "Failed to insert into STG_BOATS: unhashable row"
               (OtherException "TypeError" "unhashable row")),
     ErrorHandler.mkSt
       (log_entry (fatal_staging_entry "STG_BOATS" [1; 2]%nat
                     (OtherException "TypeError" "unhashable row"))
          (ErrorHandler.new 3))
       ([], [[1; 2]%nat])).
Proof.
  apply (handle_staging_insert_fatal pretty "STG_BOATS" broken_insert [1; 2]%nat
           (ErrorHandler.new 3) [] [] (OtherException "TypeError" "unhashable row")).
  - discriminate.
  - reflexivity.
  - reflexivity.
Defined.

(** * Properties of the merge step *)

Section MergeFacts.

Import ErrorHandler.
Context {W : Type}.
Variable db : Connector W.

Lemma traced_step_call {A} ev (c : M W A) (h : ErrorHandler.t) w log :
  call (traced_step ev c) (mkSt h (w, log))
  = ((c w).1, mkSt h ((c w).2, log ++ [ev])).
Proof. unfold call, traced_step. simpl. by destruct (c w). Qed.

(** The guarded block when the routine itself raises: nothing after the
    [execute] call runs. *)
Lemma merge_block_execute_raises procedure_name (h : ErrorHandler.t) w w1 e :
  cursor_execute db (merge_statement procedure_name) w = (Raised e, w1) →
  call (cursor_execute (traced_connector db) (merge_statement procedure_name) ;;
        do row_count <- cursor_rowcount (traced_connector db);
        connection_commit (traced_connector db) ;;
        ret row_count)%py (mkSt h (w, []))
  = (Raised e, mkSt h (w1, [Execute (merge_statement procedure_name)])).
Proof.
  intros Hex. unfold call, bind. cbn [world self traced_connector cursor_execute].
  unfold traced_step. rewrite Hex. reflexivity.
Qed.

End MergeFacts.

(** C3, as stated, fails: when the rollback that follows a database error
    raises, the step raises the rollback's exception and returns no
    failure result. *)
Lemma merge_rollback_counterexample : ¬ database_error_always_returned.
Proof.
  intros H.
  pose proof (H nat lost_connector "MERGE_BOATS" None (ErrorHandler.new 3)
                0%nat 0%nat null_rejected eq_refl) as Heq.
  vm_compute in Heq. discriminate Heq.
Qed.

(** C3, as amended. When the merge routine raises, the connector sees the
    routine's call and then a rollback, and no commit, whatever the fault
    is.  Once the rollback has returned, a database error makes the step
    return the failure result (no rows matched, inserted or updated, one
    error, not successful, the driver's message), and any other fault
    makes it raise a MergeOperationError wrapping the fault; so the step
    then raises exactly when the fault is not a database error.  When the
    rollback itself raises, the step raises the rollback's exception. *)
Theorem handle_merge_operation_faults {W : Type} (db : ErrorHandler.Connector W)
    (procedure_name : string) (table_name : option string)
    (h : ErrorHandler.t) (w w1 w2 : W) (e : PyExn) (rolled : Outcome unit) :
  ErrorHandler.cursor_execute db (merge_statement procedure_name) w = (Raised e, w1) →
  ErrorHandler.connection_rollback db w1 = (rolled, w2) →
  let run := ErrorHandler.handle_merge_operation procedure_name
               (ErrorHandler.traced_connector db) table_name
               (ErrorHandler.mkSt h (w, [])) in
  run.2 = ErrorHandler.mkSt (log_entry (merge_entry procedure_name table_name e) h)
            (w2, [ErrorHandler.Execute (merge_statement procedure_name);
                  ErrorHandler.Rollback])
  ∧ (rolled = Returned tt →
     (∀ err, e = DatabaseError err →
        run.1 = Returned (merge_failure (ora_message err)))
     ∧ (is_database_error e = false →
        run.1 = Raised (MergeOperationError
                          ("Failed to merge "
                             +:+ ErrorHandler.display_name procedure_name table_name
                             +:+ ": " +:+ exn_str e) e))
     ∧ (is_raised run.1 = true ↔ is_database_error e = false))
  ∧ (∀ fault, rolled = Raised fault → run.1 = Raised fault).
Proof.
  intros Hex Hrb. cbv zeta. unfold ErrorHandler.handle_merge_operation.
  fold (merge_statement procedure_name).
  rewrite (merge_block_execute_raises db procedure_name h w w1 e Hex).
  assert (Hstep : ∀ h0,
    ErrorHandler.call (ErrorHandler.connection_rollback (ErrorHandler.traced_connector db))
      (ErrorHandler.mkSt h0 (w1, [ErrorHandler.Execute (merge_statement procedure_name)]))
    = (rolled, ErrorHandler.mkSt h0
                 (w2, [ErrorHandler.Execute (merge_statement procedure_name);
                       ErrorHandler.Rollback]))).
  { intros h0. cbn [ErrorHandler.traced_connector ErrorHandler.connection_rollback].
    rewrite traced_step_call, Hrb. reflexivity. }
  destruct e as [err|msg|msg c|msg c|cls msg];
    unfold bind, ErrorHandler._log_error, modify;
    cbn [ErrorHandler.self ErrorHandler.world dict_truthy];
    (rewrite Hstep; split; [|split];
     [ by destruct rolled as [[]|]
     | intros ->; split; [|split];
       [ intros err' Heq; try discriminate Heq; by inversion Heq
       | intros Hd; try discriminate Hd; reflexivity
       | by split ]
     | by intros fault -> ]).
Qed.

Lemma handle_merge_operation_faults_witness :
  let run := ErrorHandler.handle_merge_operation "MERGE_DENIED"
               (ErrorHandler.traced_connector sample_connector) (Some "DW_BOATS")
               (ErrorHandler.mkSt (ErrorHandler.new 3) (0%nat, [])) in
  run.2 = ErrorHandler.mkSt
            (log_entry (merge_entry "MERGE_DENIED" (Some "DW_BOATS")
                          (DatabaseError null_rejected)) (ErrorHandler.new 3))
            (0%nat, [ErrorHandler.Execute (merge_statement "MERGE_DENIED");
                     ErrorHandler.Rollback])
  ∧ run.1 = Returned (merge_failure "ORA-01400: cannot insert NULL").
Proof.
  destruct (handle_merge_operation_faults sample_connector "MERGE_DENIED"
              (Some "DW_BOATS") (ErrorHandler.new 3) 0%nat 0%nat 0%nat
              (DatabaseError null_rejected) (Returned tt) eq_refl eq_refl)
    as (Hstate & Hout & _).
  split.
  - exact Hstate.
  - exact (proj1 (Hout eq_refl) null_rejected eq_refl).
Defined.

(** The three ways a merge can end, on the sample connector: committed,
    rolled back with a failure result, rolled back with a fatal error. *)
Example merge_scenarios :
  ErrorHandler.handle_merge_operation "MERGE_OK"
    (ErrorHandler.traced_connector sample_connector) None
    (ErrorHandler.mkSt (ErrorHandler.new 3) (0%nat, []))
  = (Returned (ErrorHandler.Build_MergeResult 3 0 0 0 true None),
     ErrorHandler.mkSt (ErrorHandler.new 3)
       (1%nat, [ErrorHandler.Execute "BEGIN MERGE_OK; END;";
                ErrorHandler.Rowcount; ErrorHandler.Commit]))
  ∧ (ErrorHandler.handle_merge_operation "MERGE_DENIED"
       (ErrorHandler.traced_connector sample_connector) None
       (ErrorHandler.mkSt (ErrorHandler.new 3) (0%nat, []))).1
    = Returned (merge_failure "ORA-01400: cannot insert NULL")
  ∧ (ErrorHandler.handle_merge_operation "MERGE_LOST"
       (ErrorHandler.traced_connector sample_connector) None
       (ErrorHandler.mkSt (ErrorHandler.new 3) (0%nat, []))).1
    = Raised (MergeOperationError "Failed to merge MERGE_LOST: no cursor"
                (OtherException "AttributeError" "no cursor")).
Proof. vm_compute. repeat split; reflexivity. Qed.

(** * Properties of the validator *)

Section ValidatorFacts.

Import DataValidator.
Context {W : Type}.
Variable db : Cursor W.

(** A guarded method body whose [except] clause appends one message and
    returns: it returns whatever the body does. *)
Lemma guarded_frame_returns (body : M (Frame W) (bool * list string))
    (message : PyExn -> string) (w : W) :
  is_raised
    (run_frame
       (try_except body
          (fun e => issues_append (message e) ;;
                    do fr <- get; ret (false, issues fr))%py) w).1 = false.
Proof.
  unfold run_frame, try_except.
  destruct (body (mkFrame w [])) as [[a|e] fr]; reflexivity.
Qed.

(** A guarded helper whose [except] clause returns a default. *)
Lemma guarded_default_returns {A} (body : M W A) (dflt : A) (w : W) :
  is_raised (try_except body (fun _ => ret dflt) w).1 = false.
Proof. unfold try_except. destruct (body w) as [[a|e] w']; reflexivity. Qed.

Lemma orphan_count_nonneg cs ps fk pk : 0 ≤ orphan_count cs ps fk pk.
Proof. unfold orphan_count, len. lia. Qed.

Lemma sql_equal_spec (a b : Cell) :
  b ≠ CNull → (sql_equal a b = true ↔ a = b).
Proof.
  intros Hb. unfold sql_equal. split.
  - intros H. apply andb_true_iff in H as [_ H]. by apply bool_decide_eq_true in H.
  - intros ->. destruct b; [| |done]; simpl; by apply bool_decide_eq_true.
Qed.

(** What the query counts, in words: the foreign key is not null and is
    the key of no parent row. *)
Lemma is_orphan_spec (ps : list DbRow) fk pk (c : DbRow) :
  is_orphan ps fk pk c = true
  ↔ column fk c ≠ CNull ∧ ∀ p, p ∈ ps → column pk p ≠ column fk c.
Proof.
  unfold is_orphan. rewrite andb_true_iff, !negb_true_iff. split.
  - intros [Hn Hex]. assert (Hc : column fk c ≠ CNull).
    { intros Heq. by rewrite Heq in Hn. }
    split; [done|]. intros p Hp Heq.
    assert (existsb (λ p, sql_equal (column pk p) (column fk c)) ps = true) as Ht.
    { apply existsb_exists. exists p. split; [by apply list_elem_of_In|].
      by apply sql_equal_spec. }
    congruence.
  - intros [Hc Hall]. split.
    + destruct (column fk c); done.
    + apply not_true_is_false. intros Ht.
      apply existsb_exists in Ht as (p & Hp & Heq).
      apply sql_equal_spec in Heq; [|done].
      by apply (Hall p); [apply list_elem_of_In|].
Qed.

End ValidatorFacts.

(** C6. When the source has no rows, table-import validation returns
    (true, []) and hands the database back as it was, for every cursor:
    none of the cursor's methods is called, so no count, sample-id or
    null-id check runs. *)
Theorem validate_table_import_empty_source {W : Type} (db : DataValidator.Cursor W)
    (csv_rows_of : string -> Outcome (list (gmap string (option string))))
    (repr_list : list string -> string)
    (csv_content staging_table dw_table id_column : string) (w : W) :
  csv_rows_of csv_content = Returned [] →
  DataValidator.validate_table_import db csv_rows_of repr_list
    csv_content staging_table dw_table id_column w
  = (Returned (true, []), w)
  ∧ DataValidator.validate_table_import (traced_cursor db) csv_rows_of repr_list
      csv_content staging_table dw_table id_column (w, [])
    = (Returned (true, []), (w, [])).
Proof.
  intros Hcsv.
  unfold DataValidator.validate_table_import, DataValidator.run_frame, try_except,
    bind, DataValidator.lift_outcome.
  rewrite Hcsv. split; reflexivity.
Qed.

Lemma validate_table_import_empty_source_witness :
  DataValidator.validate_table_import mini_cursor sample_reader simple_repr
    "ID,NAME" "STG_SHORT" "DW_BOATS" "ID" sample_db
  = (Returned (true, []), sample_db).
Proof.
  apply (proj1 (validate_table_import_empty_source mini_cursor sample_reader
                  simple_repr "ID,NAME" "STG_SHORT" "DW_BOATS" "ID" sample_db eq_refl)).
Defined.

(** The reconciliation on the sample database: counts agree and the five
    sampled ids are found; a staging table two rows short; a warehouse
    behind its staging table. *)
Example validate_table_import_scenarios :
  (DataValidator.validate_table_import mini_cursor sample_reader simple_repr
     "ten rows" "STG_BOATS" "DW_BOATS" "ID" sample_db).1
  = Returned (true, [])
  ∧ (DataValidator.validate_table_import mini_cursor sample_reader simple_repr
       "ten rows" "STG_SHORT" "DW_BOATS" "ID" sample_db).1
    = Returned (false, ["Row count mismatch: CSV=10, Staging=8 (difference: 2)"])
  ∧ (DataValidator.validate_table_import mini_cursor sample_reader simple_repr
       "ten rows" "DW_BOATS" "STG_SHORT" "ID" sample_db).1
    = Returned (false, ["DW has fewer rows than staging: Staging=10, DW=8"]).
Proof. vm_compute. repeat split; reflexivity. Qed.

(** C7, as amended.  None of the three validations raises, and none of the
    three lookups they use does.  A fault of a query inside a lookup is
    swallowed there: the lookup answers 0 (or no missing ids) and no issue
    is made of the fault.  A fault that reaches the validation's own
    handler (reading the source rows in table-import validation, the query
    or the fetch of the referential-integrity check) becomes one issue
    message, and the result has not passed. *)
Theorem validation_faults_contained {W : Type} (db : DataValidator.Cursor W)
    (csv_rows_of : string -> Outcome (list (gmap string (option string))))
    (repr_list : list string -> string) (w : W) :
  ((∀ csv_content staging_table dw_table id_column,
      is_raised (DataValidator.validate_table_import db csv_rows_of repr_list
                   csv_content staging_table dw_table id_column w).1 = false)
   ∧ (∀ staging_table dw_table expected_updates expected_inserts,
      is_raised (DataValidator.validate_merge_operation db staging_table dw_table
                   expected_updates expected_inserts w).1 = false)
   ∧ (∀ child_table parent_table foreign_key parent_key,
      is_raised (DataValidator.check_referential_integrity db child_table parent_table
                   foreign_key parent_key w).1 = false))
  ∧ ((∀ table_name, is_raised (DataValidator._get_row_count db table_name w).1 = false)
     ∧ (∀ table_name id_column,
        is_raised (DataValidator._count_null_ids db table_name id_column w).1 = false)
     ∧ (∀ table_name id_column ids,
        is_raised (DataValidator._check_ids_exist db table_name id_column ids w).1 = false))
  ∧ ((∀ table_name e w1,
        DataValidator.execute db ("SELECT COUNT(*) FROM " +:+ table_name) None w
        = (Raised e, w1) →
        DataValidator._get_row_count db table_name w = (Returned 0, w1))
     ∧ (∀ table_name id_column e w1,
        DataValidator.execute db
          ("SELECT COUNT(*) FROM " +:+ table_name +:+ " WHERE " +:+ id_column +:+ " IS NULL")
          None w = (Raised e, w1) →
        DataValidator._count_null_ids db table_name id_column w = (Returned 0, w1))
     ∧ (∀ table_name id_column ids e w1,
        ids ≠ [] →
        DataValidator.execute db
          (DataValidator.ids_query table_name id_column (length ids)) (Some ids) w
        = (Raised e, w1) →
        DataValidator._check_ids_exist db table_name id_column ids w = (Returned [], w1)))
  ∧ ((∀ csv_content staging_table dw_table id_column e,
        csv_rows_of csv_content = Raised e →
        DataValidator.validate_table_import db csv_rows_of repr_list
          csv_content staging_table dw_table id_column w
        = (Returned (false, ["Validation exception: " +:+ exn_str e]), w))
     ∧ (∀ child_table parent_table foreign_key parent_key e w1,
        DataValidator.execute db
          (DataValidator.orphan_query child_table parent_table foreign_key parent_key)
          None w = (Raised e, w1) →
        DataValidator.check_referential_integrity db child_table parent_table
          foreign_key parent_key w
        = (Returned (false, ["Referential integrity check exception: " +:+ exn_str e]), w1))
     ∧ (∀ child_table parent_table foreign_key parent_key e w1 w2,
        DataValidator.execute db
          (DataValidator.orphan_query child_table parent_table foreign_key parent_key)
          None w = (Returned tt, w1) →
        DataValidator.fetchone db w1 = (Raised e, w2) →
        DataValidator.check_referential_integrity db child_table parent_table
          foreign_key parent_key w
        = (Returned (false, ["Referential integrity check exception: " +:+ exn_str e]), w2))).
Proof.
  split; [|split; [|split]].
  - split; [|split]; intros; apply guarded_frame_returns.
  - split; [|split]; intros; apply guarded_default_returns.
  - split; [|split].
    + intros table_name e w1 Hex.
      unfold DataValidator._get_row_count, try_except, bind. by rewrite Hex.
    + intros table_name id_column e w1 Hex.
      unfold DataValidator._count_null_ids, try_except, bind. by rewrite Hex.
    + intros table_name id_column ids e w1 Hne Hex.
      unfold DataValidator._check_ids_exist, try_except.
      destruct ids as [|i ids]; [done|]. cbn [list_truthy negb].
      unfold bind. by rewrite Hex.
  - split; [|split].
    + intros csv_content staging_table dw_table id_column e Hcsv.
      unfold DataValidator.validate_table_import, DataValidator.run_frame, try_except,
        bind, DataValidator.lift_outcome.
      rewrite Hcsv. reflexivity.
    + intros child_table parent_table foreign_key parent_key e w1 Hex.
      unfold DataValidator.check_referential_integrity, DataValidator.run_frame,
        try_except, bind, DataValidator.call.
      cbn [DataValidator.database DataValidator.issues]. rewrite Hex. reflexivity.
    + intros child_table parent_table foreign_key parent_key e w1 w2 Hex Hfetch.
      unfold DataValidator.check_referential_integrity, DataValidator.run_frame,
        try_except, bind, DataValidator.call.
      cbn [DataValidator.database DataValidator.issues]. rewrite Hex.
      cbn [DataValidator.database DataValidator.issues]. rewrite Hfetch. reflexivity.
Qed.

Lemma validation_faults_contained_witness :
  DataValidator._get_row_count failing_cursor "STG_BOATS" tt = (Returned 0, tt)
  ∧ DataValidator.validate_table_import failing_cursor sample_reader simple_repr
      "torn file" "STG_BOATS" "DW_BOATS" "ID" tt
    = (Returned (false, ["Validation exception: line contains NUL"]), tt)
  ∧ DataValidator.check_referential_integrity failing_cursor
      "SLIPS" "MARINAS" "MARINA_ID" "ID" tt
    = (Returned (false, ["Referential integrity check exception: "
                           +:+ "ORA-00942: table or view does not exist"]), tt).
Proof.
  pose proof (validation_faults_contained failing_cursor sample_reader simple_repr tt)
    as (_ & _ & (Hcount & _ & _) & Hcsv & Hri & _).
  split; [|split].
  - exact (Hcount "STG_BOATS" (DatabaseError unknown_statement) tt eq_refl).
  - exact (Hcsv "torn file" "STG_BOATS" "DW_BOATS" "ID"
             (OtherException "Error" "line contains NUL") eq_refl).
  - exact (Hri "SLIPS" "MARINAS" "MARINA_ID" "ID"
             (DatabaseError unknown_statement) tt eq_refl).
Defined.

(** C7, as stated, fails: when every query fails, merge validation still
    reports (true, []), since the counting lookups turn the faults into
    zeros. *)
Lemma swallowed_fault_counterexample : ¬ query_faults_become_issues.
Proof.
  intros H.
  destruct (H unit failing_cursor (DatabaseError unknown_statement)
              (fun _ _ _ => eq_refl) "STG_BOATS" "DW_BOATS" tt)
    as (issues & Heq & _).
  vm_compute in Heq. discriminate Heq.
Qed.

(** The check on a database that answers the orphan query with [n]. *)
Lemma referential_integrity_of_answer {W : Type} (db : DataValidator.Cursor W)
    (child_table parent_table foreign_key parent_key : string)
    (w w1 w2 : W) (n : Z) (more : list Z) :
  0 ≤ n →
  DataValidator.execute db
    (DataValidator.orphan_query child_table parent_table foreign_key parent_key) None w
  = (Returned tt, w1) →
  DataValidator.fetchone db w1 = (Returned (Some (n :: more)), w2) →
  DataValidator.check_referential_integrity db child_table parent_table
    foreign_key parent_key w
  = (Returned (if n =? 0 then (true, [])
               else (false, [DataValidator.orphan_issue n child_table parent_table
                               foreign_key parent_key])), w2).
Proof.
  intros Hn Hex Hfetch.
  unfold DataValidator.check_referential_integrity, DataValidator.run_frame,
    try_except, bind, DataValidator.call.
  cbn [DataValidator.database DataValidator.issues]. rewrite Hex.
  cbn [DataValidator.database DataValidator.issues]. rewrite Hfetch.
  cbn [DataValidator.first_or_zero].
  destruct (n =? 0) eqn:Hz.
  - apply Z.eqb_eq in Hz. rewrite Hz. reflexivity.
  - apply Z.eqb_neq in Hz. assert ((0 <? n) = true) as -> by (apply Z.ltb_lt; lia).
    reflexivity.
Qed.


(** * The query of the referential-integrity check, read by the database *)

Section SqlReading.

#[local] Arguments Sql.flush : simpl never.
#[local] Arguments String.append : simpl nomatch.

Lemma string_append_nil_r (s : string) : s +:+ "" = s.
Proof. induction s as [|c s IH]; [done|]. simpl. by f_equal. Qed.

Lemma string_append_assoc (a b c : string) : (a +:+ b) +:+ c = a +:+ (b +:+ c).
Proof. induction a as [|x a IH]; [done|]. simpl. by f_equal. Qed.

Lemma plain_cons c (x : string) :
  Sql.plain (String c x) = true →
  Sql.is_space c = false ∧ Sql.is_paren c = false ∧ Sql.plain x = true.
Proof.
  unfold Sql.plain. simpl. intros H. apply andb_true_iff in H as [Hc Hx].
  apply negb_true_iff, orb_false_iff in Hc as [? ?]. done.
Qed.

(** A plain name goes into the word being read, character by character. *)
Lemma words_go_plain (x : string) :
  Sql.plain x = true →
  ∀ word text, Sql.words_go word (x +:+ text) = Sql.words_go (word +:+ x) text.
Proof.
  induction x as [|c x IH]; intros Hp word text.
  - simpl. by rewrite string_append_nil_r.
  - apply plain_cons in Hp as (Hs & Hq & Hx). simpl. rewrite Hs, Hq.
    rewrite (IH Hx). by rewrite string_append_assoc.
Qed.

Lemma flush_word c (s : string) later : Sql.flush (String c s) later = String c s :: later.
Proof. reflexivity. Qed.

Lemma flush_none later : Sql.flush "" later = later.
Proof. reflexivity. Qed.

Lemma flush_name (x : string) later :
  Sql.is_name x = true → Sql.flush x later = x :: later.
Proof. unfold Sql.is_name. by destruct x. Qed.

Lemma is_name_plain (x : string) : Sql.is_name x = true → Sql.plain x = true.
Proof. unfold Sql.is_name. intros H. by apply andb_true_iff in H as [_ ?]. Qed.

Lemma words_orphan_query child_table parent_table foreign_key parent_key :
  Sql.is_name child_table = true →
  Sql.is_name parent_table = true →
  Sql.plain foreign_key = true →
  Sql.plain parent_key = true →
  Sql.words (DataValidator.orphan_query child_table parent_table foreign_key parent_key)
  = ["SELECT"; "COUNT"; "("; "*"; ")"; "FROM"; child_table; "c"; "WHERE";
     "c." +:+ foreign_key; "IS"; "NOT"; "NULL"; "AND"; "NOT"; "EXISTS"; "(";
     "SELECT"; "1"; "FROM"; parent_table; "p"; "WHERE"; "p." +:+ parent_key; "=";
     "c." +:+ foreign_key; ")"].
Proof.
  intros Hc Hp Hf Hk.
  unfold Sql.words, DataValidator.orphan_query, indent16, indent12.
  change nl with (String "010"%char "").
  cbn.
  rewrite (words_go_plain child_table) by (by apply is_name_plain). cbn.
  rewrite (words_go_plain foreign_key) by done. cbn.
  rewrite (words_go_plain parent_table) by (by apply is_name_plain). cbn.
  rewrite (words_go_plain parent_key) by done. cbn.
  rewrite (words_go_plain foreign_key) by done. cbn.
  rewrite !flush_none, !flush_word.
  rewrite (flush_name child_table) by done.
  rewrite (flush_name parent_table) by done.
  reflexivity.
Qed.

(** The words of the orphan query, read as a query. *)
Lemma parse_orphan_query child_table parent_table foreign_key parent_key :
  Sql.parse_count
    ["SELECT"; "COUNT"; "("; "*"; ")"; "FROM"; child_table; "c"; "WHERE";
     "c." +:+ foreign_key; "IS"; "NOT"; "NULL"; "AND"; "NOT"; "EXISTS"; "(";
     "SELECT"; "1"; "FROM"; parent_table; "p"; "WHERE"; "p." +:+ parent_key; "=";
     "c." +:+ foreign_key; ")"]
  = Some (orphan_statement child_table parent_table foreign_key parent_key).
Proof. reflexivity. Qed.

End SqlReading.

Lemma mapM_total {A B} (f : A → option B) (g : A → B) (l : list A) :
  (∀ x, f x = Some (g x)) → mapM f l = Some (g <$> l).
Proof.
  intros Hf. induction l as [|x l IH]; [done|].
  change (mapM f (x :: l)) with (y ← f x; k ← mapM f l; Some (y :: k)).
  rewrite Hf, IH. reflexivity.
Qed.

Lemma filter_fmap_length {A B} (p : B → bool) (g : A → B) (l : list A) :
  length (List.filter p (g <$> l)) = length (List.filter (fun x => p (g x)) l).
Proof.
  induction l as [|x l IH]; [done|]. csimpl. destruct (p (g x)); simpl; by rewrite IH.
Qed.

Lemma existsb_fmap {A B} (p : B → bool) (g : A → B) (l : list A) :
  existsb p (g <$> l) = existsb (fun x => p (g x)) l.
Proof. induction l as [|x l IH]; [done|]. csimpl. by rewrite IH. Qed.

(** The equality test of the subquery for one parent row. *)
Lemma eval_key_match (foreign_key parent_key : string) (child parent : DbRow) :
  Sql.eval_atoms [(Some "p", parent); (Some "c", child)]
    [Sql.Equal {| Sql.ref_alias := Some "p"; Sql.ref_column := parent_key |}
               {| Sql.ref_alias := Some "c"; Sql.ref_column := foreign_key |}]
  = Some (if sql_equal (column parent_key parent) (column foreign_key child)
          then Sql.TTrue
          else if is_null (column parent_key parent) || is_null (column foreign_key child)
               then Sql.TUnknown else Sql.TFalse).
Proof.
  unfold sql_equal. cbn.
  rewrite (bool_decide_eq_true_2 (Some "p" = Some "p")) by reflexivity.
  rewrite (bool_decide_eq_false_2 (Some "p" = Some "c")) by discriminate.
  rewrite (bool_decide_eq_true_2 (Some "c" = Some "c")) by reflexivity.
  cbn.
  destruct (is_null (column parent_key parent)); [done|].
  destruct (is_null (column foreign_key child)); [done|].
  cbn. by destruct (bool_decide _).
Qed.

(** The subquery finds a parent row exactly when one has the key. *)
Lemma eval_parent_exists (stored : gmap string (list DbRow))
    parent_table foreign_key parent_key (parent_rows : list DbRow) (child : DbRow) :
  stored !! parent_table = Some parent_rows →
  Sql.eval_exists stored [(Some "c", child)]
    {| Sql.sub_table := parent_table;
       Sql.sub_alias := "p";
       Sql.sub_where :=
         [Sql.Equal {| Sql.ref_alias := Some "p"; Sql.ref_column := parent_key |}
                    {| Sql.ref_alias := Some "c"; Sql.ref_column := foreign_key |}] |}
  = Some (existsb (fun p => sql_equal (column parent_key p) (column foreign_key child))
                  parent_rows).
Proof.
  intros Hp. unfold Sql.eval_exists.
  cbn [Sql.sub_table Sql.sub_alias Sql.sub_where]. rewrite Hp.
  cbn [mbind option_bind].
  rewrite (mapM_total _ _ parent_rows
             (fun parent => eval_key_match foreign_key parent_key child parent)).
  cbn [mbind option_bind]. f_equal. rewrite existsb_fmap. clear Hp.
  induction parent_rows as [|p ps IH]; [done|]. cbn [existsb].
  rewrite IH. f_equal.
  destruct (sql_equal _ _); [done|]. by destruct (_ || _).
Qed.

(** The condition of the orphan query for one child row. *)
Lemma eval_orphan_row (stored : gmap string (list DbRow))
    child_table parent_table foreign_key parent_key (parent_rows : list DbRow)
    (child : DbRow) :
  stored !! parent_table = Some parent_rows →
  Sql.eval_conds stored [(Some "c", child)]
    (Sql.where_all (orphan_statement child_table parent_table foreign_key parent_key))
  = Some (Sql.and3 (Sql.truth_of (negb (is_null (column foreign_key child))))
            (Sql.and3
               (Sql.truth_of
                  (negb (existsb
                           (fun p => sql_equal (column parent_key p)
                                       (column foreign_key child)) parent_rows)))
               Sql.TTrue)).
Proof.
  intros Hp. unfold orphan_statement.
  cbn [Sql.where_all Sql.eval_conds Sql.eval_cond].
  rewrite (eval_parent_exists stored parent_table foreign_key parent_key parent_rows child Hp).
  cbn [Sql.eval_atom Sql.resolve Sql.ref_alias Sql.ref_column].
  rewrite (bool_decide_eq_true_2 (Some "c" = Some "c")) by reflexivity.
  reflexivity.
Qed.

Lemma orphan_row_truth (parent_rows : list DbRow) foreign_key parent_key (child : DbRow) :
  Sql.is_true
    (Sql.and3 (Sql.truth_of (negb (is_null (column foreign_key child))))
       (Sql.and3
          (Sql.truth_of
             (negb (existsb
                      (fun p => sql_equal (column parent_key p)
                                  (column foreign_key child)) parent_rows)))
          Sql.TTrue))
  = is_orphan parent_rows foreign_key parent_key child.
Proof.
  unfold is_orphan.
  destruct (is_null (column foreign_key child)); [done|].
  by destruct (existsb _ parent_rows).
Qed.

(** What the database counts for the orphan query. *)
Lemma count_orphan_statement (stored : gmap string (list DbRow))
    child_table parent_table foreign_key parent_key (child_rows parent_rows : list DbRow) :
  stored !! child_table = Some child_rows →
  stored !! parent_table = Some parent_rows →
  Sql.count stored (orphan_statement child_table parent_table foreign_key parent_key)
  = Some (orphan_count child_rows parent_rows foreign_key parent_key).
Proof.
  intros Hc Hp. unfold Sql.count.
  change (Sql.from_table (orphan_statement child_table parent_table foreign_key parent_key))
    with child_table.
  change (Sql.from_alias (orphan_statement child_table parent_table foreign_key parent_key))
    with (Some "c" : option string).
  rewrite Hc. cbn [mbind option_bind].
  rewrite (mapM_total _ _ child_rows
             (fun child => eval_orphan_row stored child_table parent_table foreign_key
                             parent_key parent_rows child Hp)).
  cbn [mbind option_bind]. f_equal. unfold orphan_count, len. f_equal.
  rewrite filter_fmap_length. f_equal. clear Hc.
  induction child_rows as [|c cs IH]; [done|]. cbn [List.filter].
  rewrite orphan_row_truth, IH. reflexivity.
Qed.

(** The database answers the text of [orphan_query] with the orphan count
    of the two tables. *)
Lemma cursor_answers_orphan_query (db : Sql.Database)
    (child_table parent_table foreign_key parent_key : string)
    (child_rows parent_rows : list DbRow) :
  Sql.is_name child_table = true →
  Sql.is_name parent_table = true →
  Sql.is_name foreign_key = true →
  Sql.is_name parent_key = true →
  Sql.stored db !! child_table = Some child_rows →
  Sql.stored db !! parent_table = Some parent_rows →
  DataValidator.execute Sql.cursor
    (DataValidator.orphan_query child_table parent_table foreign_key parent_key) None db
  = (Returned tt,
     Sql.mkDatabase (Sql.stored db)
       (Some [orphan_count child_rows parent_rows foreign_key parent_key])).
Proof.
  intros Hc Hp Hf Hk Hcr Hpr. cbn [DataValidator.execute Sql.cursor].
  rewrite (words_orphan_query child_table parent_table foreign_key parent_key Hc Hp
             (is_name_plain _ Hf) (is_name_plain _ Hk)).
  rewrite parse_orphan_query.
  rewrite (count_orphan_statement (Sql.stored db) child_table parent_table
             foreign_key parent_key child_rows parent_rows Hcr Hpr).
  reflexivity.
Qed.



(** * More properties of the table record *)

Section MapSums.

Context `{Countable K}.

Lemma sum_Z_perm (l l' : list Z) : l ≡ₚ l' → sum_Z l = sum_Z l'.
Proof.
  unfold sum_Z. induction 1; simpl; lia.
Qed.

Lemma sum_Z_app (l l' : list Z) : sum_Z (l ++ l') = sum_Z l + sum_Z l'.
Proof. unfold sum_Z. induction l; simpl; lia. Qed.

Lemma sum_Z_nonneg (l : list Z) : Forall (fun x => 0 ≤ x) l → 0 ≤ sum_Z l.
Proof. unfold sum_Z. induction 1; simpl; lia. Qed.

Lemma sum_Z_elem_le (l : list Z) x :
  Forall (fun y => 0 ≤ y) l → x ∈ l → x ≤ sum_Z l.
Proof.
  unfold sum_Z. induction 1 as [|y l Hy Hl IH]; intros Hin.
  - by apply not_elem_of_nil in Hin.
  - apply elem_of_cons in Hin as [->|Hin]; simpl.
    + pose proof (sum_Z_nonneg l Hl). unfold sum_Z in *. lia.
    + specialize (IH Hin). lia.
Qed.

(** The lengths of the lists of a dictionary, summed: replacing or adding
    the list under one key changes the sum by the difference in length. *)
Lemma length_sum_insert {A} (d : gmap K (list A)) k (v : list A) :
  sum_Z (len <$> dict_values (<[k := v]> d))
  = sum_Z (len <$> dict_values d) - len (default [] (d !! k)) + len v.
Proof.
  unfold dict_values. destruct (d !! k) as [old|] eqn:Hk; simpl.
  - rewrite <- (insert_delete_eq d).
    rewrite (sum_Z_perm _ (len <$> ((k, v) :: map_to_list (delete k d)).*2)).
    2:{ do 2 apply fmap_Permutation. apply map_to_list_insert, lookup_delete_eq. }
    rewrite (sum_Z_perm (len <$> (map_to_list d).*2)
               (len <$> ((k, old) :: map_to_list (delete k d)).*2)).
    2:{ do 2 apply fmap_Permutation. symmetry. by apply map_to_list_delete. }
    rewrite !fmap_cons. unfold sum_Z. simpl. lia.
  - rewrite (sum_Z_perm _ (len <$> ((k, v) :: map_to_list d).*2)).
    2:{ do 2 apply fmap_Permutation. by apply map_to_list_insert. }
    rewrite !fmap_cons. unfold sum_Z, len. simpl. lia.
Qed.

End MapSums.

Lemma add_error_stage_errors stage error_msg (m : TableImportMetrics.t) :
  TableImportMetrics.stage_errors (TableImportMetrics.add_error stage error_msg m)
  = <[stage := default [] (TableImportMetrics.stage_errors m !! stage) ++ [error_msg]]>
      (TableImportMetrics.stage_errors m).
Proof.
  unfold TableImportMetrics.add_error. simpl.
  destruct (TableImportMetrics.stage_errors m !! stage) as [errs|] eqn:Hs; simpl.
  - apply map_eq. intros i. rewrite lookup_alter, lookup_insert.
    destruct (decide (stage = i)) as [<-|]; [by rewrite Hs | done].
  - by rewrite alter_insert_eq.
Qed.

(** X1. Recording a stage error appends the message to that stage's list,
    creating the list when the stage had none, and touches no other stage;
    the record's error count grows by one and its status is Error, whatever
    its other fields hold. *)
Theorem add_error_effect (stage : ImportStage) (error_msg : string)
    (m : TableImportMetrics.t) :
  let m' := TableImportMetrics.add_error stage error_msg m in
  TableImportMetrics.stage_errors m' !! stage
  = Some (default [] (TableImportMetrics.stage_errors m !! stage) ++ [error_msg])
  ∧ (∀ other, other ≠ stage →
       TableImportMetrics.stage_errors m' !! other
       = TableImportMetrics.stage_errors m !! other)
  ∧ TableImportMetrics.error_count m' = TableImportMetrics.error_count m + 1
  ∧ TableImportMetrics.get_status m' = ERROR.
Proof.
  cbv zeta.
  assert (Hl : TableImportMetrics.stage_errors
                 (TableImportMetrics.add_error stage error_msg m) !! stage
               = Some (default [] (TableImportMetrics.stage_errors m !! stage)
                         ++ [error_msg])).
  { rewrite add_error_stage_errors. apply lookup_insert_eq. }
  split; [exact Hl|]. split; [|split].
  - intros other Hne. rewrite add_error_stage_errors. by apply lookup_insert_ne.
  - unfold TableImportMetrics.error_count. rewrite add_error_stage_errors.
    rewrite length_sum_insert. unfold len. rewrite length_app. simpl. lia.
  - unfold TableImportMetrics.get_status.
    rewrite (proj2 (error_test_spec _)); [done|].
    eexists _, _. split; [exact Hl|].
    intros Heq. by apply app_eq_nil in Heq as [_ ?].
Qed.

Lemma add_error_has_stage_error stage error_msg (m : TableImportMetrics.t) :
  has_stage_error (TableImportMetrics.add_error stage error_msg m).
Proof.
  exists stage, (default [] (TableImportMetrics.stage_errors m !! stage) ++ [error_msg]).
  split.
  - rewrite add_error_stage_errors. apply lookup_insert_eq.
  - intros Heq. by apply app_eq_nil in Heq as [_ ?].
Qed.

(** No recording call takes a stage error away. *)
Lemma apply_call_keeps_error (c : RecordCall) (m : TableImportMetrics.t) :
  has_stage_error m → has_stage_error (apply_call c m).
Proof.
  intros (stage & errs & Hl & Hne). destruct c as [| | |stage' msg]; simpl.
  - by exists stage, errs.
  - by exists stage, errs.
  - by exists stage, errs.
  - destruct (decide (stage' = stage)) as [->|Hd].
    + apply add_error_has_stage_error.
    + exists stage, errs. split; [|done].
      rewrite add_error_stage_errors. by rewrite lookup_insert_ne.
Qed.

Lemma apply_calls_keep_error (calls : list RecordCall) (m : TableImportMetrics.t) :
  has_stage_error m → has_stage_error (foldl (fun m c => apply_call c m) m calls).
Proof.
  revert m. induction calls as [|c calls IH]; intros m Hm; [done|].
  simpl. apply IH. by apply apply_call_keeps_error.
Qed.

Lemma apply_calls_reach_error (calls : list RecordCall) (m : TableImportMetrics.t)
    stage error_msg :
  AddError stage error_msg ∈ calls →
  has_stage_error (foldl (fun m c => apply_call c m) m calls).
Proof.
  revert m. induction calls as [|c calls IH]; intros m Hin.
  - by apply not_elem_of_nil in Hin.
  - apply elem_of_cons in Hin as [<-|Hin]; simpl.
    + apply apply_calls_keep_error, add_error_has_stage_error.
    + by apply IH.
Qed.

Lemma set_end_time_keeps_error x (m : TableImportMetrics.t) :
  has_stage_error m → has_stage_error (TableImportMetrics.set_end_time x m).
Proof. intros (stage & errs & Hl & Hne). by exists stage, errs. Qed.

(** * More properties of the tracker *)

Section TrackerRuns.

Variable upper : string -> string.

(** On an open record a recording call returns and applies its change. *)
Lemma record_open (c : RecordCall) (l : DataImportLogger.t) m :
  DataImportLogger.current_metrics l = Some m →
  record c l = (Returned tt, DataImportLogger.set_current_metrics (Some (apply_call c m)) l).
Proof.
  intros Hc.
  destruct c as [i e|a i u e|p issues|stage msg]; simpl;
    unfold DataImportLogger.log_staging_insert, DataImportLogger.log_merge_operation,
      DataImportLogger.log_validation_result, DataImportLogger.add_error,
      DataImportLogger.on_current, bind, get, modify; rewrite Hc; try reflexivity.
  destruct issues as [[|i rest]|]; simpl; rewrite ?app_nil_r; reflexivity.
Qed.

Lemma record_all_open (calls : list RecordCall) : ∀ (l : DataImportLogger.t) m,
  DataImportLogger.current_metrics l = Some m →
  record_all calls l
  = (Returned tt,
     DataImportLogger.set_current_metrics
       (Some (foldl (fun m c => apply_call c m) m calls)) l).
Proof.
  induction calls as [|c calls IH]; intros l m Hc.
  - simpl. unfold ret. destruct l; simpl in *. by rewrite Hc.
  - cbn [record_all foldl]. unfold bind. rewrite (record_open c l m Hc).
    rewrite (IH _ (apply_call c m)); [|done]. by destruct l.
Qed.

Lemma get_summary_molo system_name (l : DataImportLogger.t) :
  upper system_name = "MOLO" →
  DataImportLogger._get_summary upper system_name l
  = (Returned DataImportLogger.MoloSummary, l).
Proof. intros Hu. unfold DataImportLogger._get_summary. by rewrite Hu. Qed.

Lemma get_summary_stellar system_name (l : DataImportLogger.t) :
  upper system_name = "STELLAR" →
  DataImportLogger._get_summary upper system_name l
  = (Returned DataImportLogger.StellarSummary, l).
Proof. intros Hu. unfold DataImportLogger._get_summary. by rewrite Hu. Qed.

(** One table run lands in the summary of its system as one addition. *)
Lemma import_table_molo system_name (r : TableRun) (l : DataImportLogger.t) :
  upper system_name = "MOLO" →
  import_table upper system_name r l
  = (Returned tt,
     DataImportLogger.mk
       (SystemImportSummary.add_table (finished_record r) (DataImportLogger.molo_summary l))
       (DataImportLogger.stellar_summary l) None).
Proof.
  intros Hu. unfold import_table, bind at 1.
  unfold DataImportLogger.start_table_import, modify at 1.
  unfold bind at 1. erewrite record_all_open; [|reflexivity].
  unfold DataImportLogger.end_table_import, bind, get, modify.
  cbn [DataImportLogger.current_metrics DataImportLogger.set_current_metrics].
  rewrite get_summary_molo by done. reflexivity.
Qed.

Lemma import_table_stellar system_name (r : TableRun) (l : DataImportLogger.t) :
  upper system_name = "STELLAR" →
  import_table upper system_name r l
  = (Returned tt,
     DataImportLogger.mk
       (DataImportLogger.molo_summary l)
       (SystemImportSummary.add_table (finished_record r)
          (DataImportLogger.stellar_summary l)) None).
Proof.
  intros Hu. unfold import_table, bind at 1.
  unfold DataImportLogger.start_table_import, modify at 1.
  unfold bind at 1. erewrite record_all_open; [|reflexivity].
  unfold DataImportLogger.end_table_import, bind, get, modify.
  cbn [DataImportLogger.current_metrics DataImportLogger.set_current_metrics].
  rewrite get_summary_stellar by done. reflexivity.
Qed.

End TrackerRuns.

(** X2. A series of table imports for one known system, each started,
    recorded into and ended in turn, leaves that system's summary as the
    summary before with the finished records added in order; the other
    system's summary is untouched, the slot ends closed, and a record that
    was open before the series is dropped without reaching any summary. *)
Theorem import_tables_fold (upper : string -> string) (system_name : string)
    (runs : list TableRun) (l : DataImportLogger.t) :
  runs ≠ [] →
  (upper system_name = "MOLO" →
   import_tables upper system_name runs l
   = (Returned tt,
      DataImportLogger.mk
        (SystemImportSummary.add_tables (finished_record <$> runs)
           (DataImportLogger.molo_summary l))
        (DataImportLogger.stellar_summary l) None))
  ∧ (upper system_name = "STELLAR" →
     import_tables upper system_name runs l
     = (Returned tt,
        DataImportLogger.mk
          (DataImportLogger.molo_summary l)
          (SystemImportSummary.add_tables (finished_record <$> runs)
             (DataImportLogger.stellar_summary l)) None)).
Proof.
  intros Hne. split; intros Hu.
  - revert l. induction runs as [|r rest IH]; [done|]. intros l.
    cbn [import_tables]. unfold bind. rewrite import_table_molo by done.
    destruct rest as [|r' rest'].
    + reflexivity.
    + rewrite IH by done. reflexivity.
  - revert l. induction runs as [|r rest IH]; [done|]. intros l.
    cbn [import_tables]. unfold bind. rewrite import_table_stellar by done.
    destruct rest as [|r' rest'].
    + reflexivity.
    + rewrite IH by done. reflexivity.
Qed.

Lemma import_tables_fold_witness :
  import_tables ascii_upper "molo" [sample_run] DataImportLogger.new
  = (Returned tt,
     DataImportLogger.mk
       (SystemImportSummary.add_tables (finished_record <$> [sample_run])
          (DataImportLogger.molo_summary DataImportLogger.new))
       (DataImportLogger.stellar_summary DataImportLogger.new) None).
Proof.
  apply (proj1 (import_tables_fold ascii_upper "molo" [sample_run] DataImportLogger.new
                  ltac:(discriminate))).
  reflexivity.
Defined.

Lemma apply_calls_table_name (calls : list RecordCall) : ∀ m,
  TableImportMetrics.table_name (foldl (fun m c => apply_call c m) m calls)
  = TableImportMetrics.table_name m.
Proof.
  induction calls as [|c calls IH]; intros m; [done|].
  simpl. rewrite IH. by destruct c.
Qed.

Lemma finished_record_name (r : TableRun) :
  TableImportMetrics.table_name (finished_record r) = run_table_name r.
Proof. unfold finished_record. simpl. by rewrite apply_calls_table_name. Qed.

Lemma finished_record_error (r : TableRun) stage error_msg :
  AddError stage error_msg ∈ run_calls r →
  TableImportMetrics.get_status (finished_record r) = ERROR.
Proof.
  intros Hin. unfold TableImportMetrics.get_status.
  rewrite (proj2 (error_test_spec _)); [done|].
  apply set_end_time_keeps_error. by eapply apply_calls_reach_error.
Qed.

(** X3. A stage error recorded at any point of a table import sticks: no
    later recording call removes it, so when the table is ended the record
    stored under its name in the system's summary has status Error. *)
Theorem import_with_error_is_error (upper : string -> string) (system_name : string)
    (r : TableRun) (l : DataImportLogger.t) (stage : ImportStage) (error_msg : string) :
  AddError stage error_msg ∈ run_calls r →
  (upper system_name = "MOLO" →
   ∃ l' m,
     import_table upper system_name r l = (Returned tt, l')
     ∧ SystemImportSummary.tables (DataImportLogger.molo_summary l') !! run_table_name r
       = Some m
     ∧ TableImportMetrics.get_status m = ERROR)
  ∧ (upper system_name = "STELLAR" →
     ∃ l' m,
       import_table upper system_name r l = (Returned tt, l')
       ∧ SystemImportSummary.tables (DataImportLogger.stellar_summary l') !! run_table_name r
         = Some m
       ∧ TableImportMetrics.get_status m = ERROR).
Proof.
  intros Hin. split; intros Hu.
  - eexists _, (finished_record r). split; [by apply import_table_molo|]. split.
    + unfold SystemImportSummary.add_table.
      cbn [DataImportLogger.molo_summary SystemImportSummary.tables].
      rewrite finished_record_name. apply lookup_insert_eq.
    + by eapply finished_record_error.
  - eexists _, (finished_record r). split; [by apply import_table_stellar|]. split.
    + unfold SystemImportSummary.add_table.
      cbn [DataImportLogger.stellar_summary SystemImportSummary.tables].
      rewrite finished_record_name. apply lookup_insert_eq.
    + by eapply finished_record_error.
Qed.

Lemma import_with_error_is_error_witness :
  ∃ l' m,
    import_table ascii_upper "Stellar" sample_run DataImportLogger.new = (Returned tt, l')
    ∧ SystemImportSummary.tables (DataImportLogger.stellar_summary l') !! "BOATS" = Some m
    ∧ TableImportMetrics.get_status m = ERROR.
Proof.
  apply (proj2 (import_with_error_is_error ascii_upper "Stellar" sample_run
                  DataImportLogger.new STAGING_INSERT "row 2 rejected"
                  ltac:(apply list_elem_of_here))).
  reflexivity.
Defined.

(** X4. On an open record the staging and merge results are replaced by
    the latest call, while validation issues pile up over the calls and
    the passed flag is the latest caller's: after a call with issues, a
    later call reporting passed without issues leaves the flag true and the
    issues in place, and the record's status is neither Success nor
    Skipped. *)
Theorem recording_replaces_and_accumulates (l : DataImportLogger.t)
    (m : TableImportMetrics.t) :
  DataImportLogger.current_metrics l = Some m →
  (∀ i1 e1 i2 e2,
     (DataImportLogger.log_staging_insert i1 e1 ;;
      DataImportLogger.log_staging_insert i2 e2)%py l
     = DataImportLogger.log_staging_insert i2 e2 l)
  ∧ (∀ a1 b1 c1 d1 a2 b2 c2 d2,
     (DataImportLogger.log_merge_operation a1 b1 c1 d1 ;;
      DataImportLogger.log_merge_operation a2 b2 c2 d2)%py l
     = DataImportLogger.log_merge_operation a2 b2 c2 d2 l)
  ∧ (∀ p1 issues1 p2 issues2,
     ∃ m',
       (DataImportLogger.log_validation_result p1 issues1 ;;
        DataImportLogger.log_validation_result p2 issues2)%py l
       = (Returned tt, DataImportLogger.set_current_metrics (Some m') l)
       ∧ TableImportMetrics.validation_issues m'
         = TableImportMetrics.validation_issues m
             ++ default [] issues1 ++ default [] issues2
       ∧ TableImportMetrics.validation_passed m' = p2
       ∧ (default [] issues1 ≠ [] →
          TableImportMetrics.get_status m' ≠ SUCCESS
          ∧ TableImportMetrics.get_status m' ≠ SKIPPED)).
Proof.
  intros Hc.
  assert (Hrec : ∀ c l0 m0, DataImportLogger.current_metrics l0 = Some m0 →
                 record c l0
                 = (Returned tt,
                    DataImportLogger.set_current_metrics (Some (apply_call c m0)) l0))
    by (intros; by apply record_open).
  split; [|split].
  - intros. unfold bind.
    pose proof (Hrec (LogStagingInsert i1 e1) l m Hc) as H1. cbn [record] in H1.
    rewrite H1.
    pose proof (Hrec (LogStagingInsert i2 e2)
                  (DataImportLogger.set_current_metrics
                     (Some (apply_call (LogStagingInsert i1 e1) m)) l) _ eq_refl) as H2.
    cbn [record] in H2. rewrite H2.
    pose proof (Hrec (LogStagingInsert i2 e2) l m Hc) as H3. cbn [record] in H3.
    rewrite H3. by destruct l.
  - intros. unfold bind.
    pose proof (Hrec (LogMergeOperation a1 b1 c1 d1) l m Hc) as H1. cbn [record] in H1.
    rewrite H1.
    pose proof (Hrec (LogMergeOperation a2 b2 c2 d2)
                  (DataImportLogger.set_current_metrics
                     (Some (apply_call (LogMergeOperation a1 b1 c1 d1) m)) l) _ eq_refl)
      as H2.
    cbn [record] in H2. rewrite H2.
    pose proof (Hrec (LogMergeOperation a2 b2 c2 d2) l m Hc) as H3. cbn [record] in H3.
    rewrite H3. by destruct l.
  - intros. unfold bind.
    pose proof (Hrec (LogValidationResult p1 issues1) l m Hc) as H1. cbn [record] in H1.
    rewrite H1.
    pose proof (Hrec (LogValidationResult p2 issues2)
                  (DataImportLogger.set_current_metrics
                     (Some (apply_call (LogValidationResult p1 issues1) m)) l) _ eq_refl)
      as H2.
    cbn [record] in H2. rewrite H2.
    eexists. split; [by destruct l|]. simpl. split; [by rewrite <- app_assoc|].
    split; [done|]. intros Hne.
    unfold TableImportMetrics.get_status. simpl.
    destruct (dict_truthy _ && _); [done|].
    destruct (default [] issues1) as [|i rest]; [done|].
    destruct (TableImportMetrics.validation_issues m); done.
Qed.

Lemma recording_replaces_and_accumulates_witness :
  (DataImportLogger.log_staging_insert 1 1 ;;
   DataImportLogger.log_staging_insert 9 0)%py
    (DataImportLogger.set_current_metrics (Some boats_first) DataImportLogger.new)
  = DataImportLogger.log_staging_insert 9 0
      (DataImportLogger.set_current_metrics (Some boats_first) DataImportLogger.new).
Proof.
  apply (proj1 (recording_replaces_and_accumulates
                  (DataImportLogger.set_current_metrics (Some boats_first)
                     DataImportLogger.new) boats_first eq_refl)).
Defined.

(** * More properties of the run summary *)

Section SummaryTables.

Import SystemImportSummary.

Lemma add_tables_snoc ms m (s0 : t) :
  add_tables (ms ++ [m]) s0 = add_table m (add_tables ms s0).
Proof. unfold add_tables. by rewrite foldl_snoc. Qed.

Lemma tables_add_table m (s : t) :
  tables (add_table m s) = <[TableImportMetrics.table_name m := m]> (tables s).
Proof. reflexivity. Qed.

Lemma last_named_snoc name ms m :
  last_named name (ms ++ [m])
  = if String.eqb (TableImportMetrics.table_name m) name then Some m
    else last_named name ms.
Proof.
  unfold last_named. rewrite List.filter_app. simpl.
  destruct (String.eqb (TableImportMetrics.table_name m) name).
  - apply last_snoc.
  - by rewrite app_nil_r.
Qed.

(** The entry under a name is the last record added under it. *)
Lemma add_tables_lookup (s0 : t) ms name :
  tables (add_tables ms s0) !! name
  = match last_named name ms with
    | Some m => Some m
    | None => tables s0 !! name
    end.
Proof.
  induction ms as [|m ms IH] using rev_ind; [done|].
  rewrite add_tables_snoc, tables_add_table, last_named_snoc.
  destruct (String.eqb (TableImportMetrics.table_name m) name) eqn:Heq.
  - apply String.eqb_eq in Heq. rewrite Heq. apply lookup_insert_eq.
  - apply String.eqb_neq in Heq. by rewrite lookup_insert_ne.
Qed.

Lemma last_named_elem name ms m :
  last_named name ms = Some m → m ∈ ms ∧ TableImportMetrics.table_name m = name.
Proof.
  unfold last_named. intros Hl. apply last_Some_elem_of in Hl.
  apply list_elem_of_In, List.filter_In in Hl as [Hin Hn].
  split; [by apply list_elem_of_In | by apply String.eqb_eq].
Qed.

Lemma add_tables_new_lookup_elem name0 ms name m :
  tables (add_tables ms (new name0)) !! name = Some m →
  m ∈ ms ∧ TableImportMetrics.table_name m = name.
Proof.
  rewrite add_tables_lookup. destruct (last_named name ms) as [m'|] eqn:Hl.
  - intros [= <-]. by apply last_named_elem.
  - simpl. by rewrite lookup_empty.
Qed.

Lemma add_tables_new_lookup_None name0 ms name :
  tables (add_tables ms (new name0)) !! name = None
  ↔ name ∉ (TableImportMetrics.table_name <$> ms).
Proof.
  induction ms as [|m ms IH] using rev_ind.
  - simpl. rewrite lookup_empty. split; [intros _|done]. apply not_elem_of_nil.
  - rewrite add_tables_snoc, tables_add_table, fmap_app, elem_of_app. simpl.
    rewrite list_elem_of_singleton.
    destruct (decide (TableImportMetrics.table_name m = name)) as [Heq|Hne].
    + rewrite Heq, lookup_insert_eq. split; [done|]. intros Hn. exfalso. apply Hn. by right.
    + rewrite lookup_insert_ne by done. rewrite IH. split.
      * intros Hn [?|?]; [done|]. by apply Hne.
      * intros Hn ?. apply Hn. by left.
Qed.

Lemma add_tables_new_size_le name0 ms :
  (size (tables (add_tables ms (new name0))) ≤ length ms)%nat.
Proof.
  induction ms as [|m ms IH] using rev_ind; [done|].
  rewrite add_tables_snoc, tables_add_table, map_size_insert, length_app. simpl.
  destruct (tables (add_tables ms (new name0)) !! TableImportMetrics.table_name m);
    simpl; lia.
Qed.

Lemma add_tables_new_size_eq name0 ms :
  size (tables (add_tables ms (new name0))) = length ms
  ↔ NoDup (TableImportMetrics.table_name <$> ms).
Proof.
  induction ms as [|m ms IH] using rev_ind.
  - simpl. split; [intros _; constructor | done].
  - rewrite add_tables_snoc, tables_add_table, map_size_insert, length_app, fmap_app.
    simpl. rewrite NoDup_app.
    pose proof (add_tables_new_size_le name0 ms) as Hle.
    destruct (tables (add_tables ms (new name0)) !! TableImportMetrics.table_name m)
      as [m'|] eqn:Hl; simpl.
    + split; [lia|]. intros (_ & Hdisj & _). exfalso.
      assert (TableImportMetrics.table_name m ∈ TableImportMetrics.table_name <$> ms) as Hin.
      { destruct (decide (TableImportMetrics.table_name m
                          ∈ TableImportMetrics.table_name <$> ms)) as [|Hn]; [done|].
        apply (proj2 (add_tables_new_lookup_None name0 ms _)) in Hn. congruence. }
      apply (Hdisj _ Hin). apply list_elem_of_here.
    + apply (proj1 (add_tables_new_lookup_None name0 ms _)) in Hl. split.
      * intros Hs. split; [apply IH; lia|]. split; [|apply NoDup_singleton].
        intros x Hx Hx'. apply list_elem_of_singleton in Hx'. by subst.
      * intros (Hnd & _ & _). apply IH in Hnd. lia.
Qed.

(** With every table name added once, the stored records are the added
    records, in some order. *)
Lemma add_tables_new_values_perm name0 ms :
  NoDup (TableImportMetrics.table_name <$> ms) →
  dict_values (tables (add_tables ms (new name0))) ≡ₚ ms.
Proof.
  induction ms as [|m ms IH] using rev_ind; intros Hnd.
  - unfold dict_values. simpl. by rewrite map_to_list_empty.
  - rewrite fmap_app in Hnd. apply NoDup_app in Hnd as (Hnd & Hdisj & _).
    rewrite add_tables_snoc, tables_add_table. unfold dict_values in *.
    rewrite map_to_list_insert.
    + rewrite fmap_cons. simpl. rewrite (IH Hnd).
      by rewrite Permutation_app_comm.
    + apply add_tables_new_lookup_None. intros Hin.
      apply (Hdisj _ Hin). apply list_elem_of_here.
Qed.

Lemma error_count_nonneg (m : TableImportMetrics.t) : 0 ≤ TableImportMetrics.error_count m.
Proof.
  unfold TableImportMetrics.error_count. apply sum_Z_nonneg.
  apply Forall_fmap, Forall_true. intros l. unfold len. simpl. lia.
Qed.

Lemma error_status_count (m : TableImportMetrics.t) :
  TableImportMetrics.get_status m = ERROR → 1 ≤ TableImportMetrics.error_count m.
Proof.
  unfold TableImportMetrics.get_status.
  destruct (dict_truthy _ && _) eqn:Ht.
  - intros _. apply error_test_spec in Ht as (stage & errs & Hl & Hne).
    unfold TableImportMetrics.error_count.
    etrans; [|apply (sum_Z_elem_le _ (len errs))].
    + destruct errs; [done|]. unfold len. simpl. lia.
    + apply Forall_fmap, Forall_true. intros l. unfold len. simpl. lia.
    + apply list_elem_of_fmap. exists errs. split; [done|].
      unfold dict_values. apply list_elem_of_fmap. exists (stage, errs).
      split; [done|]. by apply elem_of_map_to_list.
  - destruct (list_truthy _); [done|]. by destruct (_ =? _).
Qed.

Lemma warning_status_count (m : TableImportMetrics.t) :
  TableImportMetrics.get_status m = WARNING →
  1 ≤ len (TableImportMetrics.validation_issues m).
Proof.
  unfold TableImportMetrics.get_status.
  destruct (dict_truthy _ && _); [done|].
  destruct (TableImportMetrics.validation_issues m) as [|i rest]; simpl.
  - by destruct (_ =? _).
  - intros _. unfold len. simpl. lia.
Qed.

End SummaryTables.

(** X5. In a summary built by additions, the entry under a table name is
    the last record added under that name, and there is no entry for a
    name never added; the number of entries is at most the number of
    additions, and equal to it exactly when no name was added twice. *)
Theorem summary_holds_last_record (name0 : string) (ms : list TableImportMetrics.t) :
  let s := SystemImportSummary.add_tables ms (SystemImportSummary.new name0) in
  (∀ name, SystemImportSummary.tables s !! name = last_named name ms)
  ∧ (∀ name, SystemImportSummary.tables s !! name = None
             ↔ name ∉ (TableImportMetrics.table_name <$> ms))
  ∧ (size (SystemImportSummary.tables s) ≤ length ms)%nat
  ∧ (size (SystemImportSummary.tables s) = length ms
     ↔ NoDup (TableImportMetrics.table_name <$> ms)).
Proof.
  cbv zeta. split; [|split; [|split]].
  - intros name. rewrite add_tables_lookup. simpl. rewrite lookup_empty.
    by destruct (last_named name ms).
  - intros name. apply add_tables_new_lookup_None.
  - apply add_tables_new_size_le.
  - apply add_tables_new_size_eq.
Qed.

(** X6. In a summary built by additions, a stored table with status Error
    makes the error total positive and a stored table with status Warning
    makes the warning total positive; so a summary whose error total is
    zero holds no table with status Error. *)
Theorem totals_reflect_statuses (name0 : string) (ms : list TableImportMetrics.t)
    (name : string) (m : TableImportMetrics.t) :
  let s := SystemImportSummary.add_tables ms (SystemImportSummary.new name0) in
  SystemImportSummary.tables s !! name = Some m →
  (TableImportMetrics.get_status m = ERROR → 0 < SystemImportSummary.total_errors s)
  ∧ (TableImportMetrics.get_status m = WARNING → 0 < SystemImportSummary.total_warnings s)
  ∧ (SystemImportSummary.total_errors s = 0 → TableImportMetrics.get_status m ≠ ERROR).
Proof.
  cbv zeta. intros Hl. apply add_tables_new_lookup_elem in Hl as [Hin _].
  destruct (add_tables_totals_from (SystemImportSummary.new name0) ms)
    as (_ & _ & _ & _ & He & Hw). cbv zeta in He, Hw. simpl in He, Hw.
  assert (Herr : TableImportMetrics.error_count m ≤ SystemImportSummary.total_errors
                   (SystemImportSummary.add_tables ms (SystemImportSummary.new name0))).
  { rewrite He. apply sum_Z_elem_le.
    - apply Forall_fmap, Forall_true. intros x. apply error_count_nonneg.
    - apply list_elem_of_fmap. by exists m. }
  assert (Hwarn : len (TableImportMetrics.validation_issues m)
                  ≤ SystemImportSummary.total_warnings
                      (SystemImportSummary.add_tables ms (SystemImportSummary.new name0))).
  { rewrite Hw. apply sum_Z_elem_le.
    - apply Forall_fmap, Forall_true. intros x. unfold len. simpl. lia.
    - apply list_elem_of_fmap. by exists m. }
  split; [|split].
  - intros Hs. apply error_status_count in Hs. lia.
  - intros Hs. apply warning_status_count in Hs. lia.
  - intros Hz Hs. apply error_status_count in Hs. lia.
Qed.

Lemma totals_reflect_statuses_witness :
  0 < SystemImportSummary.total_errors
        (SystemImportSummary.add_tables [boats_first; slips_record]
           (SystemImportSummary.new "MOLO")).
Proof.
  apply (proj1 (totals_reflect_statuses "MOLO" [boats_first; slips_record]
                  "BOATS" boats_first eq_refl)).
  reflexivity.
Defined.

(** X7. When every table name was added once, each total of the summary is
    the sum of the corresponding field over the records it stores, and the
    number of stored tables is the number of additions. *)
Theorem unique_names_totals_match_tables (name0 : string)
    (ms : list TableImportMetrics.t) :
  NoDup (TableImportMetrics.table_name <$> ms) →
  let s := SystemImportSummary.add_tables ms (SystemImportSummary.new name0) in
  let stored := dict_values (SystemImportSummary.tables s) in
  size (SystemImportSummary.tables s) = length ms
  ∧ SystemImportSummary.total_csv_rows s
    = sum_Z (TableImportMetrics.csv_row_count <$> stored)
  ∧ SystemImportSummary.total_staging_inserted s
    = sum_Z (TableImportMetrics.staging_inserted <$> stored)
  ∧ SystemImportSummary.total_merge_inserts s
    = sum_Z (TableImportMetrics.merge_inserted <$> stored)
  ∧ SystemImportSummary.total_merge_updates s
    = sum_Z (TableImportMetrics.merge_updated <$> stored)
  ∧ SystemImportSummary.total_errors s
    = sum_Z (TableImportMetrics.error_count <$> stored)
  ∧ SystemImportSummary.total_warnings s
    = sum_Z ((fun m => len (TableImportMetrics.validation_issues m)) <$> stored).
Proof.
  intros Hnd. cbv zeta.
  pose proof (add_tables_new_values_perm name0 ms Hnd) as Hp.
  destruct (add_tables_totals_from (SystemImportSummary.new name0) ms)
    as (H1 & H2 & H3 & H4 & H5 & H6). cbv zeta in H1, H2, H3, H4, H5, H6.
  simpl in H1, H2, H3, H4, H5, H6.
  split; [by apply add_tables_new_size_eq|].
  rewrite H1, H2, H3, H4, H5, H6.
  repeat split; apply sum_Z_perm, fmap_Permutation; by symmetry.
Qed.

Lemma unique_names_totals_match_tables_witness :
  let s := SystemImportSummary.add_tables [boats_first; slips_record]
             (SystemImportSummary.new "MOLO") in
  size (SystemImportSummary.tables s) = 2%nat
  ∧ SystemImportSummary.total_csv_rows s
    = sum_Z (TableImportMetrics.csv_row_count
               <$> dict_values (SystemImportSummary.tables s)).
Proof.
  assert (Hnd : NoDup (TableImportMetrics.table_name <$> [boats_first; slips_record])).
  { apply NoDup_cons. split.
    - intros Hin. apply list_elem_of_singleton in Hin. discriminate Hin.
    - apply NoDup_singleton. }
  destruct (unique_names_totals_match_tables "MOLO" [boats_first; slips_record] Hnd)
    as (Hs & Hc & _).
  split; [exact Hs | exact Hc].
Defined.

(** With a name added twice the totals still count both additions and so
    exceed what the stored records add up to. *)
Example duplicate_name_totals_exceed_tables :
  let s := SystemImportSummary.add_tables [boats_first; boats_second]
             (SystemImportSummary.new "MOLO") in
  SystemImportSummary.total_csv_rows s = 12
  ∧ sum_Z (TableImportMetrics.csv_row_count
             <$> dict_values (SystemImportSummary.tables s)) = 4.
Proof. vm_compute. split; reflexivity. Qed.

(** * More properties of the error handler *)

Section HandlerLog.

Import ErrorHandler.
Context {W Row : Type}.
Variable str_row : Row -> string.
Variable table_name : string.
Variable operation : list Row -> M W unit.

Lemma dict_truthy_insert `{Countable K} {V} (d : gmap K V) k v :
  dict_truthy (<[k := v]> d) = true.
Proof.
  unfold dict_truthy. destruct (map_to_list (<[k := v]> d)) eqn:Hl; [|done].
  apply map_to_list_empty_iff in Hl. by apply insert_non_empty in Hl.
Qed.

Lemma log_error_step error_type context message (d : gmap string PyVal) k v
    (h : ErrorHandler.t) (w : W) :
  _log_error error_type context message (Some (<[k := v]> d)) (mkSt h w)
  = (Returned tt,
     mkSt (log_entries [Build_ErrorEntry error_type context message (<[k := v]> d)] h) w).
Proof. unfold _log_error, modify. by rewrite dict_truthy_insert. Qed.

Lemma log_entries_app a b (h : ErrorHandler.t) :
  log_entries b (log_entries a h) = log_entries (a ++ b) h.
Proof. unfold log_entries. simpl. by rewrite app_assoc. Qed.

Lemma log_entries_nil (h : ErrorHandler.t) : log_entries [] h = h.
Proof. unfold log_entries. rewrite app_nil_r. by destruct h. Qed.

Lemma plain_call batch (h : ErrorHandler.t) w :
  call (operation batch) (mkSt h w)
  = ((operation batch w).1, mkSt h (operation batch w).2).
Proof. unfold call. simpl. by destruct (operation batch w). Qed.

(** The row loop writes a log entry for a failing row as long as the
    failure counter has not passed five. *)
Lemma row_loop_log rows : ∀ idx success_count error_count h w,
  ∃ counts w',
    row_loop str_row table_name operation rows idx success_count error_count (mkSt h w)
    = (Returned counts,
       mkSt (log_entries
               (row_failure_entry str_row table_name
                  <$> take (Z.to_nat (5 - error_count))
                           (failed_attempts operation rows idx w)) h) w').
Proof.
  induction rows as [|row rest IH]; intros idx sc ec h w.
  - eexists _, _. simpl. unfold ret. rewrite take_nil. simpl.
    by rewrite log_entries_nil.
  - cbn [row_loop failed_attempts]. unfold bind at 1. unfold try_except, bind at 1.
    rewrite plain_call.
    destruct (operation [row] w) as [[[]|e] w1]; cbn [fst snd].
    + unfold ret at 1. cbn [fst snd]. apply IH.
    + destruct (ec + 1 <=? 5) eqn:Hle.
      * unfold bind at 1. unfold singletonM, map_singleton. rewrite log_error_step.
        unfold ret at 1. cbn [fst snd].
        destruct (IH (idx + 1) sc (ec + 1)
                    (log_entries [row_failure_entry str_row table_name (idx, row, e)] h) w1)
          as (counts & w' & Heq).
        exists counts, w'. etrans; [exact Heq|].
        rewrite log_entries_app. apply Z.leb_le in Hle.
        replace (Z.to_nat (5 - ec)) with (S (Z.to_nat (5 - (ec + 1)))) by lia.
        reflexivity.
      * unfold bind at 1. unfold ret at 1 2. cbn [fst snd].
        destruct (IH (idx + 1) sc (ec + 1) h w1) as (counts & w' & Heq).
        exists counts, w'. rewrite Heq. apply Z.leb_gt in Hle.
        replace (Z.to_nat (5 - (ec + 1))) with 0%nat by lia.
        replace (Z.to_nat (5 - ec)) with 0%nat by lia.
        reflexivity.
Qed.

End HandlerLog.

(** ** The slice of the logged text

    [str_take] cuts after characters, as the slice of a Python string
    does: on text of one-byte characters it is the byte prefix, and a
    character of several bytes is kept whole and counted once. *)
Lemma str_take_one_byte (n : nat) (s : string) :
  forallb (fun c => negb (is_continuation c)) (String.list_ascii_of_string s) = true →
  str_take n s = String.substring 0 n s.
Proof.
  revert n. induction s as [|c s IH]; intros n Hs.
  - by destruct n.
  - cbn [String.list_ascii_of_string forallb] in Hs.
    apply andb_true_iff in Hs as [Hc Hs]. apply negb_true_iff in Hc.
    cbn [str_take]. rewrite Hc. destruct n as [|n]; [done|].
    cbn [String.substring]. by rewrite IH.
Qed.

Example str_take_whole_characters :
  str_take 2 "a€b" = "a€"
  ∧ String.length (str_take 2 "a€b") = 4%nat
  ∧ str_take 200 (String.concat "" (replicate 100 "€"))
    = String.concat "" (replicate 100 "€")
  ∧ String.length (String.concat "" (replicate 100 "€")) = 300%nat.
Proof. vm_compute. split; [|split; [|split]]; reflexivity. Qed.

(** X8. In the row-by-row pass that follows a bulk database error, the
    first five failing rows are written to the error log, in order, each
    with its zero-based index, the first 200 characters of the row's text
    and the exception's message; failures after the fifth leave no entry,
    and the entries already in the log stay in front. *)
Theorem fallback_logs_first_five_failures {W Row : Type} (str_row : Row -> string)
    (table_name : string) (operation : list Row -> M W unit)
    (data_rows : list Row) (h : ErrorHandler.t) (w w1 : W) (err : OraError) :
  data_rows ≠ [] →
  operation data_rows w = (Raised (DatabaseError err), w1) →
  ∃ counts w',
    ErrorHandler.handle_staging_insert str_row table_name operation data_rows
      (ErrorHandler.mkSt h w)
    = (Returned counts,
       ErrorHandler.mkSt
         (log_entries
            (row_failure_entry str_row table_name
               <$> take 5 (failed_attempts operation data_rows 0 w1)) h) w').
Proof.
  intros Hne Hop. unfold ErrorHandler.handle_staging_insert.
  destruct data_rows as [|r rs]; [done|]. cbn [list_truthy negb].
  rewrite plain_call, Hop. cbn [fst snd].
  unfold ErrorHandler._insert_row_by_row.
  apply (row_loop_log str_row table_name operation (r :: rs) 0 0 0 h w1).
Qed.

Lemma fallback_logs_first_five_failures_witness :
  ∃ counts w',
    ErrorHandler.handle_staging_insert pretty "STG_BOATS" accept_below_two (seq 0 12)
      (ErrorHandler.mkSt (ErrorHandler.new 3) [])
    = (Returned counts,
       ErrorHandler.mkSt
         (log_entries
            (row_failure_entry pretty "STG_BOATS"
               <$> take 5 (failed_attempts accept_below_two (seq 0 12) 0 []))
            (ErrorHandler.new 3)) w').
Proof.
  apply (fallback_logs_first_five_failures pretty "STG_BOATS" accept_below_two
           (seq 0 12) (ErrorHandler.new 3) [] [] null_rejected).
  - discriminate.
  - reflexivity.
Defined.

(** Twelve rows of which ten fail: two inserted, ten counted, five logged,
    the rows 2 to 6. *)
Example fallback_twelve_rows :
  let run := ErrorHandler.handle_staging_insert pretty "STG_BOATS" accept_below_two
               (seq 0 12) (ErrorHandler.mkSt (ErrorHandler.new 3) []) in
  run.1 = Returned (2, 10)
  ∧ (fun e => ErrorHandler.entry_metadata e !! "row_index")
      <$> ErrorHandler.error_log (ErrorHandler.self run.2)
    = [Some (PInt 2); Some (PInt 3); Some (PInt 4); Some (PInt 5); Some (PInt 6)].
Proof. vm_compute. split; reflexivity. Qed.

Section MergePaths.

Import ErrorHandler.
Context {W : Type}.
Variable db : Connector W.

(** The guarded block of the merge step, call by call. *)
Lemma merge_block_run procedure_name (h : ErrorHandler.t) w w1 w2 rc
    (committed : Outcome unit) w3 :
  cursor_execute db (merge_statement procedure_name) w = (Returned tt, w1) →
  cursor_rowcount db w1 = (Returned rc, w2) →
  connection_commit db w2 = (committed, w3) →
  call (cursor_execute (traced_connector db) (merge_statement procedure_name) ;;
        do row_count <- cursor_rowcount (traced_connector db);
        connection_commit (traced_connector db) ;;
        ret row_count)%py (mkSt h (w, []))
  = (match committed with Returned _ => Returned rc | Raised e => Raised e end,
     mkSt h (w3, [Execute (merge_statement procedure_name); Rowcount; Commit])).
Proof.
  intros Hex Hrc Hco. unfold call, bind.
  cbn [world self traced_connector cursor_execute cursor_rowcount connection_commit].
  unfold traced_step. rewrite Hex. cbn [app]. rewrite Hrc. cbn [app]. rewrite Hco.
  by destruct committed as [[]|e].
Qed.

Lemma rollback_step (h0 : ErrorHandler.t) w1 w2 (log : list DbCall) (rolled : Outcome unit) :
  connection_rollback db w1 = (rolled, w2) →
  call (connection_rollback (traced_connector db)) (mkSt h0 (w1, log))
  = (rolled, mkSt h0 (w2, log ++ [Rollback])).
Proof.
  intros Hrb. cbn [traced_connector connection_rollback].
  rewrite traced_step_call, Hrb. reflexivity.
Qed.

(** What the two [except] clauses of the merge step do with a fault [e]
    that left the guarded block in state [st]. *)
Lemma merge_handlers procedure_name table_name (e : PyExn) (h : ErrorHandler.t)
    w1 w2 log (rolled : Outcome unit) :
  connection_rollback db w1 = (rolled, w2) →
  (_log_error "merge_operation" procedure_name (exn_str e)
     (Some {["table_name" := table_name_val table_name]}) ;;
   call (connection_rollback (traced_connector db)))%py (mkSt h (w1, log))
  = (rolled, mkSt (log_entry (merge_entry procedure_name table_name e) h)
               (w2, log ++ [Rollback])).
Proof.
  intros Hrb. unfold bind. unfold singletonM, map_singleton.
  rewrite log_error_step. rewrite (rollback_step _ _ _ _ _ Hrb).
  by destruct rolled as [[]|].
Qed.

End MergePaths.

(** The merge step, given how its guarded block ended and what the
    rollback does. *)
Lemma merge_outcome {W : Type} (db : ErrorHandler.Connector W)
    procedure_name table_name (h : ErrorHandler.t) w w1 w2 log
    (blocked : Outcome Z) (rolled : Outcome unit) :
  ErrorHandler.call
    (ErrorHandler.cursor_execute (ErrorHandler.traced_connector db)
       (merge_statement procedure_name) ;;
     do row_count <- ErrorHandler.cursor_rowcount (ErrorHandler.traced_connector db);
     ErrorHandler.connection_commit (ErrorHandler.traced_connector db) ;;
     ret row_count)%py (ErrorHandler.mkSt h (w, []))
  = (blocked, ErrorHandler.mkSt h (w1, log)) →
  ErrorHandler.connection_rollback db w1 = (rolled, w2) →
  ErrorHandler.handle_merge_operation procedure_name
    (ErrorHandler.traced_connector db) table_name (ErrorHandler.mkSt h (w, []))
  = match blocked with
    | Returned row_count =>
        (Returned (ErrorHandler.Build_MergeResult row_count 0 0 0 true None),
         ErrorHandler.mkSt h (w1, log))
    | Raised e =>
        (match rolled with
         | Raised r => Raised r
         | Returned _ =>
             match e with
             | DatabaseError err => Returned (merge_failure (ora_message err))
             | _ => Raised (MergeOperationError
                              ("Failed to merge "
                                 +:+ ErrorHandler.display_name procedure_name table_name
                                 +:+ ": " +:+ exn_str e) e)
             end
         end,
         ErrorHandler.mkSt (log_entry (merge_entry procedure_name table_name e) h)
           (w2, log ++ [ErrorHandler.Rollback]))
    end.
Proof.
  intros Hblock Hrb. unfold ErrorHandler.handle_merge_operation.
  fold (merge_statement procedure_name). rewrite Hblock.
  destruct blocked as [rc|e]; [reflexivity|].
  destruct e as [err|msg|msg c|msg c|cls msg];
    unfold bind; unfold singletonM, map_singleton; rewrite log_error_step;
    rewrite (rollback_step db _ _ _ _ _ Hrb); by destruct rolled as [[]|].
Qed.

(** X9. When the routine and the row count succeed, a returning commit
    ends the merge with the success result carrying the row count as
    matched, after execute, rowcount and commit and without a rollback or a
    log entry.  A commit that raises is handled like a routine that
    raises: the fault is logged, a rollback follows the commit, and with
    the rollback done a database error gives the failure result and any
    other fault a MergeOperationError. *)
Theorem merge_commit_paths {W : Type} (db : ErrorHandler.Connector W)
    (procedure_name : string) (table_name : option string)
    (h : ErrorHandler.t) (w w1 w2 : W) (row_count : Z) :
  ErrorHandler.cursor_execute db (merge_statement procedure_name) w = (Returned tt, w1) →
  ErrorHandler.cursor_rowcount db w1 = (Returned row_count, w2) →
  let run := ErrorHandler.handle_merge_operation procedure_name
               (ErrorHandler.traced_connector db) table_name
               (ErrorHandler.mkSt h (w, [])) in
  (∀ w3, ErrorHandler.connection_commit db w2 = (Returned tt, w3) →
     run = (Returned (ErrorHandler.Build_MergeResult row_count 0 0 0 true None),
            ErrorHandler.mkSt h
              (w3, [ErrorHandler.Execute (merge_statement procedure_name);
                    ErrorHandler.Rowcount; ErrorHandler.Commit])))
  ∧ (∀ e w3 w4,
       ErrorHandler.connection_commit db w2 = (Raised e, w3) →
       ErrorHandler.connection_rollback db w3 = (Returned tt, w4) →
       run = (match e with
              | DatabaseError err => Returned (merge_failure (ora_message err))
              | _ => Raised (MergeOperationError
                               ("Failed to merge "
                                  +:+ ErrorHandler.display_name procedure_name table_name
                                  +:+ ": " +:+ exn_str e) e)
              end,
              ErrorHandler.mkSt (log_entry (merge_entry procedure_name table_name e) h)
                (w4, [ErrorHandler.Execute (merge_statement procedure_name);
                      ErrorHandler.Rowcount; ErrorHandler.Commit;
                      ErrorHandler.Rollback]))).
Proof.
  intros Hex Hrc. cbv zeta. split.
  - intros w3 Hco.
    destruct (ErrorHandler.connection_rollback db w3) as [rolled w4] eqn:Hrb.
    rewrite (merge_outcome db procedure_name table_name h w w3 w4
               [ErrorHandler.Execute (merge_statement procedure_name); ErrorHandler.Rowcount; ErrorHandler.Commit]
               (Returned row_count) rolled); [reflexivity| |exact Hrb].
    by rewrite (merge_block_run db procedure_name h w w1 w2 row_count _ w3 Hex Hrc Hco).
  - intros e w3 w4 Hco Hrb.
    rewrite (merge_outcome db procedure_name table_name h w w3 w4
               [ErrorHandler.Execute (merge_statement procedure_name); ErrorHandler.Rowcount; ErrorHandler.Commit]
               (Raised e) (Returned tt)); [reflexivity| |exact Hrb].
    by rewrite (merge_block_run db procedure_name h w w1 w2 row_count _ w3 Hex Hrc Hco).
Qed.

(** X10. When the rollback itself raises, its exception is what leaves
    the merge step, whether the routine's fault was a database error or
    not: neither the failure result nor a MergeOperationError comes out;
    the routine's fault has been written to the error log by then. *)
Theorem merge_rollback_fault_propagates {W : Type} (db : ErrorHandler.Connector W)
    (procedure_name : string) (table_name : option string)
    (h : ErrorHandler.t) (w w1 w2 : W) (e r : PyExn) :
  ErrorHandler.cursor_execute db (merge_statement procedure_name) w = (Raised e, w1) →
  ErrorHandler.connection_rollback db w1 = (Raised r, w2) →
  ErrorHandler.handle_merge_operation procedure_name
    (ErrorHandler.traced_connector db) table_name (ErrorHandler.mkSt h (w, []))
  = (Raised r,
     ErrorHandler.mkSt (log_entry (merge_entry procedure_name table_name e) h)
       (w2, [ErrorHandler.Execute (merge_statement procedure_name);
             ErrorHandler.Rollback])).
Proof.
  intros Hex Hrb.
  rewrite (merge_outcome db procedure_name table_name h w w1 w2
             [ErrorHandler.Execute (merge_statement procedure_name)]
             (Raised e) (Raised r)); [reflexivity| |exact Hrb].
  by rewrite (merge_block_execute_raises db procedure_name h w w1 e Hex).
Qed.

Lemma merge_commit_paths_witness :
  ErrorHandler.handle_merge_operation "MERGE_OK"
    (ErrorHandler.traced_connector sample_connector) None
    (ErrorHandler.mkSt (ErrorHandler.new 3) (0%nat, []))
  = (Returned (ErrorHandler.Build_MergeResult 3 0 0 0 true None),
     ErrorHandler.mkSt (ErrorHandler.new 3)
       (1%nat, [ErrorHandler.Execute (merge_statement "MERGE_OK");
                ErrorHandler.Rowcount; ErrorHandler.Commit])).
Proof.
  apply (proj1 (merge_commit_paths sample_connector "MERGE_OK" None (ErrorHandler.new 3)
                  0%nat 0%nat 0%nat 3 eq_refl eq_refl) 1%nat eq_refl).
Defined.

Lemma merge_rollback_fault_propagates_witness :
  ErrorHandler.handle_merge_operation "MERGE_DENIED"
    (ErrorHandler.traced_connector
       {| ErrorHandler.cursor_execute := ErrorHandler.cursor_execute sample_connector;
          ErrorHandler.cursor_rowcount := ErrorHandler.cursor_rowcount sample_connector;
          ErrorHandler.connection_commit := ErrorHandler.connection_commit sample_connector;
          ErrorHandler.connection_rollback :=
            ErrorHandler.connection_rollback dropping_connector |})
    None (ErrorHandler.mkSt (ErrorHandler.new 3) (0%nat, []))
  = (Raised (DatabaseError connection_lost),
     ErrorHandler.mkSt
       (log_entry (merge_entry "MERGE_DENIED" None (DatabaseError null_rejected))
          (ErrorHandler.new 3))
       (0%nat, [ErrorHandler.Execute (merge_statement "MERGE_DENIED");
                ErrorHandler.Rollback])).
Proof.
  apply (merge_rollback_fault_propagates _ "MERGE_DENIED" None (ErrorHandler.new 3)
           0%nat 0%nat 0%nat (DatabaseError null_rejected) (DatabaseError connection_lost)).
  - reflexivity.
  - reflexivity.
Defined.

Section HandlerAppendOnly.

Import ErrorHandler.
Context {W Row : Type}.

Lemma call_self {A} (c : M W A) (st : St W) :
  self (call c st).2 = self st.
Proof. unfold call. by destruct (c (world st)). Qed.

Lemma length_take_le {A} (n : nat) (l : list A) : (length (take n l) ≤ n)%nat.
Proof. rewrite length_take. lia. Qed.

Lemma staging_log_grows (str_row : Row -> string) table_name
    (operation : list Row -> M W unit) data_rows (h : ErrorHandler.t) (w : W) :
  ∃ entries,
    self (handle_staging_insert str_row table_name operation data_rows (mkSt h w)).2
    = log_entries entries h
    ∧ (length entries ≤ 5)%nat.
Proof.
  unfold handle_staging_insert. destruct data_rows as [|r rs]; cbn [list_truthy negb].
  - exists []. rewrite log_entries_nil. split; [reflexivity | simpl; lia].
  - rewrite plain_call. destruct (operation (r :: rs) w) as [[[]|e] w1]; cbn [fst snd].
    + exists []. rewrite log_entries_nil. split; [reflexivity | simpl; lia].
    + assert (Hfatal : ∃ entries,
        self ((_log_error "staging_insert" table_name (exn_str e)
                 (Some {["row_count" := PInt (len (r :: rs))]}) ;;
               raise (StagingInsertError
                        ("Failed to insert into " +:+ table_name +:+ ": " +:+ exn_str e) e))%py
                (mkSt h w1) : Outcome (Z * Z) * St W).2
        = log_entries entries h ∧ (length entries ≤ 5)%nat).
      { unfold bind. unfold singletonM, map_singleton. rewrite log_error_step.
        eexists [_]. split; [reflexivity | simpl; lia]. }
      destruct e as [err|msg|msg c|msg c|cls msg]; try exact Hfatal.
      unfold _insert_row_by_row.
      destruct (row_loop_log str_row table_name operation (r :: rs) 0 0 0 h w1)
        as (counts & w' & ->).
      eexists. split; [reflexivity|]. rewrite length_fmap. apply length_take_le.
Qed.

Lemma merge_log_grows procedure_name (db : Connector W) table_name
    (h : ErrorHandler.t) (w : W) :
  ∃ entries,
    self (handle_merge_operation procedure_name db table_name (mkSt h w)).2
    = log_entries entries h
    ∧ (length entries ≤ 1)%nat.
Proof.
  unfold handle_merge_operation.
  match goal with |- context [call ?c (mkSt h w)] =>
    pose proof (call_self c (mkSt h w)) as Hself;
    destruct (call c (mkSt h w)) as [[rc|e] [h1 w1]] end;
    cbn [self snd] in Hself; subst h1.
  - exists []. rewrite log_entries_nil. split; [reflexivity | simpl; lia].
  - assert (Hrb : ∀ h0, self (call (connection_rollback db) (mkSt h0 w1)).2 = h0)
      by (intros; apply call_self).
    destruct e as [err|msg|msg c|msg c|cls msg];
      unfold bind; unfold singletonM, map_singleton; rewrite log_error_step;
      (match goal with |- context [call ?c ?st] =>
         specialize (Hrb (self st)); cbn [self] in Hrb;
         destruct (call c st) as [[[]|r] st2] end);
      cbn [snd] in Hrb; unfold ret, raise; cbn [snd]; rewrite Hrb; eexists [_];
      (split; [reflexivity | simpl; lia]).
Qed.

Lemma handle_validation_returned (validation_func : M W (bool * list string))
    func_str args_str (h : ErrorHandler.t) w r w' :
  validation_func w = (Returned r, w') →
  handle_validation validation_func func_str args_str (mkSt h w)
  = (Returned r, mkSt h w').
Proof.
  intros Hv. unfold handle_validation, try_except, call. simpl. by rewrite Hv.
Qed.

Lemma handle_validation_raised (validation_func : M W (bool * list string))
    func_str args_str (h : ErrorHandler.t) w e w' :
  validation_func w = (Raised e, w') →
  handle_validation validation_func func_str args_str (mkSt h w)
  = (Returned (false, ["Validation exception: " +:+ exn_str e]),
     mkSt (log_entry (validation_entry func_str args_str e) h) w').
Proof.
  intros Hv. unfold handle_validation, try_except, call. simpl. rewrite Hv.
  unfold bind. unfold singletonM, map_singleton. by rewrite log_error_step.
Qed.

Lemma handle_validation_of_returning (validation_func : M W (bool * list string))
    func_str args_str (h : ErrorHandler.t) w :
  is_raised (validation_func w).1 = false →
  handle_validation validation_func func_str args_str (mkSt h w)
  = ((validation_func w).1, mkSt h (validation_func w).2).
Proof.
  intros Hr. destruct (validation_func w) as [[r|e] w'] eqn:Hv; [|done].
  by apply handle_validation_returned.
Qed.

End HandlerAppendOnly.

(** X11. The validation wrapper never raises.  A result the wrapped
    function returns comes back unchanged and nothing is logged; an
    exception becomes (false, [one message]) and one log entry of type
    validation.  Around any of the three validators, which do not raise,
    the wrapper therefore hands back the validator's own result and leaves
    the error log alone. *)
Theorem handle_validation_wraps {W : Type}
    (validation_func : M W (bool * list string)) (func_str args_str : string)
    (h : ErrorHandler.t) (w : W) :
  is_raised (ErrorHandler.handle_validation validation_func func_str args_str
               (ErrorHandler.mkSt h w)).1 = false
  ∧ (∀ r w', validation_func w = (Returned r, w') →
       ErrorHandler.handle_validation validation_func func_str args_str
         (ErrorHandler.mkSt h w)
       = (Returned r, ErrorHandler.mkSt h w'))
  ∧ (∀ e w', validation_func w = (Raised e, w') →
       ErrorHandler.handle_validation validation_func func_str args_str
         (ErrorHandler.mkSt h w)
       = (Returned (false, ["Validation exception: " +:+ exn_str e]),
          ErrorHandler.mkSt (log_entry (validation_entry func_str args_str e) h) w'))
  ∧ (∀ (db : DataValidator.Cursor W) csv_rows_of repr_list
       csv_content staging_table dw_table id_column,
       let v := DataValidator.validate_table_import db csv_rows_of repr_list
                  csv_content staging_table dw_table id_column in
       ErrorHandler.handle_validation v func_str args_str (ErrorHandler.mkSt h w)
       = ((v w).1, ErrorHandler.mkSt h (v w).2))
  ∧ (∀ (db : DataValidator.Cursor W) staging_table dw_table expected_updates
       expected_inserts,
       let v := DataValidator.validate_merge_operation db staging_table dw_table
                  expected_updates expected_inserts in
       ErrorHandler.handle_validation v func_str args_str (ErrorHandler.mkSt h w)
       = ((v w).1, ErrorHandler.mkSt h (v w).2))
  ∧ (∀ (db : DataValidator.Cursor W) child_table parent_table foreign_key parent_key,
       let v := DataValidator.check_referential_integrity db child_table parent_table
                  foreign_key parent_key in
       ErrorHandler.handle_validation v func_str args_str (ErrorHandler.mkSt h w)
       = ((v w).1, ErrorHandler.mkSt h (v w).2)).
Proof.
  split; [|split; [|split; [|split; [|split]]]].
  - destruct (validation_func w) as [[r|e] w'] eqn:Hv.
    + by rewrite (handle_validation_returned _ _ _ _ _ _ _ Hv).
    + by rewrite (handle_validation_raised _ _ _ _ _ _ _ Hv).
  - intros. by apply handle_validation_returned.
  - intros. by apply handle_validation_raised.
  - intros. apply handle_validation_of_returning, guarded_frame_returns.
  - intros. apply handle_validation_of_returning, guarded_frame_returns.
  - intros. apply handle_validation_of_returning, guarded_frame_returns.
Qed.

Lemma handle_validation_wraps_witness :
  ErrorHandler.handle_validation
    (fun w : unit => (Raised (OtherException "KeyError" "'ID'"), w))
    "<function check>" "('STG_BOATS',)" (ErrorHandler.mkSt (ErrorHandler.new 3) tt)
  = (Returned (false, ["Validation exception: 'ID'"]),
     ErrorHandler.mkSt
       (log_entry (validation_entry "<function check>" "('STG_BOATS',)"
                     (OtherException "KeyError" "'ID'")) (ErrorHandler.new 3)) tt).
Proof.
  apply (proj1 (proj2 (proj2 (handle_validation_wraps
                                (fun w : unit => (Raised (OtherException "KeyError" "'ID'"), w))
                                "<function check>" "('STG_BOATS',)"
                                (ErrorHandler.new 3) tt)))
           (OtherException "KeyError" "'ID'") tt eq_refl).
Defined.

(** X13. The error log only grows: whatever the borrowed operation or
    connector does, a staging insert leaves the log as it was with at most
    five entries added at the end, a merge or a wrapped validation with at
    most one; no entry is removed or changed and the retry setting is
    kept. *)
Theorem handler_log_append_only {W Row : Type} (str_row : Row -> string)
    (table_name procedure_name func_str args_str : string)
    (operation : list Row -> M W unit) (data_rows : list Row)
    (db : ErrorHandler.Connector W) (merge_table : option string)
    (validation_func : M W (bool * list string))
    (h : ErrorHandler.t) (w : W) :
  (∃ entries,
     ErrorHandler.self
       (ErrorHandler.handle_staging_insert str_row table_name operation data_rows
          (ErrorHandler.mkSt h w)).2
     = log_entries entries h ∧ (length entries ≤ 5)%nat)
  ∧ (∃ entries,
     ErrorHandler.self
       (ErrorHandler.handle_merge_operation procedure_name db merge_table
          (ErrorHandler.mkSt h w)).2
     = log_entries entries h ∧ (length entries ≤ 1)%nat)
  ∧ (∃ entries,
     ErrorHandler.self
       (ErrorHandler.handle_validation validation_func func_str args_str
          (ErrorHandler.mkSt h w)).2
     = log_entries entries h ∧ (length entries ≤ 1)%nat).
Proof.
  split; [|split].
  - apply staging_log_grows.
  - apply merge_log_grows.
  - destruct (validation_func w) as [[r|e] w'] eqn:Hv.
    + rewrite (handle_validation_returned _ _ _ _ _ _ _ Hv).
      exists []. rewrite log_entries_nil. split; [reflexivity | simpl; lia].
    + rewrite (handle_validation_raised _ _ _ _ _ _ _ Hv).
      eexists [_]. split; [reflexivity | simpl; lia].
Qed.

(** * Properties of the error report *)

Section ErrorReportFacts.

Import ErrorReport.

Lemma sum_values_insert (d : gmap string Z) k v :
  sum_Z (dict_values (<[k := v]> d))
  = sum_Z (dict_values d) - default 0 (d !! k) + v.
Proof.
  unfold dict_values. destruct (d !! k) as [old|] eqn:Hk; simpl.
  - rewrite <- (insert_delete_eq d).
    rewrite (sum_Z_perm _ (((k, v) :: map_to_list (delete k d)).*2)).
    2:{ apply fmap_Permutation. apply map_to_list_insert, lookup_delete_eq. }
    rewrite (sum_Z_perm ((map_to_list d).*2) (((k, old) :: map_to_list (delete k d)).*2)).
    2:{ apply fmap_Permutation. symmetry. by apply map_to_list_delete. }
    rewrite !fmap_cons. unfold sum_Z. simpl. lia.
  - rewrite (sum_Z_perm _ (((k, v) :: map_to_list d).*2)).
    2:{ apply fmap_Permutation. by apply map_to_list_insert. }
    rewrite !fmap_cons. unfold sum_Z. simpl. lia.
Qed.

Lemma count_by_type_snoc log e :
  count_by_type (log ++ [e])
  = <[ErrorHandler.entry_type e
      := default 0 (count_by_type log !! ErrorHandler.entry_type e) + 1]>
      (count_by_type log).
Proof. unfold count_by_type. by rewrite foldl_snoc. Qed.

Lemma entries_of_type_snoc error_type log e :
  entries_of_type error_type (log ++ [e])
  = entries_of_type error_type log
    + (if String.eqb (ErrorHandler.entry_type e) error_type then 1 else 0).
Proof.
  unfold entries_of_type, len. rewrite List.filter_app, length_app. simpl.
  destruct (String.eqb (ErrorHandler.entry_type e) error_type); simpl; lia.
Qed.

Lemma entries_of_type_nonneg error_type log : 0 ≤ entries_of_type error_type log.
Proof. unfold entries_of_type, len. lia. Qed.

Lemma count_by_type_lookup log error_type :
  count_by_type log !! error_type
  = if entries_of_type error_type log =? 0 then None
    else Some (entries_of_type error_type log).
Proof.
  induction log as [|e log IH] using rev_ind; [done|].
  rewrite count_by_type_snoc, entries_of_type_snoc.
  pose proof (entries_of_type_nonneg error_type log) as Hn.
  destruct (String.eqb (ErrorHandler.entry_type e) error_type) eqn:Heq.
  - apply String.eqb_eq in Heq. rewrite Heq, lookup_insert_eq, IH.
    destruct (entries_of_type error_type log =? 0) eqn:Hz.
    + apply Z.eqb_eq in Hz. rewrite Hz. reflexivity.
    + apply Z.eqb_neq in Hz. simpl.
      destruct (entries_of_type error_type log + 1 =? 0) eqn:Hz'; [|done].
      apply Z.eqb_eq in Hz'. lia.
  - apply String.eqb_neq in Heq. rewrite lookup_insert_ne by done.
    by rewrite IH, Z.add_0_r.
Qed.

Lemma count_by_type_sum log : sum_Z (dict_values (count_by_type log)) = len log.
Proof.
  induction log as [|e log IH] using rev_ind.
  - unfold count_by_type, dict_values. simpl. by rewrite map_to_list_empty.
  - rewrite count_by_type_snoc, sum_values_insert, IH.
    unfold len. rewrite length_app. simpl. lia.
Qed.

End ErrorReportFacts.

(** X12. In the error summary the counts by type add up to the total,
    which is the length of the log; a type has an entry exactly when some
    log entry carries it, and the entry is the number of such log entries.
    After the log is cleared the summary is empty. *)
Theorem error_summary_counts (h : ErrorHandler.t) :
  let s := ErrorReport.get_error_summary h in
  ErrorReport.total_errors s = len (ErrorHandler.error_log h)
  ∧ sum_Z (dict_values (ErrorReport.by_type s)) = ErrorReport.total_errors s
  ∧ (∀ error_type,
       ErrorReport.by_type s !! error_type
       = if entries_of_type error_type (ErrorHandler.error_log h) =? 0 then None
         else Some (entries_of_type error_type (ErrorHandler.error_log h)))
  ∧ ErrorReport.get_error_summary (ErrorReport.clear_errors h)
    = ErrorReport.Build_ErrorSummary 0 ∅ [].
Proof.
  cbv zeta. split; [reflexivity|]. split; [|split].
  - apply count_by_type_sum.
  - intros error_type. apply count_by_type_lookup.
  - reflexivity.
Qed.

(** * More properties of the validator *)

Section FrameSteps.

Import DataValidator.
Context {W : Type}.

Lemma steady_ret {A} (a : A) : steady (W:=W) (ret a).
Proof. intros fr. exists a, fr, []. by rewrite app_nil_r. Qed.

Lemma steady_issues_append msg : steady (W:=W) (issues_append msg).
Proof. intros fr. by exists tt, (mkFrame (database fr) (issues fr ++ [msg])), [msg]. Qed.

Lemma steady_when b (c : M (Frame W) unit) : steady c → steady (when b c).
Proof. intros Hc. destruct b; [done | apply steady_ret]. Qed.

Lemma steady_bind {A B} (c : M (Frame W) A) (k : A → M (Frame W) B) :
  steady c → (∀ a, steady (k a)) → steady (bind c k).
Proof.
  intros Hc Hk fr. destruct (Hc fr) as (a & fr1 & added1 & Heq1 & Hi1).
  destruct (Hk a fr1) as (b & fr2 & added2 & Heq2 & Hi2).
  exists b, fr2, (added1 ++ added2). unfold bind. rewrite Heq1, Heq2.
  split; [done|]. by rewrite Hi2, Hi1, app_assoc.
Qed.

Lemma steady_call {A} (c : M W A) :
  (∀ w, is_raised (c w).1 = false) → steady (call c).
Proof.
  intros Hc fr. unfold call. specialize (Hc (database fr)).
  destruct (c (database fr)) as [[a|e] w']; [|done].
  exists a, (mkFrame w' (issues fr)), []. by rewrite app_nil_r.
Qed.

Lemma closing_final :
  closing (W:=W) (do fr <- get; ret (len (issues fr) =? 0, issues fr))%py.
Proof. intros fr. exists [], fr. by rewrite app_nil_r. Qed.

Lemma closing_bind {A} (c : M (Frame W) A) (k : A → M (Frame W) (bool * list string)) :
  steady c → (∀ a, closing (k a)) → closing (bind c k).
Proof.
  intros Hc Hk fr. destruct (Hc fr) as (a & fr1 & added1 & Heq1 & Hi1).
  destruct (Hk a fr1) as (added2 & fr2 & Heq2).
  exists (added1 ++ added2), fr2. unfold bind. rewrite Heq1, Heq2.
  by rewrite Hi1, app_assoc.
Qed.

Lemma len_eqb_nil {A} (l : list A) : (len l =? 0) = true ↔ l = [].
Proof.
  unfold len. destruct l; simpl; split; intros H; done.
Qed.

(** A guarded method whose body, when it returns, returns a flag and a
    list that agree. *)
Lemma guarded_frame_verdict (body : M (Frame W) (bool * list string))
    (message : PyExn → string) (w : W) :
  (∀ fr, match (body fr).1 with
         | Returned (passed, found) => passed = true ↔ found = []
         | Raised _ => True
         end) →
  verdict_agrees
    (run_frame
       (try_except body
          (fun e => issues_append (message e) ;;
                    do fr <- get; ret (false, issues fr))%py) w).1.
Proof.
  intros Hb. unfold run_frame, try_except. specialize (Hb (mkFrame w [])).
  destruct (body (mkFrame w [])) as [[[p found]|e] fr]; simpl in *; [done|].
  split; [done|]. intros Heq. by apply app_eq_nil in Heq as [_ ?].
Qed.

Lemma closing_agrees (c : M (Frame W) (bool * list string)) :
  closing c →
  ∀ fr, match (c fr).1 with
        | Returned (passed, found) => passed = true ↔ found = []
        | Raised _ => True
        end.
Proof.
  intros Hc fr. destruct (Hc fr) as (added & fr' & ->). simpl. apply len_eqb_nil.
Qed.

End FrameSteps.

Section ValidatorBodies.

Import DataValidator.
Context {W : Type}.
Variable db : Cursor W.
Variable csv_rows_of : string → Outcome (list (gmap string (option string))).
Variable repr_list : list string → string.

Lemma steady_get_row_count table_name : steady (call (_get_row_count db table_name)).
Proof. apply steady_call. intros w. apply guarded_default_returns. Qed.

Lemma steady_count_null_ids table_name id_column :
  steady (call (_count_null_ids db table_name id_column)).
Proof. apply steady_call. intros w. apply guarded_default_returns. Qed.

Lemma steady_check_ids_exist table_name id_column ids :
  steady (call (_check_ids_exist db table_name id_column ids)).
Proof. apply steady_call. intros w. apply guarded_default_returns. Qed.

Lemma closing_import_checks csv_rows staging_table dw_table id_column staging_count dw_count :
  closing (import_checks db repr_list csv_rows staging_table dw_table id_column
             staging_count dw_count).
Proof.
  unfold import_checks.
  apply closing_bind; [apply steady_when, steady_issues_append|intros _].
  apply closing_bind.
  { apply steady_when. cbv zeta. apply steady_when.
    apply steady_bind; [apply steady_check_ids_exist|intros missing].
    apply steady_when, steady_issues_append. }
  intros _. apply closing_bind; [apply steady_count_null_ids|intros n].
  apply closing_bind; [apply steady_when, steady_issues_append|intros _].
  apply closing_final.
Qed.

(** Table-import validation of a source with rows, as the row count
    comparison followed by the remaining checks. *)
Lemma validate_table_import_rows csv_content staging_table dw_table id_column
    csv_rows (w : W) :
  csv_rows_of csv_content = Returned csv_rows →
  csv_rows ≠ [] →
  validate_table_import db csv_rows_of repr_list csv_content staging_table dw_table
    id_column w
  = run_frame (try_except
      (do staging_count <- call (_get_row_count db staging_table);
       do dw_count <- call (_get_row_count db dw_table);
       when (negb (len csv_rows =? staging_count))
         (issues_append (mismatch_issue (len csv_rows) staging_count)) ;;
       import_checks db repr_list csv_rows staging_table dw_table id_column
         staging_count dw_count)
      (fun e =>
         issues_append ("Validation exception: " +:+ exn_str e) ;;
         do fr <- get;
         ret (false, issues fr)))%py w.
Proof.
  intros Hcsv Hne.
  unfold validate_table_import, run_frame, try_except.
  unfold bind at 1. unfold lift_outcome. rewrite Hcsv.
  assert ((len csv_rows =? 0) = false) as ->.
  { apply Z.eqb_neq. unfold len. destruct csv_rows; [done|]. simpl. lia. }
  reflexivity.
Qed.

Lemma closing_import_body csv_rows staging_table dw_table id_column :
  closing
    (do staging_count <- call (_get_row_count db staging_table);
     do dw_count <- call (_get_row_count db dw_table);
     when (negb (len csv_rows =? staging_count))
       (issues_append (mismatch_issue (len csv_rows) staging_count)) ;;
     import_checks db repr_list csv_rows staging_table dw_table id_column
       staging_count dw_count)%py.
Proof.
  apply closing_bind; [apply steady_get_row_count|intros s].
  apply closing_bind; [apply steady_get_row_count|intros d].
  apply closing_bind; [apply steady_when, steady_issues_append|intros _].
  apply closing_import_checks.
Qed.

Lemma closing_merge_body staging_table dw_table expected_updates expected_inserts :
  closing
    (do staging_count <- call (_get_row_count db staging_table);
     do dw_count <- call (_get_row_count db dw_table);
     when (dw_count <? staging_count)
       (issues_append
          ("Not all staging records in DW: "
           +:+ "Staging=" +:+ fmt_comma staging_count +:+ ", DW=" +:+ fmt_comma dw_count)) ;;
     when (bool_decide (expected_updates ≠ None) || bool_decide (expected_inserts ≠ None))
       (let expected_total := int_or_zero expected_updates + int_or_zero expected_inserts in
        when (negb (expected_total =? staging_count))
          (issues_append
             ("Merge count mismatch: "
              +:+ "Expected=" +:+ fmt_comma expected_total +:+ ", "
              +:+ "Staging=" +:+ fmt_comma staging_count))) ;;
     do fr <- get;
     ret (len (issues fr) =? 0, issues fr))%py.
Proof.
  apply closing_bind; [apply steady_get_row_count|intros s].
  apply closing_bind; [apply steady_get_row_count|intros d].
  apply closing_bind; [apply steady_when, steady_issues_append|intros _].
  apply closing_bind.
  { apply steady_when. cbv zeta. apply steady_when, steady_issues_append. }
  intros _. apply closing_final.
Qed.

End ValidatorBodies.

Section TypeCheckBodies.

Import DataValidator DataTypeCheck.
Context {W T : Type}.
Variable db : Cursor W.
Variable isinstance : Cell → T → bool.
Variable type_name : T → string.
Variable value_type_name : Cell → string.

(** The scan of one column's rows adds at most one issue, whether it
    returns or raises. *)
Lemma check_rows_adds table_name column expected_type rows (fr : Frame W) :
  ∃ o added,
    check_rows isinstance type_name value_type_name table_name column expected_type rows fr
    = (o, mkFrame (database fr) (issues fr ++ added))
    ∧ (length added ≤ 1)%nat.
Proof.
  induction rows as [|[|value row] rows IH].
  - exists (Returned tt), []. rewrite app_nil_r. split; [by destruct fr | simpl; lia].
  - eexists _, []. rewrite app_nil_r. simpl. unfold raise. split; [by destruct fr | lia].
  - simpl. destruct (negb (is_null value) && negb (isinstance value expected_type)).
    + eexists _, [_]. split; [reflexivity | simpl; lia].
    + exact IH.
Qed.

(** The scan of the columns adds at most one issue per column. *)
Lemma check_columns_adds table_name column_checks : ∀ (fr : Frame W),
  ∃ o fr' added,
    check_columns db isinstance type_name value_type_name table_name column_checks fr
    = (o, fr')
    ∧ issues fr' = issues fr ++ added
    ∧ (length added ≤ length column_checks)%nat.
Proof.
  induction column_checks as [|[column expected_type] rest IH]; intros fr.
  - exists (Returned tt), fr, []. rewrite app_nil_r. split; [done|]. split; [done|]. simpl. lia.
  - cbn [check_columns]. unfold bind at 1. unfold call at 1.
    destruct (execute db _ None (database fr)) as [[[]|e] w1].
    2:{ eexists _, _, []. split; [reflexivity|]. rewrite app_nil_r.
        split; [done | simpl; lia]. }
    unfold bind at 1. unfold call at 1. cbn [database issues].
    destruct (fetchall db w1) as [[rows|e] w2].
    2:{ eexists _, _, []. split; [reflexivity|]. rewrite app_nil_r.
        split; [done | simpl; lia]. }
    unfold bind at 1.
    destruct (check_rows_adds table_name column expected_type rows (mkFrame w2 (issues fr)))
      as (o & added & Heq & Hlen).
    rewrite Heq. cbn [database issues].
    destruct o as [[]|e].
    + destruct (IH (mkFrame w2 (issues fr ++ added))) as (o' & fr' & added' & Heq' & Hi & Hl).
      exists o', fr', (added ++ added'). rewrite Heq'. split; [done|].
      cbn [issues] in Hi. rewrite Hi, app_assoc. split; [done|].
      rewrite length_app. simpl. lia.
    + eexists _, _, added. split; [reflexivity|]. split; [done | simpl; lia].
Qed.

Lemma check_columns_app table_name before after (fr : Frame W) :
  check_columns db isinstance type_name value_type_name table_name (before ++ after) fr
  = (check_columns db isinstance type_name value_type_name table_name before ;;
     check_columns db isinstance type_name value_type_name table_name after)%py fr.
Proof.
  revert fr. induction before as [|[column expected_type] rest IH]; intros fr; [done|].
  cbn [app check_columns]. unfold bind.
  destruct (call (execute db _ None) fr) as [[[]|e] fr1]; [|done].
  destruct (call (fetchall db) fr1) as [[rows|e] fr2]; [|done].
  destruct (check_rows _ _ _ _ _ _ _ fr2) as [[[]|e] fr3]; [|done].
  rewrite IH. reflexivity.
Qed.

End TypeCheckBodies.

(** X14. Every validation returns a flag and an issue list that agree: the
    result has passed exactly when its issue list is empty.  This holds for
    table-import validation, merge validation, the referential-integrity
    check and the data-type validation, on every path, the handled
    exception included. *)
Theorem verdicts_agree {W T : Type} (db : DataValidator.Cursor W)
    (csv_rows_of : string -> Outcome (list (gmap string (option string))))
    (repr_list : list string -> string)
    (isinstance : Cell -> T -> bool) (type_name : T -> string)
    (value_type_name : Cell -> string) (w : W) :
  (∀ csv_content staging_table dw_table id_column,
     verdict_agrees (DataValidator.validate_table_import db csv_rows_of repr_list
                       csv_content staging_table dw_table id_column w).1)
  ∧ (∀ staging_table dw_table expected_updates expected_inserts,
     verdict_agrees (DataValidator.validate_merge_operation db staging_table dw_table
                       expected_updates expected_inserts w).1)
  ∧ (∀ child_table parent_table foreign_key parent_key,
     verdict_agrees (DataValidator.check_referential_integrity db child_table
                       parent_table foreign_key parent_key w).1)
  ∧ (∀ table_name column_checks,
     verdict_agrees (DataTypeCheck.validate_data_types db isinstance type_name
                       value_type_name table_name column_checks w).1).
Proof.
  split; [|split; [|split]].
  - intros. apply guarded_frame_verdict. intros fr.
    unfold bind at 1. unfold DataValidator.lift_outcome.
    destruct (csv_rows_of csv_content) as [csv_rows|e]; [|done].
    destruct (len csv_rows =? 0); [done|].
    apply (closing_agrees _ (closing_import_body db repr_list csv_rows staging_table
                               dw_table id_column)).
  - intros. apply guarded_frame_verdict.
    apply (closing_agrees _ (closing_merge_body db staging_table dw_table
                               expected_updates expected_inserts)).
  - intros. apply guarded_frame_verdict. intros fr.
    unfold bind at 1. destruct (DataValidator.call _ fr) as [[[]|e] fr1]; [|done].
    unfold bind at 1. destruct (DataValidator.call _ fr1) as [[result|e] fr2]; [|done].
    unfold bind at 1. unfold DataValidator.when.
    destruct (0 <? DataValidator.first_or_zero result); simpl; apply len_eqb_nil.
  - intros. apply guarded_frame_verdict. intros fr.
    unfold bind at 1.
    destruct (DataTypeCheck.check_columns _ _ _ _ _ _ fr) as [[[]|e] fr1]; [|done].
    simpl. apply len_eqb_nil.
Qed.

Section ImportMismatch.

Import DataValidator.
Context {W : Type}.
Variable db : Cursor W.
Variable csv_rows_of : string → Outcome (list (gmap string (option string))).
Variable repr_list : list string → string.

Lemma call_returns {A} (c : M W A) (fr : Frame W) :
  (∀ w, is_raised (c w).1 = false) →
  ∃ a w', call c fr = (Returned a, mkFrame w' (issues fr)).
Proof.
  intros Hc. unfold call. specialize (Hc (database fr)).
  destruct (c (database fr)) as [[a|e] w']; [|done]. by exists a, w'.
Qed.

Lemma mismatch_goes_first csv_content staging_table dw_table id_column csv_rows
    (w w1 : W) staging_count :
  csv_rows_of csv_content = Returned csv_rows →
  csv_rows ≠ [] →
  _get_row_count db staging_table w = (Returned staging_count, w1) →
  staging_count ≠ len csv_rows →
  ∃ more w',
    validate_table_import db csv_rows_of repr_list csv_content staging_table dw_table
      id_column w
    = (Returned (false, mismatch_issue (len csv_rows) staging_count :: more), w').
Proof.
  intros Hcsv Hne Hcount Hdiff.
  rewrite (validate_table_import_rows db csv_rows_of repr_list _ _ _ _ csv_rows w Hcsv Hne).
  unfold run_frame, try_except. unfold bind at 1. unfold call at 1.
  cbn [database issues]. rewrite Hcount.
  unfold bind at 1.
  destruct (call_returns (_get_row_count db dw_table) (mkFrame w1 []))
    as (dw_count & w2 & Heq).
  { intros w0. apply guarded_default_returns. }
  rewrite Heq. cbn [issues].
  assert ((len csv_rows =? staging_count) = false) as ->.
  { apply Z.eqb_neq. congruence. }
  unfold bind at 1. cbn [negb when]. unfold issues_append, modify.
  cbn [database issues app].
  destruct (closing_import_checks db repr_list csv_rows staging_table dw_table id_column
              staging_count dw_count
              (mkFrame w2 [mismatch_issue (len csv_rows) staging_count]))
    as (more & fr2 & Hrest).
  rewrite Hrest. cbn [issues app].
  exists more, (database fr2). reflexivity.
Qed.

End ImportMismatch.

(** X15. For a source with rows, a staging count that differs from the
    number of source rows makes the result fail with the row count
    mismatch as its first issue, naming both counts and their distance,
    whatever the later checks add.  A staging count query that fails reads
    as a count of zero, so it is reported as such a mismatch against zero
    rather than as a fault. *)
Theorem count_mismatch_reported_first {W : Type} (db : DataValidator.Cursor W)
    (csv_rows_of : string -> Outcome (list (gmap string (option string))))
    (repr_list : list string -> string)
    (csv_content staging_table dw_table id_column : string)
    (csv_rows : list (gmap string (option string))) (w : W) :
  csv_rows_of csv_content = Returned csv_rows →
  csv_rows ≠ [] →
  (∀ staging_count w1,
     DataValidator._get_row_count db staging_table w = (Returned staging_count, w1) →
     staging_count ≠ len csv_rows →
     ∃ more w',
       DataValidator.validate_table_import db csv_rows_of repr_list csv_content
         staging_table dw_table id_column w
       = (Returned (false, mismatch_issue (len csv_rows) staging_count :: more), w'))
  ∧ (∀ e w1,
     DataValidator.execute db ("SELECT COUNT(*) FROM " +:+ staging_table) None w
     = (Raised e, w1) →
     ∃ more w',
       DataValidator.validate_table_import db csv_rows_of repr_list csv_content
         staging_table dw_table id_column w
       = (Returned (false, mismatch_issue (len csv_rows) 0 :: more), w')).
Proof.
  intros Hcsv Hne. split.
  - intros staging_count w1 Hcount Hdiff. by eapply mismatch_goes_first.
  - intros e w1 Hex. eapply mismatch_goes_first; [done|done| |].
    + unfold DataValidator._get_row_count, try_except, bind. by rewrite Hex.
    + unfold len. destruct csv_rows; [done|]. simpl. lia.
Qed.

Lemma count_mismatch_reported_first_witness :
  ∃ more w',
    DataValidator.validate_table_import failing_cursor sample_reader simple_repr
      "ten rows" "STG_BOATS" "DW_BOATS" "ID" tt
    = (Returned (false, mismatch_issue 10 0 :: more), w').
Proof.
  apply (proj2 (count_mismatch_reported_first failing_cursor sample_reader simple_repr
                  "ten rows" "STG_BOATS" "DW_BOATS" "ID" (numbered_row <$> seq 1 10) tt
                  eq_refl ltac:(discriminate))
           (DatabaseError unknown_statement) tt eq_refl).
Defined.

(** X17. Table-import validation looks at the source rows only through
    their number and the ids of the first five: two sources with equally
    many rows and the same first five rows get the same result from the
    same database, so an id that is missing from the warehouse is not
    noticed when it sits in the sixth row or later. *)
Theorem validation_ignores_rows_after_fifth {W : Type} (db : DataValidator.Cursor W)
    (csv_rows_of : string -> Outcome (list (gmap string (option string))))
    (repr_list : list string -> string)
    (content1 content2 staging_table dw_table id_column : string)
    (rows1 rows2 : list (gmap string (option string))) (w : W) :
  csv_rows_of content1 = Returned rows1 →
  csv_rows_of content2 = Returned rows2 →
  length rows1 = length rows2 →
  take 5 rows1 = take 5 rows2 →
  DataValidator.validate_table_import db csv_rows_of repr_list content1
    staging_table dw_table id_column w
  = DataValidator.validate_table_import db csv_rows_of repr_list content2
      staging_table dw_table id_column w.
Proof.
  intros H1 H2 Hlen Htake.
  assert (Hl : len rows1 = len rows2) by (unfold len; by rewrite Hlen).
  assert (Hs : DataValidator.sample_ids id_column rows1
               = DataValidator.sample_ids id_column rows2).
  { unfold DataValidator.sample_ids. by rewrite Htake. }
  destruct (decide (rows1 = [])) as [->|Hne].
  - destruct rows2; [|done].
    unfold DataValidator.validate_table_import, DataValidator.run_frame, try_except,
      bind, DataValidator.lift_outcome.
    by rewrite H1, H2.
  - assert (rows2 ≠ []) as Hne2.
    { intros ->. destruct rows1; [done|]. discriminate Hlen. }
    rewrite (validate_table_import_rows db csv_rows_of repr_list _ _ _ _ rows1 w H1 Hne).
    rewrite (validate_table_import_rows db csv_rows_of repr_list _ _ _ _ rows2 w H2 Hne2).
    unfold import_checks. rewrite Hl, Hs. reflexivity.
Qed.

Lemma validation_ignores_rows_after_fifth_witness :
  DataValidator.validate_table_import mini_cursor tail_reader simple_repr
    "as staged" "STG_BOATS" "DW_BOATS" "ID" sample_db
  = DataValidator.validate_table_import mini_cursor tail_reader simple_repr
      "tail changed" "STG_BOATS" "DW_BOATS" "ID" sample_db.
Proof.
  apply (validation_ignores_rows_after_fifth mini_cursor tail_reader simple_repr
           "as staged" "tail changed" "STG_BOATS" "DW_BOATS" "ID"
           (numbered_row <$> seq 1 10)
           ((numbered_row <$> seq 1 5) ++ (numbered_row <$> seq 101 5)) sample_db).
  - reflexivity.
  - reflexivity.
  - reflexivity.
  - reflexivity.
Defined.

(** The source whose rows six to ten are not in the warehouse passes. *)
Example unsampled_rows_pass :
  (DataValidator.validate_table_import mini_cursor tail_reader simple_repr
     "tail changed" "STG_BOATS" "DW_BOATS" "ID" sample_db).1
  = Returned (true, []).
Proof. vm_compute. reflexivity. Qed.

Section IdLookup.

Import DataValidator.
Context {W : Type}.
Variable db : Cursor W.

Lemma first_cells_full rows :
  Forall (fun r : list Cell => r ≠ []) rows →
  first_cells rows = Returned (cell_str <$> omap head rows).
Proof.
  induction 1 as [|[|c r] rows Hr Hrows IH]; [done|done|].
  simpl. by rewrite IH.
Qed.

Lemma first_cells_short rows :
  [] ∈ rows → ∃ e, first_cells rows = Raised e.
Proof.
  induction rows as [|[|c r] rows IH]; intros Hin.
  - by apply not_elem_of_nil in Hin.
  - by eexists.
  - apply elem_of_cons in Hin as [?|Hin]; [done|].
    destruct (IH Hin) as [e He]. exists e. simpl. by rewrite He.
Qed.

Lemma check_ids_exist_fetched table_name id_column ids (w w1 w2 : W) rows :
  ids ≠ [] →
  execute db (ids_query table_name id_column (length ids)) (Some ids) w = (Returned tt, w1) →
  fetchall db w1 = (Returned rows, w2) →
  _check_ids_exist db table_name id_column ids w
  = (Returned (match first_cells rows with
               | Returned found_ids => filter (fun id_val => id_val ∉ found_ids) ids
               | Raised _ => []
               end), w2).
Proof.
  intros Hne Hex Hfetch. unfold _check_ids_exist, try_except.
  destruct ids as [|i ids]; [done|]. cbn [list_truthy negb].
  unfold bind. rewrite Hex, Hfetch. by destruct (first_cells rows).
Qed.

End IdLookup.

(** X16. The sample-id lookup asks nothing of the database for an empty
    list of ids.  Otherwise the ids reported missing are, in their order,
    the ids that are not the text of the first column of any fetched row,
    so a number in the warehouse matches the same digits in the source; and
    when a fetched row is empty, or the fetch fails, no id is reported
    missing at all. *)
Theorem check_ids_exist_reports {W : Type} (db : DataValidator.Cursor W)
    (table_name id_column : string) (ids : list string) (w : W) :
  (ids = [] →
   DataValidator._check_ids_exist db table_name id_column ids w = (Returned [], w))
  ∧ (ids ≠ [] → ∀ w1,
     DataValidator.execute db
       (DataValidator.ids_query table_name id_column (length ids)) (Some ids) w
     = (Returned tt, w1) →
     (∀ rows w2,
        DataValidator.fetchall db w1 = (Returned rows, w2) →
        (Forall (fun r => r ≠ []) rows →
         DataValidator._check_ids_exist db table_name id_column ids w
         = (Returned (filter (fun id_val => id_val ∉ (cell_str <$> omap head rows)) ids),
            w2))
        ∧ ([] ∈ rows →
           DataValidator._check_ids_exist db table_name id_column ids w
           = (Returned [], w2)))
     ∧ (∀ e w2,
        DataValidator.fetchall db w1 = (Raised e, w2) →
        DataValidator._check_ids_exist db table_name id_column ids w
        = (Returned [], w2))).
Proof.
  split.
  - intros ->. reflexivity.
  - intros Hne w1 Hex. split.
    + intros rows w2 Hfetch. split.
      * intros Hfull.
        rewrite (check_ids_exist_fetched db _ _ _ _ _ _ _ Hne Hex Hfetch).
        by rewrite first_cells_full.
      * intros Hshort.
        rewrite (check_ids_exist_fetched db _ _ _ _ _ _ _ Hne Hex Hfetch).
        by destruct (first_cells_short rows Hshort) as [e ->].
    + intros e w2 Hfetch. unfold DataValidator._check_ids_exist, try_except.
      destruct ids as [|i ids]; [done|]. cbn [list_truthy negb].
      unfold bind. by rewrite Hex, Hfetch.
Qed.

Lemma check_ids_exist_reports_witness :
  DataValidator._check_ids_exist mini_cursor "DW_BOATS" "ID" ["3"; "77"; "5"] sample_db
  = (Returned (filter (fun id_val => id_val ∉ (cell_str <$> omap head [[CStr "3"]; [CStr "5"]]))
                 ["3"; "77"; "5"]),
     mkMiniDb (contents sample_db) None []).
Proof.
  apply (proj1 (proj1 (proj2 (check_ids_exist_reports mini_cursor "DW_BOATS" "ID"
                                ["3"; "77"; "5"] sample_db)
                         ltac:(discriminate)
                         (mkMiniDb (contents sample_db) None [[CStr "3"]; [CStr "5"]])
                         eq_refl)
                  [[CStr "3"]; [CStr "5"]] (mkMiniDb (contents sample_db) None [])
                  eq_refl)).
  repeat constructor; discriminate.
Defined.

(** X18. The data-type validation never raises, and its issue list holds
    at most one issue per checked column, plus the one message of a
    handled exception. *)
Theorem validate_data_types_bounded {W T : Type} (db : DataValidator.Cursor W)
    (isinstance : Cell -> T -> bool) (type_name : T -> string)
    (value_type_name : Cell -> string)
    (table_name : string) (column_checks : list (string * T)) (w : W) :
  ∃ passed found w',
    DataTypeCheck.validate_data_types db isinstance type_name value_type_name
      table_name column_checks w
    = (Returned (passed, found), w')
    ∧ (length found ≤ length column_checks + 1)%nat
    ∧ (passed = true → (length found ≤ length column_checks)%nat).
Proof.
  unfold DataTypeCheck.validate_data_types, DataValidator.run_frame, try_except.
  unfold bind at 1.
  destruct (check_columns_adds db isinstance type_name value_type_name table_name
              column_checks (DataValidator.mkFrame w []))
    as (o & fr' & added & Heq & Hi & Hlen).
  rewrite Heq. cbn [DataValidator.issues app] in Hi.
  destruct o as [[]|e].
  - eexists _, _, _. split; [reflexivity|]. cbn [DataValidator.issues]. rewrite Hi.
    split; [lia|]. intros _. lia.
  - eexists _, _, _. split; [reflexivity|].
    cbn [DataValidator.issues DataValidator.database]. rewrite Hi, length_app. simpl.
    split; [lia | done].
Qed.

(** X19. A failing query aborts the data-type validation at its column:
    the issues found for the columns before it are kept, the exception's
    message is added after them, the result has not passed, and the
    columns after it are never looked at. *)
Theorem validate_data_types_aborts {W T : Type} (db : DataValidator.Cursor W)
    (isinstance : Cell -> T -> bool) (type_name : T -> string)
    (value_type_name : Cell -> string)
    (table_name column : string) (expected_type : T)
    (before after : list (string * T)) (found : list string)
    (w w1 w2 : W) (e : PyExn) :
  DataTypeCheck.check_columns db isinstance type_name value_type_name table_name before
    (DataValidator.mkFrame w [])
  = (Returned tt, DataValidator.mkFrame w1 found) →
  DataValidator.execute db (DataTypeCheck.types_query table_name column) None w1
  = (Raised e, w2) →
  DataTypeCheck.validate_data_types db isinstance type_name value_type_name table_name
    (before ++ (column, expected_type) :: after) w
  = (Returned (false, found ++ ["Data type validation exception: " +:+ exn_str e]), w2).
Proof.
  intros Hbefore Hex.
  unfold DataTypeCheck.validate_data_types, DataValidator.run_frame, try_except.
  unfold bind at 1. rewrite check_columns_app. unfold bind at 1. rewrite Hbefore.
  cbn [DataTypeCheck.check_columns]. unfold bind at 1. unfold DataValidator.call at 1.
  cbn [DataValidator.database DataValidator.issues]. rewrite Hex. reflexivity.
Qed.

Lemma validate_data_types_aborts_witness :
  DataTypeCheck.validate_data_types scripted_cursor sample_isinstance sample_type_name
    sample_value_type_name "DW_BOATS" sample_checks (sample_script, [])
  = (Returned (false, ["DW_BOATS.ID: Expected int, got str";
                       "Data type validation exception: "
                         +:+ "ORA-00942: table or view does not exist"]),
     ([inr [[CStr "short"]]], [])).
Proof.
  apply (validate_data_types_aborts scripted_cursor sample_isinstance sample_type_name
           sample_value_type_name "DW_BOATS" "NAME" PyStr [("ID", PyInt)]
           [("LENGTH", PyInt)] ["DW_BOATS.ID: Expected int, got str"]
           (sample_script, [])
           ([inl (DatabaseError unknown_statement); inr [[CStr "short"]]], [])
           ([inr [[CStr "short"]]], []) (DatabaseError unknown_statement)).
  - reflexivity.
  - reflexivity.
Defined.

(** X20. Merge validation is decided by the two row counts it reads: it
    passes exactly when the warehouse has at least as many rows as staging
    and, if an expected count was given, the expected updates and inserts
    (a missing one counting as zero) add up to the staging count. *)
Theorem validate_merge_operation_verdict {W : Type} (db : DataValidator.Cursor W)
    (staging_table dw_table : string) (expected_updates expected_inserts : option Z)
    (w w1 w2 : W) (staging_count dw_count : Z) :
  DataValidator._get_row_count db staging_table w = (Returned staging_count, w1) →
  DataValidator._get_row_count db dw_table w1 = (Returned dw_count, w2) →
  ∃ passed found,
    DataValidator.validate_merge_operation db staging_table dw_table
      expected_updates expected_inserts w
    = (Returned (passed, found), w2)
    ∧ (passed = true
       ↔ staging_count ≤ dw_count
         ∧ ((expected_updates = None ∧ expected_inserts = None)
            ∨ DataValidator.int_or_zero expected_updates
              + DataValidator.int_or_zero expected_inserts = staging_count)).
Proof.
  intros Hs Hd.
  set (total := DataValidator.int_or_zero expected_updates
                + DataValidator.int_or_zero expected_inserts).
  set (given := bool_decide (expected_updates ≠ None)
                || bool_decide (expected_inserts ≠ None)).
  exists (negb (dw_count <? staging_count) && negb (given && negb (total =? staging_count))),
    ((if dw_count <? staging_count
      then ["Not all staging records in DW: "
            +:+ "Staging=" +:+ fmt_comma staging_count +:+ ", DW=" +:+ fmt_comma dw_count]
      else [])
     ++ (if given && negb (total =? staging_count)
         then ["Merge count mismatch: "
               +:+ "Expected=" +:+ fmt_comma total +:+ ", "
               +:+ "Staging=" +:+ fmt_comma staging_count]
         else [])).
  split.
  - unfold DataValidator.validate_merge_operation, DataValidator.run_frame, try_except.
    unfold bind at 1. unfold DataValidator.call at 1.
    cbn [DataValidator.database DataValidator.issues]. rewrite Hs.
    unfold bind at 1. unfold DataValidator.call at 1.
    cbn [DataValidator.database DataValidator.issues]. rewrite Hd.
    unfold bind, DataValidator.when, DataValidator.issues_append, modify, get, ret.
    cbv zeta. fold total. fold given.
    destruct (dw_count <? staging_count); destruct given;
      destruct (total =? staging_count); reflexivity.
  - rewrite andb_true_iff, !negb_true_iff, andb_false_iff, negb_false_iff.
    rewrite Z.ltb_ge, Z.eqb_eq.
    assert (Hg : given = false ↔ expected_updates = None ∧ expected_inserts = None).
    { subst given. destruct expected_updates, expected_inserts; simpl; split;
        intros H; try done; by destruct H. }
    rewrite Hg. reflexivity.
Qed.

Lemma validate_merge_operation_verdict_witness :
  ∃ passed found,
    DataValidator.validate_merge_operation failing_cursor "STG_BOATS" "DW_BOATS"
      None None tt
    = (Returned (passed, found), tt)
    ∧ (passed = true
       ↔ 0 ≤ 0
         ∧ ((@None Z = None ∧ @None Z = None)
            ∨ DataValidator.int_or_zero None + DataValidator.int_or_zero None = 0)).
Proof.
  apply (validate_merge_operation_verdict failing_cursor "STG_BOATS" "DW_BOATS"
           None None tt tt tt 0 0 eq_refl eq_refl).
Defined.

Lemma omap_length_le {A B} (f : A → option B) (l : list A) :
  (length (omap f l) ≤ length l)%nat.
Proof.
  induction l as [|a l IH]; [done|]. csimpl. destruct (f a); csimpl; csimpl in IH; lia.
Qed.

(** X21. The sampled ids come from the first five source rows only: each
    is a non-empty value found under the id column or, when that one is
    missing or empty, under the spelling Id; there are at most five, and a
    row without either contributes none. *)
Theorem sample_ids_from_first_five (id_column : string)
    (csv_rows : list (gmap string (option string))) :
  (length (DataValidator.sample_ids id_column csv_rows) ≤ 5)%nat
  ∧ DataValidator.sample_ids id_column csv_rows
    = DataValidator.sample_ids id_column (take 5 csv_rows)
  ∧ ∀ x, x ∈ DataValidator.sample_ids id_column csv_rows
         ↔ x ≠ ""
           ∧ ∃ row, row ∈ take 5 csv_rows
                    ∧ (DataValidator.row_get id_column row = Some x
                       ∨ (DataValidator.str_truthy (DataValidator.row_get id_column row)
                          = false
                          ∧ DataValidator.row_get "Id" row = Some x)).
Proof.
  split; [|split].
  - unfold DataValidator.sample_ids.
    etrans; [apply omap_length_le|]. rewrite length_take. lia.
  - unfold DataValidator.sample_ids. by rewrite take_take.
  - intros x. unfold DataValidator.sample_ids. rewrite list_elem_of_omap. split.
    + intros (row & Hin & Hv). unfold DataValidator.str_or in Hv.
      destruct (DataValidator.str_truthy (DataValidator.row_get id_column row)) eqn:Ht.
      * rewrite Ht in Hv. split.
        -- intros ->. rewrite Hv in Ht. discriminate Ht.
        -- exists row. split; [done|]. by left.
      * destruct (DataValidator.str_truthy (DataValidator.row_get "Id" row)) eqn:Ht';
          [|done].
        split.
        -- intros ->. rewrite Hv in Ht'. discriminate Ht'.
        -- exists row. split; [done|]. by right.
    + intros (Hne & row & Hin & Hcase). exists row. split; [done|].
      assert (Hx : DataValidator.str_truthy (Some x) = true).
      { simpl. apply negb_true_iff, String.eqb_neq. done. }
      unfold DataValidator.str_or. destruct Hcase as [Hc|[Hf Hc]].
      * rewrite Hc, Hx. by rewrite Hx.
      * rewrite Hf, Hc. by rewrite Hx.
Qed.
